(** * kvirt.providers.gcp: the Kgcp provider adapter

    A shallow embedding of [src/kvirt/providers/gcp/__init__.py].

    The adapter is a Python class whose methods talk to three remote
    collaborators (the compute API [self.conn], the DNS client and the
    object-storage client).  Every method is embedded as a program in a
    small free monad [prog]: a tree whose nodes are the backend calls the
    method issues, in order, and whose leaves are the value it returns or
    the exception it lets escape.  A program is run against an arbitrary
    [Backend], a state machine that answers each call with a response or
    with an exception; running yields the outcome, the final backend state
    and the chronological trace of calls, sleeps and log lines. *)

From Stdlib Require Import String Ascii List ZArith Lia Bool DecimalString.
Import ListNotations.

Local Open Scope string_scope.
Local Open Scope Z_scope.

(** ** Python built-ins used by the adapter *)

Module Py.

(** [sub in s] on strings. *)
Definition contains (sub s : string) : bool :=
  match index 0 sub s with
  | Some _ => true
  | None => false
  end.

(** [s.split(sep)] for a one-character separator, the only form the
    adapter uses.  The result is never empty. *)
Fixpoint split (sep : ascii) (s : string) : list string :=
  match s with
  | EmptyString => [EmptyString]
  | String c s' =>
      if Ascii.eqb c sep then EmptyString :: split sep s'
      else match split sep s' with
           | [] => [String c EmptyString]
           | hd :: tl => String c hd :: tl
           end
  end.

(** [sep.join(l)]. *)
Definition join (sep : string) (l : list string) : string := String.concat sep l.

(** [s.startswith(p)] and [s.endswith(p)]. *)
Definition startswith (s p : string) : bool := prefix p s.

Fixpoint drop (n : nat) (s : string) : string :=
  match n, s with
  | O, _ => s
  | S n', String _ s' => drop n' s'
  | S _, EmptyString => EmptyString
  end.

Definition endswith (s p : string) : bool :=
  (String.length p <=? String.length s)%nat
  && String.eqb (drop (String.length s - String.length p) s) p.

(** [s.replace(old, new)] for a non-empty [old]: the occurrences are
    replaced from left to right, without overlap.  [skip] counts the
    characters of a match that are still to be dropped. *)
Fixpoint replace_from (old new : string) (skip : nat) (s : string) : string :=
  match s with
  | EmptyString => EmptyString
  | String c s' =>
      match skip with
      | S k => replace_from old new k s'
      | O =>
          if prefix old s
          then new ++ replace_from old new (String.length old - 1) s'
          else String c (replace_from old new O s')
      end
  end.

Definition replace (old new s : string) : string := replace_from old new O s.

(** [os.path.basename(p)]: what follows the last slash. *)
Definition basename (p : string) : string := last (split "/" p) EmptyString.

(** [str(n)] for an integer, as an f-string formats it. *)
Definition str_of_int (n : Z) : string := NilZero.string_of_int (Z.to_int n).

(** The values the resize methods receive for [memory] and [numcpus]:
    Python does not fix their type, and [create] of the same class computes
    with them as integers while the resize methods compare them with
    pieces of a machine-type string. *)
Inductive value : Type :=
| Int (n : Z)
| Str (s : string).

(** [f"{v}"]. *)
Definition format (v : value) : string :=
  match v with
  | Int n => str_of_int n
  | Str s => s
  end.

(** [v == s] where [s] is a [str]: an [int] never equals a [str]. *)
Definition eq_str (v : value) (s : string) : bool :=
  match v with
  | Int _ => false
  | Str s' => String.eqb s' s
  end.

End Py.

(** ** Exceptions, log lines and the results the methods return *)

Inductive exn : Type :=
| HttpError (msg : string)      (* raised by [.execute()] or a client call *)
| KeyError (key : string)
| IndexError (msg : string)
| ValueError (msg : string)
| TypeError (msg : string)
| AttributeError (msg : string).

Inductive level : Type := Info_ | Warning_ | Error_.

(** What a public method hands back: the dictionaries
    [{'result': 'success'}] and [{'result': 'failure', 'reason': r}], or
    [None] where the method ends in a bare [return] or falls off its end. *)
Inductive answer : Type :=
| Success
| Failure (reason : string)
| PyNone.


(** ** Backend resources *)

(** The handle a mutating compute call returns. *)
Record operation : Type := mkOperation {
  op_name : string;
  op_selfLink : string;
  op_targetLink : string
}.

Record op_error : Type := mkOpError {
  err_code : string;
  err_message : string
}.

(** The answer to one poll of an operation.  [httpErrorMessage] and [error]
    are optional keys of the response; [chk_errors] is [check['error']['errors']]. *)
Record op_check : Type := mkCheck {
  chk_status : string;
  chk_httpErrorMessage : option string;
  chk_errors : option (list op_error)
}.

Record access_config : Type := mkAccessConfig {
  natIP : option string
}.

Record nic : Type := mkNic {
  networkIP : option string;
  accessConfigs : option (list access_config);
  nic_fingerprint : string;
  subnetwork : option string
}.

Record instance : Type := mkInstance {
  vm_status : string;
  machineType : string;
  networkInterfaces : list nic
}.

Record address : Type := mkAddress {
  addr_address : string;
  addr_labels : option (list (string * string));
  addr_labelFingerprint : string
}.

Record secondary_range : Type := mkRange {
  rangeName : string;
  ipCidrRange : string
}.

Record subnet_body : Type := mkSubnetBody {
  sn_name : string;
  sn_ipCidrRange : string;
  sn_network : string;
  sn_region : string;
  sn_secondaryIpRanges : option (list secondary_range)
}.

(** A subnetwork as [subnetworks().get] returns it. *)
Record subnet : Type := mkSubnet {
  secondaryIpRanges : option (list secondary_range)
}.

Record firewall_body : Type := mkFirewallBody {
  fw_name : string;
  fw_network : string;
  fw_sourceRanges : list string;
  fw_allowed : list (string * list string)
}.

Record alias_body : Type := mkAliasBody {
  al_ipCidrRange : string;
  al_subnetworkRangeName : string;
  al_fingerprint : string
}.

Record dns_zone : Type := mkZone {
  dns_name : string;
  zone_name : string
}.

Record record_set : Type := mkRecordSet {
  rr_name : string;
  rr_type : string;
  rr_ttl : Z;
  rr_datas : list string
}.

(** ** Backend calls

    One constructor per remote call the embedded methods issue.  The
    project, zone and region every call carries are the adapter's own and
    constant; they are kept only where the code varies them. *)

Inductive call : Type :=
(* compute API, [self.conn] and [self.conn_beta] *)
| zoneOperations_get (operation : string)
| regionOperations_get (operation : string)
| globalOperations_get (operation : string)
| instances_get (instance : string)
| instances_insert (name machineType : string)
| instances_setMachineType (instance machineType : string)
| instances_updateAccessConfig (instance networkInterface natIP : string)
| instances_updateNetworkInterface (instance networkInterface : string) (body : alias_body)
| networks_insert (name : string) (autoCreateSubnetworks : bool)
| subnetworks_insert (body : subnet_body)
| subnetworks_get (project : list string + string) (subnetwork : string)
| firewalls_insert (body : firewall_body)
| firewalls_list
| firewalls_delete (firewall : string)
| forwardingRules_list
| forwardingRules_delete (forwardingRule : string)
| addresses_get (address : string)
| addresses_insert (name address : string)
| addresses_delete (address : string)
| regionBackendServices_list
| regionBackendServices_delete (backendService : string)
| regionHealthChecks_list
| regionHealthChecks_delete (healthCheck : string)
| healthChecks_list
| healthChecks_delete (healthCheck : string)
| instanceGroups_list
| instanceGroups_delete (instanceGroup : string)
(* DNS client *)
| dns_list_zones
| dns_list_resource_record_sets (zone : string)
| dns_changes_create (zone : string) (additions deletions : list record_set)
(* object-storage client *)
| storage_list_buckets
| storage_create_bucket (bucket : string)
| storage_get_bucket (bucket : string)
| storage_acl_save (bucket : string).

(** What each call returns when it does not raise.  The list calls return
    the [name] of every item. *)
Definition resp_of (c : call) : Type :=
  match c with
  | zoneOperations_get _ | regionOperations_get _ | globalOperations_get _ => op_check
  | instances_get _ => instance
  | subnetworks_get _ _ => option subnet
  | addresses_get _ => address
  | firewalls_list | forwardingRules_list | regionBackendServices_list
  | regionHealthChecks_list | healthChecks_list | instanceGroups_list => list string
  | dns_list_zones => list dns_zone
  | dns_list_resource_record_sets _ => list record_set
  | storage_list_buckets => list string
  | dns_changes_create _ _ _ | storage_create_bucket _ | storage_get_bucket _
  | storage_acl_save _ => unit
  | _ => operation
  end.

(** The calls that change backend state. *)
Definition mutating (c : call) : bool :=
  match c with
  | instances_insert _ _ | instances_setMachineType _ _
  | instances_updateAccessConfig _ _ _ | instances_updateNetworkInterface _ _ _
  | networks_insert _ _ | subnetworks_insert _ | firewalls_insert _
  | firewalls_delete _ | forwardingRules_delete _
  | addresses_insert _ _ | addresses_delete _
  | regionBackendServices_delete _ | regionHealthChecks_delete _
  | healthChecks_delete _ | instanceGroups_delete _
  | dns_changes_create _ _ _ | storage_create_bucket _ | storage_acl_save _ => true
  | _ => false
  end.

(** ** Programs *)

Inductive result (A : Type) : Type :=
| Ok (a : A)
| Err (e : exn).
Arguments Ok {A} a.
Arguments Err {A} e.

(** What a run leaves in its trace besides the calls. *)
Inductive event : Type :=
| Called (c : call)
| Slept (seconds : Z)
| Logged (l : level) (msg : string).

(** A method body: it returns, raises, issues a call and goes on with what
    the backend answered (a response or an exception), sleeps or logs and
    goes on, or is a loop that ran out of [fuel]. *)
Inductive prog (A : Type) : Type :=
| Ret (a : A)
| Raise (e : exn)
| Call (c : call) (k : result (resp_of c) -> prog A)
| Tell (ev : event) (k : prog A)
| Spin.
Arguments Ret {A} a.
Arguments Raise {A} e.
Arguments Call {A} c k.
Arguments Tell {A} ev k.
Arguments Spin {A}.

Fixpoint bind {A B : Type} (p : prog A) (f : A -> prog B) : prog B :=
  match p with
  | Ret a => f a
  | Raise e => Raise e
  | Call c k => Call c (fun r => bind (k r) f)
  | Tell ev k => Tell ev (bind k f)
  | Spin => Spin
  end.

(** [try: p except: h]. *)
Fixpoint try_except {A : Type} (p : prog A) (h : exn -> prog A) : prog A :=
  match p with
  | Ret a => Ret a
  | Raise e => h e
  | Call c k => Call c (fun r => try_except (k r) h)
  | Tell ev k => Tell ev (try_except k h)
  | Spin => Spin
  end.

(** [request.execute()]: the response, or the exception raised here. *)
Definition execute (c : call) : prog (resp_of c) :=
  Call c (fun r => match r with Ok a => Ret a | Err e => Raise e end).

Definition sleep (seconds : Z) : prog unit := Tell (Slept seconds) (Ret tt).
Definition pprint (msg : string) : prog unit := Tell (Logged Info_ msg) (Ret tt).
Definition warning (msg : string) : prog unit := Tell (Logged Warning_ msg) (Ret tt).
Definition error (msg : string) : prog unit := Tell (Logged Error_ msg) (Ret tt).

(** [l[0]], which raises [IndexError] on an empty list. *)
Definition first {A : Type} (l : list A) : prog A :=
  match l with
  | x :: _ => Ret x
  | [] => Raise (IndexError "list index out of range")
  end.

(** [d[key]] for an optional key of a response. *)
Definition item {A : Type} (key : string) (o : option A) : prog A :=
  match o with
  | Some a => Ret a
  | None => Raise (KeyError key)
  end.

Declare Scope prog_scope.
Delimit Scope prog_scope with prog.
Notation "x <- p ;; q" := (bind p (fun x => q))
  (at level 61, p at next level, right associativity) : prog_scope.
Notation "p ;; q" := (bind p (fun _ => q))
  (at level 61, right associativity) : prog_scope.
Notation "' pat <- p ;; q" := (bind p (fun x => match x with pat => q end))
  (at level 61, pat pattern, p at next level, right associativity) : prog_scope.
Local Open Scope prog_scope.

(** ** Running a program against a backend *)

Class Backend (W : Type) : Type :=
  exec : forall c : call, W -> result (resp_of c) * W.

Inductive outcome (A : Type) : Type :=
| Returned (a : A)
| Raised (e : exn)
| Diverged.
Arguments Returned {A} a.
Arguments Raised {A} e.
Arguments Diverged {A}.

Fixpoint run {W : Type} `{Backend W} {A : Type} (p : prog A) (w : W)
  : outcome A * W * list event :=
  match p with
  | Ret a => (Returned a, w, [])
  | Raise e => (Raised e, w, [])
  | Call c k =>
      let '(r, w1) := exec c w in
      let '(o, w2, tr) := run (k r) w1 in
      (o, w2, Called c :: tr)
  | Tell ev k =>
      let '(o, w1, tr) := run k w in
      (o, w1, ev :: tr)
  | Spin => (Diverged, w, [])
  end.

Definition outcome_of {A W : Type} (x : outcome A * W * list event) : outcome A :=
  fst (fst x).
Definition world_of {A W : Type} (x : outcome A * W * list event) : W :=
  snd (fst x).
Definition trace_of {A W : Type} (x : outcome A * W * list event) : list event :=
  snd x.

(** The mutating calls of a trace, the backend calls of a trace, and the
    time slept. *)
Definition is_mutation (ev : event) : bool :=
  match ev with
  | Called c => mutating c
  | _ => false
  end.

Definition mutations (tr : list event) : list event := filter is_mutation tr.

Definition is_call (ev : event) : bool :=
  match ev with
  | Called _ => true
  | _ => false
  end.

Definition calls (tr : list event) : list event := filter is_call tr.

Fixpoint slept (tr : list event) : Z :=
  match tr with
  | [] => 0
  | Slept n :: tr' => n + slept tr'
  | _ :: tr' => slept tr'
  end.

(** ** The adapter *)

Record Kgcp : Type := mkKgcp {
  project : string;
  zone : string;
  region : string;
  debug : bool;
  xproject : option string;
  public : bool
}.

(** *** [_wait_for_operation] (lines 48-73) *)

(** One pass of the [while not done] loop per unit of [fuel]; [timeout] is
    the Python counter.  The error payload is read after the status, so a
    response that carries [httpErrorMessage] without [error] details raises
    from inside the loop. *)
Fixpoint wait_loop (fuel : nat) (selflink operation : string) (timeout : Z) : prog unit :=
  match fuel with
  | O => Spin
  | S fuel' =>
      if timeout >? 60 then Ret tt
      else
        check <- (if Py.contains "zone" selflink
                  then execute (zoneOperations_get operation)
                  else if Py.contains "region" selflink
                  then execute (regionOperations_get operation)
                  else execute (globalOperations_get operation)) ;;
        let done := String.eqb (chk_status check) "DONE" in
        (if done then Ret tt else sleep 1) ;;
        match chk_httpErrorMessage check with
        | Some httperror =>
            errors <- item "error" (chk_errors check) ;;
            e <- first errors ;;
            error ("Got " ++ httperror ++ " Code " ++ err_code e
                   ++ " Error " ++ err_message e)
        | None => Ret tt
        end ;;
        if done then Ret tt
        else wait_loop fuel' selflink operation (timeout + 1)
  end.

(** The loop leaves after at most 62 tests of its guard (see
    [wait_loop_fuel]); any larger amount of fuel gives the same program
    behaviour. *)
Definition wait_fuel : nat := 62.

Definition _wait_for_operation (self : Kgcp) (operation : operation) : prog unit :=
  wait_loop wait_fuel (op_selfLink operation) (op_name operation) 0.

(** *** [exists] (lines 78-86) *)

Definition exists_ (self : Kgcp) (name : string) : prog bool :=
  try_except (_ <- execute (instances_get name) ;; Ret true)
             (fun _ => Ret false).

(** *** [create] (lines 100-374) *)

Section Create.

(** Lines 131-374 of [create] assemble the instance body (network
    interfaces, disks, metadata, user data generated by [kvirt.common], a
    module outside the one embedded here) and submit it.  They are a
    parameter: the continuation receives the VM name and the machine-type
    path computed on line 130. *)
Variable create_instance : string -> string -> prog answer.

Definition create (self : Kgcp) (name : string) (flavor : option string)
  (numcpus memory : Z) : prog answer :=
  found <- exists_ self name ;;
  if found then Ret (Failure ("VM " ++ name ++ " already exists"))
  else
    match flavor with
    | None =>
        if negb (numcpus =? 1) && negb (numcpus mod 2 =? 0)
        then Ret (Failure "Number of cpus is not even")
        else if negb (memory =? 512) && negb (memory mod 1024 =? 0)
        then Ret (Failure "Memory is not multiple of 1024")
        else
          memory <- (if (numcpus >? 1) && (memory <? 2048)
                     then pprint "Rounding memory to 2048Mb as more than one cpu is used" ;;
                          Ret 2048
                     else Ret memory) ;;
          (* [memory < 921.6], on an integer *)
          machine_type <- (if 10 * memory <? 9216
                           then pprint "Rounding memory to 1024Mb" ;; Ret "f1-micro"
                           else Ret ("custom-" ++ Py.str_of_int numcpus ++ "-"
                                     ++ Py.str_of_int memory)) ;;
          create_instance name ("zones/" ++ zone self ++ "/machineTypes/" ++ machine_type)
    | Some flavor =>
        create_instance name ("zones/" ++ zone self ++ "/machineTypes/" ++ flavor)
    end.

End Create.

(** [str(e)]. *)
Definition exn_message (e : exn) : string :=
  match e with
  | HttpError m | KeyError m | IndexError m | ValueError m | TypeError m
  | AttributeError m => m
  end.

(** The end of [create] with [reservedns] off: the submission of the
    instance inside its [try] block and the final result (lines 368-371
    and 374).  The steps of lines 131-367 before it (network and subnet
    resolution, disks, image lookup, user data, firewall rule) are not
    embedded; the examples run [create] with this continuation. *)
Definition submit_instance (name machine_type : string) : prog answer :=
  try_except (_ <- execute (instances_insert name machine_type) ;; Ret Success)
             (fun e => Ret (Failure (exn_message e))).

(** *** [update_flavor], [update_memory], [update_cpus] (lines 698-767) *)

(** [try: vm = conn.instances().get(...).execute()] with an [except] block
    that logs and returns a failure. *)
Definition get_vm_or_fail (name : string) : prog (instance + answer) :=
  try_except (vm <- execute (instances_get name) ;; Ret (inl vm))
             (fun _ => error ("VM " ++ name ++ " not found") ;;
                       Ret (inr (Failure ("VM " ++ name ++ " not found")))).

Definition is_up (vm : instance) : bool :=
  String.eqb (vm_status vm) "RUNNING" || String.eqb (vm_status vm) "STOPPING".

Definition machineTypes_url (self : Kgcp) : string :=
  "https://www.googleapis.com/compute/v1/projects/" ++ project self
  ++ "/zones/" ++ zone self ++ "/machineTypes".

Definition update_flavor (self : Kgcp) (name flavor : string) : prog answer :=
  r <- get_vm_or_fail name ;;
  match r with
  | inr failure => Ret failure
  | inl vm =>
      if is_up vm
      then error ("Can't update flavor of VM " ++ name ++ " while up") ;;
           Ret (Failure ("VM " ++ name ++ " up"))
      else
        let machinetype := Py.basename (machineType vm) in
        if String.eqb machinetype flavor then Ret Success
        else
          _ <- execute (instances_setMachineType name
                          (machineTypes_url self ++ "/" ++ flavor)) ;;
          Ret Success
  end.

(** [currentcpus, currentmemory = machinetype.split('-')[1:]]. *)
Definition unpack_shape (machinetype : string) : prog (string * string) :=
  match tl (Py.split "-" machinetype) with
  | [currentcpus; currentmemory] => Ret (currentcpus, currentmemory)
  | [] => Raise (ValueError "not enough values to unpack (expected 2, got 0)")
  | [_] => Raise (ValueError "not enough values to unpack (expected 2, got 1)")
  | _ => Raise (ValueError "too many values to unpack (expected 2)")
  end.

Definition update_memory (self : Kgcp) (name : string) (memory : Py.value) : prog answer :=
  r <- get_vm_or_fail name ;;
  match r with
  | inr failure => Ret failure
  | inl vm =>
      if is_up vm
      then error ("Can't update memory of VM " ++ name ++ " while up") ;;
           Ret (Failure ("VM " ++ name ++ " up"))
      else
        let machinetype := Py.basename (machineType vm) in
        if Py.contains "custom" machinetype then
          '(currentcpus, currentmemory) <- unpack_shape machinetype ;;
          if Py.eq_str memory currentmemory then Ret Success
          else
            let newmachinetype :=
              machineTypes_url self ++ "/custom-" ++ currentcpus ++ "-" ++ Py.format memory in
            _ <- execute (instances_setMachineType name newmachinetype) ;;
            Ret Success
        else
          warning ("No custom machine type found. Not updating memory of " ++ name) ;;
          Ret Success
  end.

Definition update_cpus (self : Kgcp) (name : string) (numcpus : Py.value) : prog answer :=
  r <- get_vm_or_fail name ;;
  match r with
  | inr failure => Ret failure
  | inl vm =>
      if is_up vm
      then error ("Can't update cpus of VM " ++ name ++ " while up") ;;
           Ret (Failure ("VM " ++ name ++ " up"))
      else
        let machinetype := Py.basename (machineType vm) in
        if Py.contains "custom" machinetype then
          '(currentcpus, currentmemory) <- unpack_shape machinetype ;;
          if Py.eq_str numcpus currentcpus then Ret Success
          else
            let newmachinetype :=
              machineTypes_url self ++ "/custom-" ++ Py.format numcpus ++ "-" ++ currentmemory in
            _ <- execute (instances_setMachineType name newmachinetype) ;;
            Ret Success
        else
          warning ("No custom machine type found. Not updating memory of " ++ name) ;;
          Ret Success
  end.

(** *** [create_network] (lines 875-905) *)

(** The keys of [overrides] that [create_network] reads. *)
Record network_overrides : Type := mkNetworkOverrides {
  ov_create_subnet : option bool;
  ov_dual_cidr : option string;
  ov_dual_name : option string
}.

(** [o or default] on an optional string. *)
Definition or_default (o : option string) (default : string) : string :=
  match o with
  | Some s => if String.eqb s "" then default else s
  | None => default
  end.

Section Network.

(** [ipaddress.ip_network], from the Python standard library: [true] when
    the string parses, [false] when the call raises. *)
Variable ip_network : string -> bool.

Definition create_network (self : Kgcp) (name : string) (cidr : option string)
  (overrides : network_overrides) : prog answer :=
  let autoCreateSubnetworks := match cidr with None => true | Some _ => false end in
  operation <- execute (networks_insert name autoCreateSubnetworks) ;;
  _wait_for_operation self operation ;;
  r <- (if match ov_create_subnet overrides with Some b => b | None => true end then
          match cidr with
          | Some cidr =>
              if negb (ip_network cidr) then Ret (Some (Failure ("Invalid Cidr " ++ cidr)))
              else
                let networkpath := op_targetLink operation in
                let regionpath := "https://www.googleapis.com/compute/v1/projects/"
                                  ++ project self ++ "/regions/" ++ region self in
                r <- match ov_dual_cidr overrides with
                     | Some dual_cidr =>
                         if negb (ip_network dual_cidr)
                         then Ret (inr (Failure ("Invalid Dual Cidr " ++ dual_cidr)))
                         else
                           let dual_name := or_default (ov_dual_name overrides) ("dual-" ++ name) in
                           Ret (inl (Some [mkRange dual_name dual_cidr]))
                     | None => Ret (inl None)
                     end ;;
                match r with
                | inr failure => Ret (Some failure)
                | inl ranges =>
                    let subnet_body := mkSubnetBody name cidr networkpath regionpath ranges in
                    operation <- execute (subnetworks_insert subnet_body) ;;
                    _wait_for_operation self operation ;;
                    Ret None
                end
          | None => Ret None
          end
        else Ret None) ;;
  match r with
  | Some failure => Ret failure
  | None =>
      let allowed := ("tcp", ["22"]) in
      let firewall_body := mkFirewallBody ("allow-ssh-" ++ name) ("global/networks/" ++ name)
                                          ["0.0.0.0/0"] [allowed] in
      _ <- execute (firewalls_insert firewall_body) ;;
      Ret Success
  end.

End Network.

(** *** [ip] and [internalip] (lines 599-629) *)

Definition ip (self : Kgcp) (name : string) : prog (option string) :=
  r <- try_except (vm <- execute (instances_get name) ;; Ret (Some vm))
                  (fun _ => error ("Vm " ++ name ++ " not found") ;; Ret None) ;;
  match r with
  | None => Ret None
  | Some vm =>
      nic0 <- first (networkInterfaces vm) ;;
      if negb (public self) then
        i <- item "networkIP" (networkIP nic0) ;; Ret (Some i)
      else
        configs <- item "accessConfigs" (accessConfigs nic0) ;;
        config <- first configs ;;
        Ret (natIP config)
  end.

Definition internalip (self : Kgcp) (name : string) : prog (option string) :=
  r <- try_except (vm <- execute (instances_get name) ;; Ret (Some vm))
                  (fun _ => error ("Vm " ++ name ++ " not found") ;; Ret None) ;;
  match r with
  | None => Ret None
  | Some vm =>
      nic0 <- first (networkInterfaces vm) ;;
      Ret (networkIP nic0)
  end.

(** *** [reserve_dns] and [delete_dns] (lines 1064-1174) *)

(** [l[i]]. *)
Definition getitem {A : Type} (l : list A) (i : nat) : prog A :=
  match nth_error l i with
  | Some a => Ret a
  | None => Raise (IndexError "list index out of range")
  end.

(** Lines 1072-1077 and, word for word, 1143-1148: the cluster, the name
    and the domain the two methods go on with. *)
Definition cluster_rule (name domain : string) : prog (option string * string * string) :=
  let fqdn := name ++ "." ++ domain in
  before_hyphen <- getitem (Py.split "-" fqdn) 0 ;;
  second_label <- getitem (Py.split "." fqdn) 1 ;;
  if String.eqb before_hyphen second_label then
    cluster <- getitem (Py.split "-" fqdn) 0 ;;
    let name := Py.join "." (firstn 1 (Py.split "." fqdn)) in
    let domain := Py.replace (cluster ++ ".") "" (Py.replace (name ++ ".") "" fqdn) in
    Ret (Some cluster, name, domain)
  else Ret (None, name, domain).

(** [dnsentry] and [entry] (lines 1084-1085 and 1154-1155). *)
Definition dnsentry (cluster : option string) (name : string) : string :=
  match cluster with
  | None => name
  | Some cluster => name ++ "." ++ cluster
  end.

Definition entry_of (cluster : option string) (name domain : string) : string :=
  dnsentry cluster name ++ "." ++ domain ++ ".".

(** [[z for z in client.list_zones() if z.dns_name == f"{domain}." or z.name == domain]]. *)
Definition matching_zones (domain : string) (zones : list dns_zone) : list dns_zone :=
  filter (fun z => String.eqb (dns_name z) (domain ++ ".") || String.eqb (zone_name z) domain)
         zones.

(** An element of [nets]: a network name, or a dictionary with an optional
    [ip]. *)
Inductive net : Type :=
| NetName (n : string)
| NetDict (ip : option string).

Definition cluster_style (cluster : option string) (name : string) : bool :=
  match cluster with
  | Some _ => Py.contains "ctlplane" name || Py.contains "worker" name
  | None => false
  end.

(** Lines 1088-1095; [counter] goes up in tens to 100. *)
Fixpoint internalip_loop (fuel : nat) (self : Kgcp) (name : string) (counter : Z)
  : prog (option string) :=
  match fuel with
  | O => Spin
  | S fuel' =>
      if counter =? 100 then Ret None
      else
        internalip <- internalip self name ;;
        match internalip with
        | None =>
            sleep 5 ;;
            pprint ("Waiting 5 seconds to grab internal ip and create DNS record for " ++ name) ;;
            internalip_loop fuel' self name (counter + 10)
        | Some _ => Ret internalip
        end
  end.

(** Lines 1102-1116. *)
Fixpoint ip_loop (fuel : nat) (self : Kgcp) (name : string) (counter : Z)
  : prog (option string) :=
  match fuel with
  | O => Spin
  | S fuel' =>
      if counter =? 100 then Ret None
      else
        ip <- ip self name ;;
        match ip with
        | None =>
            sleep 5 ;;
            pprint ("Waiting 5 seconds to grab ip and create DNS record for " ++ name) ;;
            ip_loop fuel' self name (counter + 10)
        | Some address =>
            _ <- execute (addresses_insert name address) ;;
            _ <- execute (instances_updateAccessConfig name "nic0" address) ;;
            Ret ip
        end
  end.

(** Ten passes at most, and one more test of the guard. *)
Definition dns_fuel : nat := 11.

(** [f"{cluster}"] when [cluster] may be [None]. *)
Definition format_cluster (cluster : option string) : string :=
  match cluster with
  | Some c => c
  | None => "None"
  end.

(** The record an alias stands for (lines 1126-1134). *)
Definition alias_record (cluster : option string) (name domain entry ip a : string)
  : record_set :=
  if String.eqb a "*" then
    let new := if cluster_style cluster name
               then "*.apps." ++ format_cluster cluster ++ "." ++ domain ++ "."
               else "*." ++ name ++ "." ++ domain ++ "." in
    mkRecordSet new "A" 300 [ip]
  else
    let new := if negb (Py.contains "." a) then a ++ "." ++ domain ++ "." else a ++ "." in
    mkRecordSet new "CNAME" 300 [entry].

(** The model covers the calls that pass a [domain], as both callers in the
    class do (lines 373 and 1341). *)
Definition reserve_dns (self : Kgcp) (name : string) (nets : list net) (domain : string)
  (ip : option string) (alias : list string) : prog answer :=
  '(cluster, name, domain) <- cluster_rule name domain ;;
  zones <- execute dns_list_zones ;;
  match matching_zones domain zones with
  | [] =>
      error ("Domain " ++ domain ++ " not found") ;;
      Ret (Failure ("Domain " ++ domain ++ " not found"))
  | dnszone :: _ =>
      let entry := entry_of cluster name domain in
      internalip <- (if cluster_style cluster name
                     then internalip_loop dns_fuel self name 0
                     else Ret None) ;;
      ip <- match ip with
            | Some _ => Ret ip
            | None =>
                net <- first nets ;;
                let ip := match net with NetDict ip => ip | NetName _ => None end in
                match ip with
                | Some _ => Ret ip
                | None => ip_loop dns_fuel self name 0
                end
            end ;;
      match ip with
      | None =>
          error ("Couldn't assign DNS for " ++ name) ;;
          Ret PyNone
      | Some ip =>
          let dnsip := match internalip with None => ip | Some i => i end in
          let record_set := mkRecordSet entry "A" 300 [dnsip] in
          let aliases := map (alias_record cluster name domain entry ip) alias in
          _ <- execute (dns_changes_create (zone_name dnszone) (record_set :: aliases) []) ;;
          Ret Success
      end
  end.

(** The records [delete_dns] collects (lines 1158-1164); a record whose
    data name the VM is collected once per such datum. *)
Definition doomed (cluster : option string) (name domain entry : string) (record : record_set)
  : list record_set :=
  if Py.contains entry (rr_name record)
     || (Py.contains "ctlplane-0" name
         && Py.endswith (rr_name record) (format_cluster cluster ++ "." ++ domain ++ "."))
  then [record]
  else map (fun _ => record) (filter (Py.contains name) (rr_datas record)).

Definition delete_dns (self : Kgcp) (name domain : string) : prog answer :=
  '(cluster, name, domain) <- cluster_rule name domain ;;
  zones <- execute dns_list_zones ;;
  match matching_zones domain zones with
  | [] => Ret PyNone
  | dnszone :: _ =>
      let entry := entry_of cluster name domain in
      all <- execute (dns_list_resource_record_sets (zone_name dnszone)) ;;
      let records := flat_map (doomed cluster name domain entry) all in
      match records with
      | [] => Ret tt
      | _ => execute (dns_changes_create (zone_name dnszone) [] records)
      end ;;
      try_except (_ <- execute (addresses_delete name) ;; Ret tt) (fun _ => Ret tt) ;;
      Ret Success
  end.

(** *** [delete_loadbalancer] (lines 1344-1435) *)

(** [for x in l: body(x)]. *)
Fixpoint for_each {A : Type} (l : list A) (body : A -> prog unit) : prog unit :=
  match l with
  | [] => Ret tt
  | x :: l' => body x ;; for_each l' body
  end.

(** [d[key]] and [key in d] on a dictionary of labels. *)
Fixpoint lookup (key : string) (d : list (string * string)) : option string :=
  match d with
  | [] => None
  | (k, v) :: d' => if String.eqb k key then Some v else lookup key d'
  end.

(** Lines 1371-1382: wait for a forwarding rule to leave the listing. *)
Fixpoint forwarding_gone_loop (fuel : nat) (forwarding_rule_name : string) (timeout : Z)
  : prog unit :=
  match fuel with
  | O => Spin
  | S fuel' =>
      if timeout >=? 60 then warning "Timeout waiting for forwarding rule to be gone"
      else
        items <- execute forwardingRules_list ;;
        match filter (String.eqb forwarding_rule_name) items with
        | [] => Ret tt
        | _ => sleep 5 ;; forwarding_gone_loop fuel' forwarding_rule_name (timeout + 5)
        end
  end.

(** Twelve passes at most, and one more test of the guard. *)
Definition forwarding_fuel : nat := 13.

Definition delete_loadbalancer (self : Kgcp) (name : string) : prog answer :=
  let name := Py.replace "." "-" name in
  firewall_rules_items <- execute firewalls_list ;;
  for_each firewall_rules_items (fun firewall_rule_name =>
    if String.eqb firewall_rule_name name then
      pprint ("Deleting firewall rule " ++ name) ;;
      operation <- execute (firewalls_delete name) ;;
      _wait_for_operation self operation
    else Ret tt) ;;
  forwarding_rules_items <- execute forwardingRules_list ;;
  for_each forwarding_rules_items (fun forwarding_rule_name =>
    if String.eqb forwarding_rule_name name
       || Py.startswith forwarding_rule_name (name ++ "-") then
      pprint ("Deleting forwarding rule " ++ forwarding_rule_name) ;;
      operation <- execute (forwardingRules_delete forwarding_rule_name) ;;
      _wait_for_operation self operation ;;
      pprint "Waiting to make sure forwarding rule is gone" ;;
      forwarding_gone_loop forwarding_fuel forwarding_rule_name 0
    else Ret tt) ;;
  try_except
    (address <- execute (addresses_get name) ;;
     match addr_labels address with
     | Some labels =>
         match lookup "domain" labels, lookup "dnsclient" labels with
         | Some d, None =>
             let domain := Py.replace "-" "." d in
             pprint ("Deleting DNS " ++ name ++ "." ++ domain) ;;
             _ <- delete_dns self name domain ;;
             Ret tt
         | _, _ => Ret tt
         end
     | None => Ret tt
     end ;;
     pprint ("Deleting address " ++ name) ;;
     operation <- execute (addresses_delete name) ;;
     _wait_for_operation self operation)
    (fun e => if debug self then Tell (Logged Info_ (exn_message e)) (Ret tt) else Ret tt) ;;
  backendservices_items <- execute regionBackendServices_list ;;
  for_each backendservices_items (fun backendservice_name =>
    if String.eqb backendservice_name name then
      pprint ("Deleting backend service " ++ name) ;;
      operation <- execute (regionBackendServices_delete name) ;;
      _wait_for_operation self operation
    else Ret tt) ;;
  regionhealthchecks_items <- execute regionHealthChecks_list ;;
  for_each regionhealthchecks_items (fun healthcheck_name =>
    if String.eqb healthcheck_name name then
      pprint ("Deleting healthcheck " ++ name) ;;
      operation <- execute (regionHealthChecks_delete name) ;;
      _wait_for_operation self operation
    else Ret tt) ;;
  healthchecks_items <- execute healthChecks_list ;;
  for_each healthchecks_items (fun healthcheck_name =>
    if String.eqb healthcheck_name name then
      pprint ("Deleting healthcheck " ++ name) ;;
      operation <- execute (healthChecks_delete name) ;;
      _wait_for_operation self operation
    else Ret tt) ;;
  instancegroups_items <- execute instanceGroups_list ;;
  for_each instancegroups_items (fun instancegroup_name =>
    if String.eqb instancegroup_name name then
      pprint ("Deleting instance group " ++ name) ;;
      try_except
        (operation <- execute (instanceGroups_delete name) ;;
         _wait_for_operation self operation)
        (fun e => warning ("Hit " ++ exn_message e ++ " when deleting instance group " ++ name))
    else Ret tt) ;;
  Ret Success.

(** *** [list_buckets] and [create_bucket] (lines 1463-1473, 1535-1537) *)

Definition list_buckets (self : Kgcp) : prog (list string) :=
  execute storage_list_buckets.

Definition create_bucket (self : Kgcp) (bucket : string) (public : bool) : prog answer :=
  buckets <- list_buckets self ;;
  if existsb (String.eqb bucket) buckets then
    error ("Bucket " ++ bucket ++ " already there") ;;
    Ret PyNone
  else
    execute (storage_create_bucket bucket) ;;
    (if public then
       execute (storage_get_bucket bucket) ;;
       execute (storage_acl_save bucket)
     else Ret tt) ;;
    Ret PyNone.

(** *** [get_subnet] and [update_aliases] (lines 1001-1011, 1579-1598) *)

(** [project] is the one-element list [[self.project]] unless a shared-VPC
    host project is configured. *)
Definition get_subnet (self : Kgcp) (subnetwork : string) : prog (option subnet) :=
  let project := match xproject self with
                 | Some x => inr x
                 | None => inl [project self]
                 end in
  execute (subnetworks_get project subnetwork).

Definition update_aliases (self : Kgcp) (name cidr : string) : prog answer :=
  r <- get_vm_or_fail name ;;
  match r with
  | inr failure => Ret failure
  | inl vm =>
      nic0 <- first (networkInterfaces vm) ;;
      let fingerprint := nic_fingerprint nic0 in
      vm_subnetwork <- item "subnetwork" (subnetwork nic0) ;;
      let vm_subnetwork_name := last (Py.split "/" vm_subnetwork) "" in
      subnet <- get_subnet self vm_subnetwork_name ;;
      ranges <- item "secondaryIpRanges"
                     (match subnet with Some s => secondaryIpRanges s | None => None end) ;;
      range0 <- first ranges ;;
      let cidr_name := rangeName range0 in
      let body := mkAliasBody cidr cidr_name fingerprint in
      operation <- execute (instances_updateNetworkInterface name "nic0" body) ;;
      _wait_for_operation self operation ;;
      Ret Success
  end.

(** ** A reference backend

    A small strongly consistent cloud, used to run the adapter on concrete
    inputs: a resource exists from the call that inserts it to the call
    that deletes it, deleting or reading an absent resource raises, and
    every operation reports [DONE] after [pending] polls. *)

Module Cloud.

Inductive kind : Type :=
| Network | Subnetwork | Firewall | ForwardingRule | BackendService
| RegionHealthCheck | HealthCheck | InstanceGroup | Bucket.

Definition kind_eqb (a b : kind) : bool :=
  match a, b with
  | Network, Network | Subnetwork, Subnetwork | Firewall, Firewall
  | ForwardingRule, ForwardingRule | BackendService, BackendService
  | RegionHealthCheck, RegionHealthCheck | HealthCheck, HealthCheck
  | InstanceGroup, InstanceGroup | Bucket, Bucket => true
  | _, _ => false
  end.

Record t : Type := mk {
  resources : list (kind * string);
  instances : list (string * instance);
  addresses : list (string * address);
  subnets : list (string * subnet);
  zones : list dns_zone;
  records : list (string * record_set);
  pending : nat
}.

Definition empty : t := mk [] [] [] [] [] [] 0.

Definition named (k : kind) (w : t) : list string :=
  map snd (filter (fun r => kind_eqb (fst r) k) (resources w)).

Definition has (k : kind) (n : string) (w : t) : bool :=
  existsb (String.eqb n) (named k w).

Definition with_resources (r : list (kind * string)) (w : t) : t :=
  mk r (instances w) (addresses w) (subnets w) (zones w) (records w) (pending w).

Definition with_instances (i : list (string * instance)) (w : t) : t :=
  mk (resources w) i (addresses w) (subnets w) (zones w) (records w) (pending w).

Definition with_addresses (a : list (string * address)) (w : t) : t :=
  mk (resources w) (instances w) a (subnets w) (zones w) (records w) (pending w).

Definition with_subnets (s : list (string * subnet)) (w : t) : t :=
  mk (resources w) (instances w) (addresses w) s (zones w) (records w) (pending w).

Definition with_records (r : list (string * record_set)) (w : t) : t :=
  mk (resources w) (instances w) (addresses w) (subnets w) (zones w) r (pending w).

Definition with_pending (n : nat) (w : t) : t :=
  mk (resources w) (instances w) (addresses w) (subnets w) (zones w) (records w) n.

Definition add (k : kind) (n : string) (w : t) : t :=
  with_resources ((k, n) :: resources w) w.

Definition remove (k : kind) (n : string) (w : t) : t :=
  with_resources
    (filter (fun r => negb (kind_eqb (fst r) k && String.eqb (snd r) n)) (resources w)) w.

Fixpoint find {A : Type} (n : string) (l : list (string * A)) : option A :=
  match l with
  | [] => None
  | (k, v) :: l' => if String.eqb k n then Some v else find n l'
  end.

Definition without {A : Type} (n : string) (l : list (string * A)) : list (string * A) :=
  filter (fun e => negb (String.eqb (fst e) n)) l.

Definition not_found {A : Type} (n : string) : result A :=
  Err (HttpError ("404 " ++ n ++ " was not found")).

Definition handle (scope verb n : string) : operation :=
  mkOperation ("operation-" ++ verb ++ "-" ++ n)
              ("https://www.googleapis.com/compute/v1/projects/p/" ++ scope
               ++ "/operations/operation-" ++ verb ++ "-" ++ n)
              ("https://www.googleapis.com/compute/v1/projects/p/" ++ scope ++ "/" ++ n).

Definition check (w : t) : result op_check * t :=
  match pending w with
  | O => (Ok (mkCheck "DONE" None None), w)
  | S n => (Ok (mkCheck "RUNNING" None None), with_pending n w)
  end.

Definition delete (k : kind) (scope n : string) (w : t) : result operation * t :=
  if has k n w then (Ok (handle scope "delete" n), remove k n w)
  else (not_found n, w).

Definition on_instance (n : string) (f : instance -> instance) (w : t)
  : result operation * t :=
  match find n (instances w) with
  | Some vm => (Ok (handle "zones/z" "update" n),
                with_instances ((n, f vm) :: without n (instances w)) w)
  | None => (not_found n, w)
  end.

Definition nic0 : nic := mkNic (Some "10.0.0.2") (Some [mkAccessConfig (Some "34.1.2.3")])
                               "fp0" (Some "regions/r/subnetworks/default").

Definition step (c : call) : t -> result (resp_of c) * t :=
  match c as c0 return t -> result (resp_of c0) * t with
  | zoneOperations_get _ | regionOperations_get _ | globalOperations_get _ => check
  | instances_get n => fun w =>
      (match find n (instances w) with Some vm => Ok vm | None => not_found n end, w)
  | instances_insert n mt => fun w =>
      match find n (instances w) with
      | Some _ => (Err (HttpError ("409 " ++ n ++ " already exists")), w)
      | None => (Ok (handle "zones/z" "insert" n),
                 with_instances ((n, mkInstance "RUNNING" mt [nic0]) :: instances w) w)
      end
  | instances_setMachineType n mt =>
      on_instance n (fun vm => mkInstance (vm_status vm) mt (networkInterfaces vm))
  | instances_updateAccessConfig n _ _ => on_instance n (fun vm => vm)
  | instances_updateNetworkInterface n _ _ => on_instance n (fun vm => vm)
  | networks_insert n _ => fun w => (Ok (handle "global" "insert" n), add Network n w)
  | subnetworks_insert b => fun w =>
      (Ok (handle "regions/r" "insert" (sn_name b)),
       with_subnets ((sn_name b, mkSubnet (sn_secondaryIpRanges b)) :: subnets w)
                    (add Subnetwork (sn_name b) w))
  | subnetworks_get p n => fun w =>
      (match p with
       | inl _ => Err (HttpError "400 invalid value for project")
       | inr _ => match find n (subnets w) with
                  | Some s => Ok (Some s)
                  | None => not_found n
                  end
       end, w)
  | firewalls_insert b => fun w =>
      (Ok (handle "global" "insert" (fw_name b)), add Firewall (fw_name b) w)
  | firewalls_list => fun w => (Ok (named Firewall w), w)
  | firewalls_delete n => delete Firewall "global" n
  | forwardingRules_list => fun w => (Ok (named ForwardingRule w), w)
  | forwardingRules_delete n => delete ForwardingRule "regions/r" n
  | addresses_get n => fun w =>
      (match find n (addresses w) with Some a => Ok a | None => not_found n end, w)
  | addresses_insert n a => fun w =>
      (Ok (handle "regions/r" "insert" n),
       with_addresses ((n, mkAddress a None "fp") :: addresses w) w)
  | addresses_delete n => fun w =>
      match find n (addresses w) with
      | Some _ => (Ok (handle "regions/r" "delete" n),
                   with_addresses (without n (addresses w)) w)
      | None => (not_found n, w)
      end
  | regionBackendServices_list => fun w => (Ok (named BackendService w), w)
  | regionBackendServices_delete n => delete BackendService "regions/r" n
  | regionHealthChecks_list => fun w => (Ok (named RegionHealthCheck w), w)
  | regionHealthChecks_delete n => delete RegionHealthCheck "regions/r" n
  | healthChecks_list => fun w => (Ok (named HealthCheck w), w)
  | healthChecks_delete n => delete HealthCheck "global" n
  | instanceGroups_list => fun w => (Ok (named InstanceGroup w), w)
  | instanceGroups_delete n => delete InstanceGroup "zones/z" n
  | dns_list_zones => fun w => (Ok (zones w), w)
  | dns_list_resource_record_sets z => fun w =>
      (Ok (map snd (filter (fun r => String.eqb (fst r) z) (records w))), w)
  | dns_changes_create z additions deletions => fun w =>
      (Ok tt,
       with_records
         (map (pair z) additions
          ++ filter (fun r => negb (String.eqb (fst r) z
                                    && existsb (fun d => String.eqb (rr_name d) (rr_name (snd r)))
                                               deletions))
                    (records w)) w)
  | storage_list_buckets => fun w => (Ok (named Bucket w), w)
  | storage_create_bucket n => fun w =>
      if has Bucket n w then (Err (HttpError ("409 " ++ n ++ " already exists")), w)
      else (Ok tt, add Bucket n w)
  | storage_get_bucket n => fun w =>
      (if has Bucket n w then Ok tt else not_found n, w)
  | storage_acl_save n => fun w =>
      (if has Bucket n w then Ok tt else not_found n, w)
  end.

End Cloud.

#[export] Instance cloud_backend : Backend Cloud.t := Cloud.step.

(** The adapter the examples run. *)
Definition gcp : Kgcp :=
  mkKgcp "p" "europe-west1-b" "europe-west1" false None true.

(** ** Notions the statements use *)

(** The number of backend calls in a trace. *)
Definition polls (tr : list event) : nat := List.length (calls tr).

Section Polling.

Context {W : Type} `{Backend W}.

(** The poll [_wait_for_operation] sends, by the locality the handle's
    [selfLink] names. *)
Definition poll_once (selflink operation : string) (w : W) : result op_check * W :=
  if Py.contains "zone" selflink then exec (zoneOperations_get operation) w
  else if Py.contains "region" selflink then exec (regionOperations_get operation) w
  else exec (globalOperations_get operation) w.

(** The backend after [n] polls, and its answer to the next one. *)
Fixpoint world_after (selflink operation : string) (n : nat) (w : W) : W :=
  match n with
  | O => w
  | S n' => world_after selflink operation n' (snd (poll_once selflink operation w))
  end.

Definition answer_at (selflink operation : string) (n : nat) (w : W) : result op_check :=
  fst (poll_once selflink operation (world_after selflink operation n w)).

End Polling.

(** A response that reports an error carries the details the Waiter reads. *)
Definition payload_complete (c : op_check) : bool :=
  match chk_httpErrorMessage c with
  | None => true
  | Some _ => match chk_errors c with
              | Some (_ :: _) => true
              | _ => false
              end
  end.

(** The backend answered a poll, and the operation is not done / is done. *)
Definition pending (r : result op_check) : bool :=
  match r with
  | Ok c => negb (String.eqb (chk_status c) "DONE") && payload_complete c
  | Err _ => false
  end.

Definition completed (r : result op_check) : bool :=
  match r with
  | Ok c => String.eqb (chk_status c) "DONE" && payload_complete c
  | Err _ => false
  end.

(** The shape rule of [create] in the words of the specification: a
    combination is accepted when the cpu count is 1 or even and the memory
    is 512 or a multiple of 1024; with more than one cpu the memory is at
    least 2048; the shape is [custom-<numcpus>-<memory>], except that a
    memory below 921.6 gives the catalog type [f1-micro]. *)
Definition accepted (numcpus memory : Z) : bool :=
  ((numcpus =? 1) || Z.even numcpus) && ((memory =? 512) || (memory mod 1024 =? 0)).

Definition floored (numcpus memory : Z) : Z :=
  if 1 <? numcpus then Z.max memory 2048 else memory.

Definition shape (numcpus memory : Z) : string :=
  if floored numcpus memory <=? 921 then "f1-micro"
  else "custom-" ++ Py.str_of_int numcpus ++ "-" ++ Py.str_of_int (floored numcpus memory).

(** An operation handle of the reference backend, and a backend on which no
    operation completes within the Waiter's patience. *)
Definition some_operation : operation := Cloud.handle "zones/z" "insert" "vm1".

Definition slow_cloud : Cloud.t := Cloud.with_pending 1000 Cloud.empty.

(** A cloud in which [vm1] runs with the custom shape [custom-2-2048]. *)
Definition cloud_with_vm1 : Cloud.t :=
  Cloud.with_instances
    [("vm1", mkInstance "RUNNING" "zones/europe-west1-b/machineTypes/custom-2-2048"
                        [Cloud.nic0])]
    Cloud.empty.

(** The lines a run may log. *)
Definition is_log (ev : event) : bool :=
  match ev with
  | Logged _ _ => true
  | _ => false
  end.

(** A backend with a transient fault: its first [n] calls raise a 503, the
    later ones reach the reference cloud. *)
Definition flaky_step (c : call) (w : nat * Cloud.t) : result (resp_of c) * (nat * Cloud.t) :=
  match fst w with
  | S n => (Err (HttpError "503 Service Unavailable"), (n, snd w))
  | O => let '(r, s) := Cloud.step c (snd w) in (r, (O, s))
  end.

#[export] Instance flaky_backend : Backend (nat * Cloud.t) := flaky_step.

(** A stand-in for [ipaddress.ip_network] on the examples: IPv4 networks
    written [a.b.c.d/n], with no host bit set. *)
Definition digit (c : ascii) : option Z :=
  let n := nat_of_ascii c in
  if ((48 <=? n) && (n <=? 57))%nat then Some (Z.of_nat (n - 48)) else None.

Fixpoint number_from (acc : Z) (s : string) : option Z :=
  match s with
  | EmptyString => Some acc
  | String c s' =>
      match digit c with
      | Some d => number_from (10 * acc + d) s'
      | None => None
      end
  end.

Definition number (s : string) : option Z :=
  match s with
  | EmptyString => None
  | _ => number_from 0 s
  end.

Definition ipv4_network (cidr : string) : bool :=
  match Py.split "/" cidr with
  | [addr; len] =>
      match map number (Py.split "." addr), number len with
      | [Some a; Some b; Some c; Some d], Some n =>
          (a <=? 255) && (b <=? 255) && (c <=? 255) && (d <=? 255) && (n <=? 32)
          && ((a * 2 ^ 24 + b * 2 ^ 16 + c * 2 ^ 8 + d) mod 2 ^ (32 - n) =? 0)
      | _, _ => false
      end
  | _ => false
  end.

Definition no_overrides : network_overrides := mkNetworkOverrides None None None.

(** A cloud with three stopped instances: [vm2] of shape [custom-2-2048],
    [vm3] of the N2 custom shape [n2-custom-2-4096], [vm4] of the catalog
    flavor [n1-standard-1]. *)
Definition stopped_cloud : Cloud.t :=
  Cloud.with_instances
    [("vm2", mkInstance "TERMINATED" "zones/europe-west1-b/machineTypes/custom-2-2048"
                        [Cloud.nic0]);
     ("vm3", mkInstance "TERMINATED" "zones/europe-west1-b/machineTypes/n2-custom-2-4096"
                        [Cloud.nic0]);
     ("vm4", mkInstance "TERMINATED" "zones/europe-west1-b/machineTypes/n1-standard-1"
                        [Cloud.nic0])]
    Cloud.empty.

(** The words of the cluster-prefix rule: the fragment of a string before
    the first occurrence of a separator, what follows that occurrence, and
    the second dot-separated label. *)
Fixpoint before_first (sep : ascii) (s : string) : string :=
  match s with
  | EmptyString => EmptyString
  | String c s' => if Ascii.eqb c sep then EmptyString else String c (before_first sep s')
  end.

Fixpoint after_first (sep : ascii) (s : string) : option string :=
  match s with
  | EmptyString => None
  | String c s' => if Ascii.eqb c sep then Some s' else after_first sep s'
  end.

Definition second_label (s : string) : string :=
  match after_first "." s with
  | Some rest => before_first "." rest
  | None => EmptyString
  end.

(** The change-sets a run submits to the DNS backend. *)
Definition is_changeset (ev : event) : bool :=
  match ev with
  | Called (dns_changes_create _ _ _) => true
  | _ => false
  end.

Definition changesets (tr : list event) : list event := filter is_changeset tr.

Definition event_in (P : call -> bool) (ev : event) : bool :=
  match ev with
  | Called c => P c
  | _ => true
  end.

(** A program whose calls all satisfy [P], whatever the backend answers. *)
Fixpoint uses {A : Type} (P : call -> bool) (p : prog A) : Prop :=
  match p with
  | Call c k => P c = true /\ forall r, uses P (k r)
  | Tell ev k => event_in P ev = true /\ uses P k
  | _ => True
  end.

(** A cloud with the zone [example.com.] and two instances, one named after
    the cluster [mycluster]. *)
Definition dns_cloud : Cloud.t :=
  Cloud.mk [] [("mycluster-ctlplane-0", mkInstance "RUNNING" "custom-2-2048" [Cloud.nic0]);
               ("standalone", mkInstance "RUNNING" "custom-2-2048" [Cloud.nic0])]
           [] [] [mkZone "example.com." "example-com"] [] 0.


(** A program with no exhausted loop in it: it returns or raises, whatever
    the backend answers. *)
Fixpoint total {A : Type} (p : prog A) : Prop :=
  match p with
  | Call c k => forall r, total (k r)
  | Tell _ k => total k
  | Spin => False
  | _ => True
  end.

(** The calls that create nothing: reads, polls, deletions, updates of an
    instance, and change-sets without additions. *)
Definition teardown_call (c : call) : bool :=
  match c with
  | instances_insert _ _ | networks_insert _ _ | subnetworks_insert _
  | firewalls_insert _ | addresses_insert _ _ | storage_create_bucket _ => false
  | dns_changes_create _ (_ :: _) _ => false
  | _ => true
  end.

(** The names [delete_loadbalancer] looks for among the forwarding rules of
    a load balancer [lb]. *)
Definition lb_rule (lb n : string) : bool :=
  String.eqb n lb || Py.startswith n (lb ++ "-").

(** A listing that answers, with no item the teardown looks for. *)
Definition clear (looked_for : string -> bool) (r : result (list string)) : bool :=
  match r with
  | Ok items => forallb (fun n => negb (looked_for n)) items
  | Err _ => false
  end.

Definition answers {A : Type} (r : result A) : bool :=
  match r with
  | Ok _ => true
  | Err _ => false
  end.

(** The state [delete_loadbalancer] leaves behind, as its listings show it:
    no firewall rule, forwarding rule, backend service or health check of
    the load balancer is listed.  The instance groups only need to be
    listed: their deletion is inside a [try] block. *)
Definition listings_clear {W : Type} `{Backend W} (lb : string) (w : W) : bool :=
  clear (fun n => String.eqb n lb) (fst (exec firewalls_list w))
  && clear (lb_rule lb) (fst (exec forwardingRules_list w))
  && clear (fun n => String.eqb n lb) (fst (exec regionBackendServices_list w))
  && clear (fun n => String.eqb n lb) (fst (exec regionHealthChecks_list w))
  && clear (fun n => String.eqb n lb) (fst (exec healthChecks_list w))
  && answers (fst (exec instanceGroups_list w)).

(** A program that returns, whatever the backend answers: it neither raises
    nor runs out of fuel. *)
Fixpoint returns {A : Type} (p : prog A) : Prop :=
  match p with
  | Ret _ => True
  | Call c k => forall r, returns (k r)
  | Tell _ k => returns k
  | Raise _ | Spin => False
  end.

(** In the reference cloud: the resources the teardown of [lb] deletes
    outside a [try] block, and a state that holds none of them. *)
Definition targets (lb : string) (r : Cloud.kind * string) : bool :=
  match fst r with
  | Cloud.Firewall | Cloud.BackendService | Cloud.RegionHealthCheck
  | Cloud.HealthCheck => String.eqb (snd r) lb
  | Cloud.ForwardingRule => lb_rule lb (snd r)
  | _ => false
  end.

Definition cloud_absent (lb : string) (w : Cloud.t) : bool :=
  forallb (fun r => negb (targets lb r)) (Cloud.resources w).

(** A cloud that holds the load balancer [lb.1] (every resource of it, and
    its address labelled with a domain) and a firewall rule of another. *)
Definition lb_cloud : Cloud.t :=
  Cloud.mk [(Cloud.Firewall, "lb-1"); (Cloud.Firewall, "other");
            (Cloud.ForwardingRule, "lb-1"); (Cloud.ForwardingRule, "lb-1-6443");
            (Cloud.BackendService, "lb-1"); (Cloud.RegionHealthCheck, "lb-1");
            (Cloud.HealthCheck, "lb-1"); (Cloud.InstanceGroup, "lb-1")]
           []
           [("lb-1", mkAddress "34.9.9.9" (Some [("domain", "example-com")]) "fp")]
           []
           [mkZone "example.com." "example-com"]
           [("example-com", mkRecordSet "lb-1.example.com." "A" 300 ["34.9.9.9"])]
           1.

(** A response that carries the keys the adapter reads from it without a
    test: the error details of a poll, the first network interface of an
    instance with its addresses and subnetwork, the first secondary range
    of a subnetwork. *)
Definition complete (c : call) : resp_of c -> bool :=
  match c as c0 return resp_of c0 -> bool with
  | zoneOperations_get _ | regionOperations_get _ | globalOperations_get _ =>
      payload_complete
  | instances_get _ => fun vm =>
      match networkInterfaces vm with
      | nic0 :: _ =>
          match networkIP nic0, accessConfigs nic0, subnetwork nic0 with
          | Some _, Some (_ :: _), Some _ => true
          | _, _, _ => false
          end
      | [] => false
      end
  | subnetworks_get _ _ => fun s =>
      match s with
      | Some s => match secondaryIpRanges s with
                  | Some (_ :: _) => true
                  | _ => false
                  end
      | None => false
      end
  | _ => fun _ => true
  end.

(** A backend that answers every call, with a complete response. *)
Definition answering (W : Type) `{Backend W} : Prop :=
  forall (c : call) (w : W), exists a, fst (exec c w) = Ok a /\ complete c a = true.

(** On an answering backend the program returns a value that satisfies
    [Q]. *)
Fixpoint ensures {A : Type} (p : prog A) (Q : A -> Prop) : Prop :=
  match p with
  | Ret a => Q a
  | Call c k => forall a, complete c a = true -> ensures (k (Ok a)) Q
  | Tell _ k => ensures k Q
  | Raise _ | Spin => False
  end.

(** The simplest answering backend: it has no state and the same answer to
    every call of a kind. *)
Definition canned (c : call) : resp_of c :=
  match c with
  | zoneOperations_get _ | regionOperations_get _ | globalOperations_get _ =>
      mkCheck "DONE" None None
  | instances_get _ => mkInstance "RUNNING" "zones/z/machineTypes/custom-2-2048" [Cloud.nic0]
  | subnetworks_get _ _ => Some (mkSubnet (Some [mkRange "pods" "10.1.0.0/16"]))
  | addresses_get _ => mkAddress "34.9.9.9" None "fp"
  | firewalls_list | forwardingRules_list | regionBackendServices_list
  | regionHealthChecks_list | healthChecks_list | instanceGroups_list => []
  | dns_list_zones => [mkZone "example.com." "example-com"]
  | dns_list_resource_record_sets _ => []
  | storage_list_buckets => []
  | dns_changes_create _ _ _ | storage_create_bucket _ | storage_get_bucket _
  | storage_acl_save _ => tt
  | instances_insert n _ | instances_setMachineType n _
  | instances_updateAccessConfig n _ _ | instances_updateNetworkInterface n _ _ =>
      Cloud.handle "zones/z" "update" n
  | networks_insert n _ | firewalls_delete n | healthChecks_delete n =>
      Cloud.handle "global" "update" n
  | subnetworks_insert b => Cloud.handle "regions/r" "insert" (sn_name b)
  | firewalls_insert b => Cloud.handle "global" "insert" (fw_name b)
  | forwardingRules_delete n | addresses_insert n _ | addresses_delete n
  | regionBackendServices_delete n | regionHealthChecks_delete n =>
      Cloud.handle "regions/r" "update" n
  | instanceGroups_delete n => Cloud.handle "zones/z" "delete" n
  end.

#[export] Instance obliging_backend : Backend unit := fun c w => (Ok (canned c), w).



(** In the reference cloud: no resource of [w'] is new with respect to
    [w]. *)
Definition shrinks (w w' : Cloud.t) : Prop :=
  incl (Cloud.resources w') (Cloud.resources w).




(** A backend on which deletions take effect late: a deletion is accepted
    and its operation is still running whenever it is polled, the resource
    stays in the listings meanwhile, and a second request to delete it
    raises.  Every other call is answered by the reference cloud. *)
Module Lagging.

Record t : Type := mk {
  deleting : list (Cloud.kind * string);
  cloud : Cloud.t
}.

Definition deletion (c : call) : option (Cloud.kind * string) :=
  match c with
  | firewalls_delete n => Some (Cloud.Firewall, n)
  | forwardingRules_delete n => Some (Cloud.ForwardingRule, n)
  | regionBackendServices_delete n => Some (Cloud.BackendService, n)
  | regionHealthChecks_delete n => Some (Cloud.RegionHealthCheck, n)
  | healthChecks_delete n => Some (Cloud.HealthCheck, n)
  | instanceGroups_delete n => Some (Cloud.InstanceGroup, n)
  | _ => None
  end.

Definition in_progress (r : Cloud.kind * string) (w : t) : bool :=
  existsb (fun d => Cloud.kind_eqb (fst d) (fst r) && String.eqb (snd d) (snd r))
          (deleting w).

Definition step (c : call) (w : t) : result (resp_of c) * t :=
  match deletion c with
  | Some r =>
      if in_progress r w
      then (Err (HttpError ("400 The resource " ++ snd r ++ " is not ready")), w)
      else match fst (Cloud.step c (cloud w)) with
           | Ok operation => (Ok operation, mk (r :: deleting w) (cloud w))
           | Err e => (Err e, w)
           end
  | None =>
      match c as c0 return result (resp_of c0) * t with
      | zoneOperations_get _ | regionOperations_get _ | globalOperations_get _ =>
          (Ok (mkCheck "RUNNING" None None), w)
      | c0 => let '(r, s) := Cloud.step c0 (cloud w) in (r, mk (deleting w) s)
      end
  end.

End Lagging.

#[export] Instance lagging_backend : Backend Lagging.t := Lagging.step.

(** On it, the load balancer [lb] of which the firewall rule is left. *)
Definition lagging_lb : Lagging.t :=
  Lagging.mk [] (Cloud.with_resources [(Cloud.Firewall, "lb")] Cloud.empty).




(** The backend without state, made to know no instance when its state is
    [false]: the lookup of an instance raises a 404 there. *)
Definition vacant_step (c : call) (known : bool) : result (resp_of c) * bool :=
  (match c as c0 return result (resp_of c0) with
   | instances_get n =>
       if known then Ok (canned (instances_get n))
       else Err (HttpError ("404 " ++ n ++ " was not found"))
   | c0 => Ok (canned c0)
   end, known).

#[export] Instance vacant_backend : Backend bool := vacant_step.



(** ** More of the adapter

    Methods of the class that the sections above did not need, embedded
    over the same calls. *)

(** *** [status] (lines 449-459) *)

Definition status (self : Kgcp) (name : string) : prog (option string) :=
  try_except (vm <- execute (instances_get name) ;; Ret (Some (vm_status vm)))
             (fun _ => error ("Vm " ++ name ++ " not found") ;; Ret None).

(** *** [vm_ports] (lines 1020-1030) *)

Definition vm_ports (self : Kgcp) (name : string) : prog (list string) :=
  r <- try_except (vm <- execute (instances_get name) ;; Ret (Some vm))
                  (fun _ => error ("VM " ++ name ++ " not found") ;; Ret None) ;;
  match r with
  | None => Ret []
  | Some vm =>
      Ret (flat_map (fun interface => match subnetwork interface with
                                      | Some s => [Py.basename s]
                                      | None => []
                                      end)
                    (networkInterfaces vm))
  end.

(** *** [list_dns] (lines 1176-1185) *)

(** A row is [[record.name, record.record_type, record.ttl, ','.join(record.rrdatas)]]. *)
Definition list_dns (self : Kgcp) (domain : string)
  : prog (list (string * string * Z * string)) :=
  zones <- execute dns_list_zones ;;
  match matching_zones domain zones with
  | [] => Ret []
  | dnszone :: _ =>
      records <- execute (dns_list_resource_record_sets (zone_name dnszone)) ;;
      Ret (map (fun record => (rr_name record, rr_type record, rr_ttl record,
                               Py.join "," (rr_datas record)))
               records)
  end.

(** *** [delete_security_group] (lines 1574-1577) *)

Definition delete_security_group (self : Kgcp) (name : string) : prog answer :=
  operation <- execute (firewalls_delete name) ;;
  _wait_for_operation self operation ;;
  Ret Success.

(** *** [__get_image_project] (lines 1036-1045) *)

(** [image.split('-')[0]] is read with [hd]: a split is never empty. *)
Definition __get_image_project (image : string) : option string :=
  if Py.startswith image "sles" then Some "suse-cloud"
  else if Py.startswith image "ubuntu" then Some "ubuntu-os-cloud"
  else if existsb (Py.startswith image) ["centos"; "coreos"; "cos"; "debian"; "rhel"]
  then let project := hd "" (Py.split "-" image) in
       Some (project ++ "-cloud")
  else None.

(** *** The [domain] label (lines 1302-1304 and 1385-1386) *)

(** The labels [create_loadbalancer] puts on the address of a load balancer
    that is given a domain: a label value cannot hold a dot. *)
Definition address_labels (domain : string) (dnsclient : option string)
  : list (string * string) :=
  ("domain", Py.replace "." "-" domain)
  :: match dnsclient with
     | Some d => [("dnsclient", d)]
     | None => []
     end.

(** The domain [delete_loadbalancer] asks [delete_dns] to clean, read from
    the labels of the address. *)
Definition teardown_domain (labels : option (list (string * string))) : option string :=
  match labels with
  | Some labels =>
      match lookup "domain" labels, lookup "dnsclient" labels with
      | Some d, None => Some (Py.replace "-" "." d)
      | _, _ => None
      end
  | None => None
  end.

(** *** The name of an uploaded image (lines 864-866 of [add_image]) *)

Definition shortimage (url : string) : string :=
  let shortimage :=
    Py.replace "-" "."
      (Py.replace "." "-"
         (Py.replace ".tar.gz" "" (hd "" (Py.split "?" (Py.basename url))))) in
  if Py.contains "rhcos" url then "rhcos-" ++ shortimage else shortimage.

(** *** The target tag of a security group (lines 1563-1568 of
    [create_security_group]) *)

Definition security_group_tags (name : string) : option (list string) :=
  let sane_name := Py.replace "." "-" name in
  if Py.startswith sane_name "api-" || Py.startswith sane_name "apps-"
  then Some [Py.join "-" (tl (Py.split "-" sane_name))]
  else None.

(** ** Budgets *)

(** A program that, whatever the backend answers, stops within [n] calls
    and [s] seconds of sleep. *)
Fixpoint within {A : Type} (n : nat) (s : Z) (p : prog A) : Prop :=
  match p with
  | Ret _ | Raise _ => 0 <= s
  | Call c k =>
      match n with
      | O => False
      | S n' => forall r, within n' s (k r)
      end
  | Tell (Slept d) k => 0 <= d /\ within n (s - d) k
  | Tell (Called _) k =>
      match n with
      | O => False
      | S n' => within n' s k
      end
  | Tell (Logged _ _) k => within n s k
  | Spin => False
  end.

(** The calls that read: everything but the mutating ones. *)
Definition reading (c : call) : bool := negb (mutating c).

(** The one poll the Waiter sends for an operation: the endpoint is chosen
    by looking for [zone], then for [region], anywhere in the [selfLink]. *)
Definition polls_operation (selflink operation : string) (c : call) : bool :=
  match c with
  | zoneOperations_get o =>
      Py.contains "zone" selflink && String.eqb o operation
  | regionOperations_get o =>
      negb (Py.contains "zone" selflink) && Py.contains "region" selflink
      && String.eqb o operation
  | globalOperations_get o =>
      negb (Py.contains "zone" selflink) && negb (Py.contains "region" selflink)
      && String.eqb o operation
  | _ => false
  end.

(** A backend on which every operation has ended the same way: its state
    is the answer to every poll, and the other calls are answered as on the
    obliging backend. *)
Definition settled_step (c : call) (w : op_check) : result (resp_of c) * op_check :=
  (match c as c0 return result (resp_of c0) with
   | zoneOperations_get _ | regionOperations_get _ | globalOperations_get _ => Ok w
   | c0 => Ok (canned c0)
   end, w).

#[export] Instance settled_backend : Backend op_check := settled_step.

Definition quota_exceeded : op_check :=
  mkCheck "DONE" (Some "FORBIDDEN") (Some [mkOpError "QUOTA_EXCEEDED" "Quota exceeded"]).

(** The adapter with [public] off. *)
Definition gcp_private : Kgcp :=
  mkKgcp "p" "europe-west1-b" "europe-west1" false None false.

(** A cloud whose instance [vm0] has a network interface without an
    address yet. *)
Definition unaddressed_cloud : Cloud.t :=
  Cloud.with_instances
    [("vm0", mkInstance "PROVISIONING" "zones/europe-west1-b/machineTypes/custom-2-2048"
                        [mkNic None None "fp0" (Some "regions/r/subnetworks/default")])]
    Cloud.empty.

(** The records [delete_dns] can select when it is called for the name
    [lb] (lines 1159-1164): those whose name contains [lb.], the start of
    the entry; those with a datum that contains [lb]; and, when [lb]
    contains [ctlplane-0], those whose name contains [<cluster>.], the
    cluster being what precedes the first hyphen of [lb], or [None.],
    which is what [f"{cluster}."] gives when no cluster was extracted.
    The tests are substring tests: a record of another host whose name
    ends like the entry, or whose data name such a host, is selected
    too. *)
Definition mentions (lb : string) (record : record_set) : bool :=
  Py.contains (lb ++ ".") (rr_name record)
  || existsb (Py.contains lb) (rr_datas record)
  || (Py.contains "ctlplane-0" lb
      && (Py.contains (before_first "-" lb ++ ".") (rr_name record)
          || Py.contains "None." (rr_name record))).

(** The calls [delete_loadbalancer] is confined to, for the load balancer
    [lb]: the reads and the polls, the deletion of a compute resource named
    [lb] (of a forwarding rule named [lb] or [lb-...]), and a DNS
    change-set that adds nothing and deletes only records that mention
    [lb]. *)
Definition scoped_to (lb : string) (c : call) : bool :=
  match c with
  | firewalls_delete n | addresses_delete n | regionBackendServices_delete n
  | regionHealthChecks_delete n | healthChecks_delete n | instanceGroups_delete n =>
      String.eqb n lb
  | forwardingRules_delete n => lb_rule lb n
  | dns_changes_create _ additions deletions =>
      match additions with
      | [] => forallb (mentions lb) deletions
      | _ :: _ => false
      end
  | c => reading c
  end.

(** A cloud in which the load balancer [lb] shares its zone with the hosts
    [mylb] and [db1], the latter an alias of [mylb]. *)
Definition shared_zone_cloud : Cloud.t :=
  Cloud.mk [(Cloud.ForwardingRule, "lb"); (Cloud.BackendService, "lb")]
           []
           [("lb", mkAddress "34.9.9.9" (Some [("domain", "example-com")]) "fp")]
           []
           [mkZone "example.com." "example-com"]
           [("example-com", mkRecordSet "lb.example.com." "A" 300 ["34.9.9.9"]);
            ("example-com", mkRecordSet "mylb.example.com." "A" 300 ["34.7.7.7"]);
            ("example-com", mkRecordSet "db1.example.com." "CNAME" 300 ["mylb.example.com."]);
            ("example-com", mkRecordSet "www.example.com." "A" 300 ["34.8.8.8"])]
           0.

(** The secondary ranges [create_network] gives the subnetwork. *)
Definition dual_ranges (name : string) (overrides : network_overrides)
  : option (list secondary_range) :=
  match ov_dual_cidr overrides with
  | Some dual_cidr =>
      Some [mkRange (or_default (ov_dual_name overrides) ("dual-" ++ name)) dual_cidr]
  | None => None
  end.

(** A cloud whose zone [example-com] holds the records of [vm1] and of
    another machine. *)
Definition records_cloud : Cloud.t :=
  Cloud.mk [] [] [] [] [mkZone "example.com." "example-com"]
           [("example-com", mkRecordSet "vm1.example.com." "A" 300 ["34.1.2.3"]);
            ("example-com", mkRecordSet "www.example.com." "CNAME" 300 ["vm1.example.com."]);
            ("example-com", mkRecordSet "other.example.com." "A" 300 ["34.1.2.4"])]
           0.


(** ** The rest of the compute API

    The methods below issue calls that the sections above did not need.
    [Full.call] adds these calls to [call]; a method that uses them is a
    [Full.prog], run against a [Full.Backend], and the programs embedded
    above take part in it through [Full.lift]. *)

(** A Python [dict] with string keys: the keys in insertion order, each
    once.  [d[key] = v] keeps the place of a key that is there already. *)
Fixpoint dict_set {V : Type} (key : string) (v : V) (d : list (string * V))
  : list (string * V) :=
  match d with
  | [] => [(key, v)]
  | (k, x) :: d' =>
      if String.eqb k key then (k, v) :: d' else (k, x) :: dict_set key v d'
  end.

(** [key in d]. *)
Definition dict_mem {V : Type} (key : string) (d : list (string * V)) : bool :=
  existsb (fun kv => String.eqb (fst kv) key) d.

(** [d.update(other)]. *)
Definition dict_update {V : Type} (d other : list (string * V)) : list (string * V) :=
  fold_left (fun acc kv => dict_set (fst kv) (snd kv) acc) other d.

Module Full.

Abbreviation core_call := call (only parsing).
Abbreviation core_resp_of := resp_of (only parsing).
Abbreviation core_mutating := mutating (only parsing).
Abbreviation core_prog := prog (only parsing).
Abbreviation core_event := event (only parsing).
Abbreviation core_Ret := Ret (only parsing).
Abbreviation core_Raise := Raise (only parsing).
Abbreviation core_Call := Call (only parsing).
Abbreviation core_Tell := Tell (only parsing).
Abbreviation core_Spin := Spin (only parsing).
Abbreviation core_Called := Called (only parsing).
Abbreviation core_Slept := Slept (only parsing).
Abbreviation core_Logged := Logged (only parsing).
Abbreviation core_canned := canned (only parsing).
Abbreviation core_Backend := Backend (only parsing).

(** *** Resources *)

(** An item of [networks().list]; [IPv4Range] and [subnetworks] are
    optional keys. *)
Record network_item : Type := mkNetworkItem {
  ni_name : string;
  ni_IPv4Range : option string;
  ni_subnetworks : option (list string)
}.

(** A network as [networks().get] returns it. *)
Record network_resource : Type := mkNetworkResource {
  nr_autoCreateSubnetworks : bool;
  nr_subnetworks : option (list string);
  nr_selfLink : string
}.

(** A subnetwork, as an item of [subnetworks().list] and as
    [subnetworks().get] returns it to [list_project_networks]. *)
Record subnetwork_item : Type := mkSubnetworkItem {
  si_name : string;
  si_network : string;
  si_ipCidrRange : string
}.

(** An instance with the keys [delete], [update_metadata] and [add_disk]
    read: the optional [labels], the [labelFingerprint], and the [source]
    of each attached disk. *)
Record vm_resource : Type := mkVm {
  vmr_labels : option (list (string * string));
  vmr_labelFingerprint : string;
  vmr_disks : list string
}.

Record disk_resource : Type := mkDisk {
  dk_status : string
}.

(** *** Calls *)

(** [subnetworks_lookup] and [instances_lookup] are the remote methods
    [subnetworks().get] and [instances().get] again, answered with the keys
    the methods of this section read. *)
Inductive call : Type :=
| base (c : core_call)
| networks_get (network : string)
| networks_list (project : string)
| networks_delete (network : string)
| subnetworks_list (project : string)
| subnetworks_lookup (project subnetwork : string)
| subnetworks_delete (subnetwork : string)
| instances_lookup (instance : string)
| instances_delete (instance : string)
| instances_start (instance : string)
| instances_stop (instance : string)
| instances_reset (instance : string)
| instances_setLabels (instance labelFingerprint : string)
                      (labels : list (list (string * string)))
| instances_attachDisk (instance source : string) (autoDelete : bool)
| disks_insert (name : string) (sizeGb : Z)
| disks_get (disk : string)
| disks_delete (disk : string)
| images_delete (image : string).

Definition resp_of (c : call) : Type :=
  match c with
  | base c => core_resp_of c
  | networks_get _ => network_resource
  | networks_list _ => list network_item
  | subnetworks_list _ => list subnetwork_item
  | subnetworks_lookup _ _ => subnetwork_item
  | instances_lookup _ => vm_resource
  | instances_start _ | instances_stop _ => option operation
  | disks_get _ => disk_resource
  | _ => operation
  end.

Definition mutating (c : call) : bool :=
  match c with
  | base c => core_mutating c
  | networks_delete _ | subnetworks_delete _ | instances_delete _
  | instances_start _ | instances_stop _ | instances_reset _
  | instances_setLabels _ _ _ | instances_attachDisk _ _ _
  | disks_insert _ _ | disks_delete _ | images_delete _ => true
  | _ => false
  end.

(** *** Programs *)

Inductive event : Type :=
| Called (c : call)
| Slept (seconds : Z)
| Logged (l : level) (msg : string).

Inductive prog (A : Type) : Type :=
| Ret (a : A)
| Raise (e : exn)
| Call (c : call) (k : result (resp_of c) -> prog A)
| Tell (ev : event) (k : prog A)
| Spin.
Arguments Ret {A} a.
Arguments Raise {A} e.
Arguments Call {A} c k.
Arguments Tell {A} ev k.
Arguments Spin {A}.

Fixpoint bind {A B : Type} (p : prog A) (f : A -> prog B) : prog B :=
  match p with
  | Ret a => f a
  | Raise e => Raise e
  | Call c k => Call c (fun r => bind (k r) f)
  | Tell ev k => Tell ev (bind k f)
  | Spin => Spin
  end.

Fixpoint try_except {A : Type} (p : prog A) (h : exn -> prog A) : prog A :=
  match p with
  | Ret a => Ret a
  | Raise e => h e
  | Call c k => Call c (fun r => try_except (k r) h)
  | Tell ev k => Tell ev (try_except k h)
  | Spin => Spin
  end.

Definition execute (c : call) : prog (resp_of c) :=
  Call c (fun r => match r with Ok a => Ret a | Err e => Raise e end).

Definition sleep (seconds : Z) : prog unit := Tell (Slept seconds) (Ret tt).
Definition pprint (msg : string) : prog unit := Tell (Logged Info_ msg) (Ret tt).
Definition error (msg : string) : prog unit := Tell (Logged Error_ msg) (Ret tt).

Definition lift_event (ev : core_event) : event :=
  match ev with
  | core_Called c => Called (base c)
  | core_Slept seconds => Slept seconds
  | core_Logged l msg => Logged l msg
  end.

(** A program over the calls of the sections above, as a program over all
    the calls. *)
Fixpoint lift {A : Type} (p : core_prog A) : prog A :=
  match p with
  | core_Ret a => Ret a
  | core_Raise e => Raise e
  | core_Call c k => Call (base c) (fun r => lift (k r))
  | core_Tell ev k => Tell (lift_event ev) (lift k)
  | core_Spin => Spin
  end.

Declare Scope full_scope.
Delimit Scope full_scope with full.
Notation "x <- p ;; q" := (bind p (fun x => q))
  (at level 61, p at next level, right associativity) : full_scope.
Notation "p ;; q" := (bind p (fun _ => q))
  (at level 61, right associativity) : full_scope.
Local Open Scope full_scope.

(** [for x in l: body(x)]. *)
Fixpoint for_each {A : Type} (l : list A) (body : A -> prog unit) : prog unit :=
  match l with
  | [] => Ret tt
  | x :: l' => body x ;; for_each l' body
  end.

(** A [for] loop that updates one variable. *)
Fixpoint for_fold {A S : Type} (l : list A) (s : S) (body : S -> A -> prog S) : prog S :=
  match l with
  | [] => Ret s
  | x :: l' => s' <- body s x ;; for_fold l' s' body
  end.

(** *** Running *)

Class Backend (W : Type) : Type :=
  exec : forall c : call, W -> result (resp_of c) * W.

Fixpoint run {W : Type} `{Backend W} {A : Type} (p : prog A) (w : W)
  : outcome A * W * list event :=
  match p with
  | Ret a => (Returned a, w, [])
  | Raise e => (Raised e, w, [])
  | Call c k =>
      let '(r, w1) := exec c w in
      let '(o, w2, tr) := run (k r) w1 in
      (o, w2, Called c :: tr)
  | Tell ev k =>
      let '(o, w1, tr) := run k w in
      (o, w1, ev :: tr)
  | Spin => (Diverged, w, [])
  end.

(** The backend, as the programs of the sections above see it. *)
Definition core {W : Type} `{Backend W} : core_Backend W :=
  fun c w => exec (base c) w.

Definition outcome_of {A W : Type} (x : outcome A * W * list event) : outcome A :=
  fst (fst x).
Definition world_of {A W : Type} (x : outcome A * W * list event) : W :=
  snd (fst x).
Definition trace_of {A W : Type} (x : outcome A * W * list event) : list event :=
  snd x.

Definition is_mutation (ev : event) : bool :=
  match ev with
  | Called c => mutating c
  | _ => false
  end.

Definition mutations (tr : list event) : list event := filter is_mutation tr.

Definition is_call (ev : event) : bool :=
  match ev with
  | Called _ => true
  | _ => false
  end.

Definition polls (tr : list event) : nat := List.length (filter is_call tr).

Fixpoint slept (tr : list event) : Z :=
  match tr with
  | [] => 0
  | Slept n :: tr' => n + slept tr'
  | _ :: tr' => slept tr'
  end.

Definition event_in (P : call -> bool) (ev : event) : bool :=
  match ev with
  | Called c => P c
  | _ => true
  end.

(** A program whose calls all satisfy [P], whatever the backend answers. *)
Fixpoint uses {A : Type} (P : call -> bool) (p : prog A) : Prop :=
  match p with
  | Call c k => P c = true /\ forall r, uses P (k r)
  | Tell ev k => event_in P ev = true /\ uses P k
  | _ => True
  end.

(** A program that stops within [n] calls and [s] seconds of sleep,
    whatever the backend answers. *)
Fixpoint within {A : Type} (n : nat) (s : Z) (p : prog A) : Prop :=
  match p with
  | Ret _ | Raise _ => 0 <= s
  | Call c k =>
      match n with
      | O => False
      | S n' => forall r, within n' s (k r)
      end
  | Tell (Slept d) k => 0 <= d /\ within n (s - d) k
  | Tell (Called _) k =>
      match n with
      | O => False
      | S n' => within n' s k
      end
  | Tell (Logged _ _) k => within n s k
  | Spin => False
  end.

Definition reading (c : call) : bool := negb (mutating c).

(** *** [net_exists] (lines 88-95) *)

Definition net_exists (self : Kgcp) (name : string) : prog bool :=
  try_except (_ <- execute (networks_get name) ;; Ret true)
             (fun _ => Ret false).

(** *** [start], [stop] and [restart] (lines 376-394 and 426-434) *)

Definition start (self : Kgcp) (name : string) : prog answer :=
  action <- execute (instances_start name) ;;
  match action with
  | None => Ret (Failure ("VM " ++ name ++ " not found"))
  | Some _ => Ret Success
  end.

Definition stop (self : Kgcp) (name : string) : prog answer :=
  action <- execute (instances_stop name) ;;
  match action with
  | None => Ret (Failure ("VM " ++ name ++ " not found"))
  | Some _ => Ret Success
  end.

Definition restart (self : Kgcp) (name : string) : prog answer :=
  try_except (_ <- execute (instances_reset name) ;; Ret Success)
             (fun _ => Ret (Failure ("VM " ++ name ++ " not found"))).

(** *** [delete] (lines 648-674) *)

(** [labels[key]] for each of the keys the loops over [vm['labels']] look
    for. *)
Definition label (key : string) (vm : vm_resource) : option string :=
  match vmr_labels vm with
  | Some labels => lookup key labels
  | None => None
  end.

Definition delete (self : Kgcp) (name : string) : prog answer :=
  r <- try_except (vm <- execute (instances_lookup name) ;; Ret (Some vm))
                  (fun _ => Ret None) ;;
  match r with
  | None => Ret (Failure ("VM " ++ name ++ " not found"))
  | Some vm =>
      let domain := option_map (Py.replace "-" ".") (label "domain" vm) in
      let dnsclient := label "dnsclient" vm in
      let kube := label "kube" vm in
      match domain, dnsclient with
      | Some domain, None => _ <- lift (delete_dns self name domain) ;; Ret tt
      | _, _ => Ret tt
      end ;;
      _ <- execute (instances_delete name) ;;
      match kube with
      | Some kube =>
          try_except
            (operation <- execute (base (firewalls_delete kube)) ;;
             lift (_wait_for_operation self operation))
            (fun _ => Ret tt)
      | None => Ret tt
      end ;;
      Ret Success
  end.

(** *** [update_metadata] and [update_information] (lines 680-696 and
    773-775) *)

(** The method returns [1] or [0]; the body of [setLabels] carries the
    dictionary of labels inside a list. *)
Definition update_metadata (self : Kgcp) (name metatype metavalue : string) : prog Z :=
  r <- try_except (vm <- execute (instances_lookup name) ;; Ret (Some vm))
                  (fun _ => error ("VM " ++ name ++ " not found") ;; Ret None) ;;
  match r with
  | None => Ret 1
  | Some vm =>
      let labels := match vmr_labels vm with
                    | Some labels => labels
                    | None => []
                    end in
      if match lookup metatype labels with
         | Some v => negb (String.eqb v metavalue)
         | None => true
         end
      then
        let labels := dict_set metatype metavalue labels in
        _ <- execute (instances_setLabels name (vmr_labelFingerprint vm) [labels]) ;;
        Ret 0
      else Ret 0
  end.

Definition update_information (self : Kgcp) (name information : string) : prog unit :=
  _ <- update_metadata self name "information" information ;;
  Ret tt.

(** *** [add_disk] and [delete_disk] (lines 785-821) *)

(** Lines 798-808: [None] when the disk is ready, the failure when the
    wait is over. *)
Fixpoint disk_ready_loop (fuel : nat) (diskname : string) (timeout : Z)
  : prog (option answer) :=
  match fuel with
  | O => Spin
  | S fuel' =>
      if timeout >? 60
      then Ret (Some (Failure "timeout waiting for new disk to be ready"))
      else
        newdisk <- execute (disks_get diskname) ;;
        if String.eqb (dk_status newdisk) "READY" then Ret None
        else
          sleep 5 ;;
          pprint "Waiting for disk to be ready" ;;
          disk_ready_loop fuel' diskname (timeout + 5)
  end.

(** Thirteen passes at most, and one more test of the guard. *)
Definition disk_fuel : nat := 14.

Definition add_disk (self : Kgcp) (name : string) (size : Z) : prog answer :=
  r <- try_except (vm <- execute (instances_lookup name) ;; Ret (Some vm))
                  (fun _ => Ret None) ;;
  match r with
  | None => Ret (Failure ("VM " ++ name ++ " not found"))
  | Some vm =>
      let numdisks := Z.of_nat (List.length (vmr_disks vm)) + 1 in
      let diskname := name ++ "-disk" ++ Py.str_of_int numdisks in
      _ <- execute (disks_insert diskname size) ;;
      r <- disk_ready_loop disk_fuel diskname 0 ;;
      match r with
      | Some failure => Ret failure
      | None =>
          let source := "/compute/v1/projects/" ++ project self ++ "/zones/" ++ zone self
                        ++ "/disks/" ++ diskname in
          _ <- execute (instances_attachDisk name source true) ;;
          Ret Success
      end
  end.

Definition delete_disk (self : Kgcp) (diskname : string) : prog answer :=
  try_except (_ <- execute (disks_delete diskname) ;; Ret PyNone)
             (fun _ => Ret (Failure ("Disk " ++ diskname ++ " not found"))).

(** *** [delete_image] (lines 850-859) *)

Definition delete_image (self : Kgcp) (image : string) : prog answer :=
  pprint ("Deleting image " ++ image) ;;
  try_except
    (operation <- execute (images_delete image) ;;
     lift (_wait_for_operation self operation) ;;
     Ret Success)
    (fun _ => Ret (Failure ("Image " ++ image ++ " not found"))).

(** *** [list_project_networks] and [list_networks] (lines 934-962) *)

Record network_info : Type := mkNetworkInfo {
  net_cidr : string;
  net_dhcp : bool;
  net_domain : string;
  net_type : string;
  net_mode : string
}.

Definition list_project_networks (self : Kgcp) (project : string)
  : prog (list (string * network_info)) :=
  nets_items <- execute (networks_list project) ;;
  for_fold nets_items [] (fun networks net =>
    let networkname := ni_name net in
    let cidr := match ni_IPv4Range net with
                | Some range => range
                | None => ""
                end in
    cidr <- (if String.eqb cidr ""
             then try_except
                    (subnet <- execute (subnetworks_lookup project networkname) ;;
                     Ret (si_ipCidrRange subnet))
                    (fun _ => Ret cidr)
             else Ret cidr) ;;
    Ret (dict_set networkname (mkNetworkInfo cidr true "" "routed" "") networks)).

(** [[self.project]], with the host project of a shared VPC after it. *)
Definition projects (self : Kgcp) : list string :=
  project self :: match xproject self with
                  | Some xproject => [xproject]
                  | None => []
                  end.

Definition list_networks (self : Kgcp) : prog (list (string * network_info)) :=
  for_fold (projects self) [] (fun networks project =>
    nets <- list_project_networks self project ;;
    Ret (dict_update networks nets)).

(** *** [list_subnets] (lines 972-999) *)

Record subnet_info : Type := mkSubnetInfo {
  sub_cidr : string;
  sub_az : string;
  sub_network : string
}.

(** Line 997 looks the name of a subnetwork up in [subnets_data], the list
    of the items: a name is never equal to an item, so the [cidr] of a
    subnetwork known from its network only is always empty. *)
Definition list_subnets (self : Kgcp) : prog (list (string * subnet_info)) :=
  for_fold (projects self) [] (fun subnets project =>
    subnets_data <- execute (subnetworks_list project) ;;
    let subnets :=
      fold_left (fun subnets subnet =>
                   dict_set (si_name subnet)
                     (mkSubnetInfo (si_ipCidrRange subnet) project
                                   (Py.basename (si_network subnet)))
                     subnets)
                subnets_data subnets in
    nets_data <- execute (networks_list project) ;;
    Ret (fold_left
           (fun subnets net =>
              let networkname := ni_name net in
              match ni_subnetworks net with
              | Some subnetworks =>
                  fold_left (fun subnets subnet =>
                               let subnetname := Py.basename subnet in
                               if dict_mem subnetname subnets then subnets
                               else dict_set subnetname
                                      (mkSubnetInfo "" project networkname) subnets)
                            subnetworks subnets
              | None => subnets
              end)
           nets_data subnets)).

(** *** [create_subnet] and [delete_subnet] (lines 1627-1664) *)

(** The keys of [overrides] that [create_subnet] reads. *)
Record subnet_overrides : Type := mkSubnetOverrides {
  so_network : option string;
  so_dual_cidr : option string;
  so_dual_name : option string
}.

Section Subnet.

Variable ip_network : string -> bool.

Definition create_subnet (self : Kgcp) (name cidr : string) (overrides : subnet_overrides)
  : prog answer :=
  let network := match so_network overrides with
                 | Some network => network
                 | None => name
                 end in
  networks <- list_networks self ;;
  if negb (dict_mem network networks)
  then Ret (Failure ("Network " ++ network ++ " not found"))
  else if negb (ip_network cidr) then Ret (Failure ("Invalid Cidr " ++ cidr))
  else
    net <- execute (networks_get network) ;;
    let networkpath := nr_selfLink net in
    let regionpath := "https://www.googleapis.com/compute/v1/projects/" ++ project self
                      ++ "/regions/" ++ region self in
    r <- match so_dual_cidr overrides with
         | Some dual_cidr =>
             if negb (ip_network dual_cidr)
             then Ret (inr (Failure ("Invalid Dual Cidr " ++ dual_cidr)))
             else
               let dual_name := or_default (so_dual_name overrides) ("dual-" ++ name) in
               Ret (inl (Some [mkRange dual_name dual_cidr]))
         | None => Ret (inl None)
         end ;;
    match r with
    | inr failure => Ret failure
    | inl ranges =>
        let subnet_body := mkSubnetBody name cidr networkpath regionpath ranges in
        operation <- execute (base (subnetworks_insert subnet_body)) ;;
        lift (_wait_for_operation self operation) ;;
        Ret Success
    end.

End Subnet.

Definition delete_subnet (self : Kgcp) (name : string) : prog answer :=
  subnets <- list_subnets self ;;
  if negb (dict_mem name subnets) then Ret (Failure ("Subnet " ++ name ++ " not found"))
  else
    operation <- execute (subnetworks_delete name) ;;
    lift (_wait_for_operation self operation) ;;
    Ret Success.

(** *** [delete_network] (lines 907-927) *)


(** *** A backend for the examples *)

(** It has no state and the same answer to every call of a kind: one
    custom-mode network [default] with one subnetwork, instances labelled
    for the domain [example.com], disks that are ready. *)
Definition canned (c : call) : resp_of c :=
  match c with
  | base c => core_canned c
  | networks_get n =>
      mkNetworkResource false (Some ["regions/r/subnetworks/" ++ n])
                        ("https://www.googleapis.com/compute/v1/projects/p/global/networks/" ++ n)
  | networks_list _ => [mkNetworkItem "default" None (Some ["regions/r/subnetworks/default"])]
  | subnetworks_list _ => [mkSubnetworkItem "default" "global/networks/default" "10.132.0.0/20"]
  | subnetworks_lookup _ n => mkSubnetworkItem n "global/networks/default" "10.132.0.0/20"
  | instances_lookup _ => mkVm (Some [("domain", "example-com"); ("plan", "kvirt")]) "fp" ["d0"]
  | instances_start n | instances_stop n => Some (Cloud.handle "zones/z" "update" n)
  | disks_get _ => mkDisk "READY"
  | networks_delete n => Cloud.handle "global" "delete" n
  | subnetworks_delete n => Cloud.handle "regions/r" "delete" n
  | instances_delete n | instances_reset n | instances_setLabels n _ _
  | instances_attachDisk n _ _ => Cloud.handle "zones/z" "update" n
  | disks_insert n _ | disks_delete n => Cloud.handle "zones/z" "update" n
  | images_delete n => Cloud.handle "global" "delete" n
  end.

#[global] Instance obliging_backend : Backend unit := fun c w => (Ok (canned c), w).

(** A backend on which no disk ever gets ready, and instances are not
    labelled. *)
Inductive stalled : Type := Stalled.

Definition stalled_step (c : call) (w : stalled) : result (resp_of c) * stalled :=
  (match c as c0 return result (resp_of c0) with
   | disks_get _ => Ok (mkDisk "CREATING")
   | instances_lookup _ => Ok (mkVm None "fp" ["d0"])
   | c0 => Ok (canned c0)
   end, w).

#[global] Instance stalled_backend : Backend stalled := stalled_step.

End Full.

(** * Properties *)

(** ** Running programs *)

Section Run.

Context {W : Type} `{Backend W}.

Lemma run_bind {A B : Type} (p : prog A) (f : A -> prog B) (w : W) :
  run (bind p f) w =
  match run p w with
  | (Returned a, w1, tr1) =>
      let '(o, w2, tr2) := run (f a) w1 in (o, w2, (tr1 ++ tr2)%list)
  | (Raised e, w1, tr1) => (Raised e, w1, tr1)
  | (Diverged, w1, tr1) => (Diverged, w1, tr1)
  end.
Proof.
  revert w. induction p as [a | e | c k IH | ev k IH | ]; intros w; simpl.
  - destruct (run (f a) w) as [[o w2] tr2]. reflexivity.
  - reflexivity.
  - destruct (exec c w) as [r w1]. rewrite IH.
    destruct (run (k r) w1) as [[[a | e | ] w2] tr]; try reflexivity.
    destruct (run (f a) w2) as [[o w3] tr3]. reflexivity.
  - rewrite IH.
    destruct (run k w) as [[[a | e | ] w2] tr]; try reflexivity.
    destruct (run (f a) w2) as [[o w3] tr3]. reflexivity.
  - reflexivity.
Qed.

Lemma run_try_except {A : Type} (p : prog A) (h : exn -> prog A) (w : W) :
  run (try_except p h) w =
  match run p w with
  | (Raised e, w1, tr1) =>
      let '(o, w2, tr2) := run (h e) w1 in (o, w2, (tr1 ++ tr2)%list)
  | x => x
  end.
Proof.
  revert w. induction p as [a | e | c k IH | ev k IH | ]; intros w; simpl.
  - reflexivity.
  - destruct (run (h e) w) as [[o w2] tr2]. reflexivity.
  - destruct (exec c w) as [r w1]. rewrite IH.
    destruct (run (k r) w1) as [[[a | e | ] w2] tr]; try reflexivity.
    destruct (run (h e) w2) as [[o w3] tr3]. reflexivity.
  - rewrite IH.
    destruct (run k w) as [[[a | e | ] w2] tr]; try reflexivity.
    destruct (run (h e) w2) as [[o w3] tr3]. reflexivity.
  - reflexivity.
Qed.

Lemma run_execute (c : call) (w : W) :
  run (execute c) w =
  match exec c w with
  | (Ok a, w1) => (Returned a, w1, [Called c])
  | (Err e, w1) => (Raised e, w1, [Called c])
  end.
Proof.
  unfold execute. simpl. destruct (exec c w) as [[a | e] w1]; reflexivity.
Qed.

End Run.

Lemma calls_app (tr1 tr2 : list event) : calls (tr1 ++ tr2)%list = (calls tr1 ++ calls tr2)%list.
Proof. apply filter_app. Qed.

Lemma slept_app (tr1 tr2 : list event) : slept (tr1 ++ tr2)%list = slept tr1 + slept tr2.
Proof.
  induction tr1 as [| [c | n | l m] tr1 IH]; simpl; try assumption; try reflexivity.
  rewrite IH. lia.
Qed.

(** ** The Operation Waiter *)

Section Waiter.

Context {W : Type} `{Backend W}.
Variables selflink operation : string.

Lemma wait_loop_unfold (fuel : nat) (timeout : Z) :
  wait_loop (S fuel) selflink operation timeout =
  if timeout >? 60 then Ret tt
  else
    check <- (if Py.contains "zone" selflink
              then execute (zoneOperations_get operation)
              else if Py.contains "region" selflink
              then execute (regionOperations_get operation)
              else execute (globalOperations_get operation)) ;;
    let done := String.eqb (chk_status check) "DONE" in
    (if done then Ret tt else sleep 1) ;;
    match chk_httpErrorMessage check with
    | Some httperror =>
        errors <- item "error" (chk_errors check) ;;
        e <- first errors ;;
        error ("Got " ++ httperror ++ " Code " ++ err_code e
               ++ " Error " ++ err_message e)
    | None => Ret tt
    end ;;
    if done then Ret tt
    else wait_loop fuel selflink operation (timeout + 1).
Proof. reflexivity. Qed.

(** The poll of one pass, seen through [poll_once]. *)
Lemma run_poll {A : Type} (f : op_check -> prog A) (w : W) :
  run (check <- (if Py.contains "zone" selflink
                 then execute (zoneOperations_get operation)
                 else if Py.contains "region" selflink
                 then execute (regionOperations_get operation)
                 else execute (globalOperations_get operation)) ;; f check) w =
  match poll_once selflink operation w with
  | (Ok c, w1) =>
      let '(o, w2, tr) := run (f c) w1 in
      (o, w2, Called (if Py.contains "zone" selflink then zoneOperations_get operation
                      else if Py.contains "region" selflink
                      then regionOperations_get operation
                      else globalOperations_get operation) :: tr)
  | (Err e, w1) =>
      (Raised e, w1,
       [Called (if Py.contains "zone" selflink then zoneOperations_get operation
                else if Py.contains "region" selflink
                then regionOperations_get operation
                else globalOperations_get operation)])
  end.
Proof.
  unfold poll_once.
  destruct (Py.contains "zone" selflink); [| destruct (Py.contains "region" selflink)];
    cbv match; rewrite run_bind;
    [ rewrite (run_execute (zoneOperations_get operation))
    | rewrite (run_execute (regionOperations_get operation))
    | rewrite (run_execute (globalOperations_get operation)) ];
    match goal with |- context [exec ?c w] => destruct (exec c w) as [[c0 | e] w1] end;
    try reflexivity;
    destruct (run (f c0) w1) as [[o w2] tr]; reflexivity.
Qed.

(** What follows the poll of a pass whose response is complete: the sleep
    of a pending operation, and the log line of an error payload. *)
Lemma run_pass_tail (c : op_check) (p : prog unit) (w : W) :
  payload_complete c = true ->
  exists logs,
    slept logs = 0 /\ calls logs = [] /\
    run ((if String.eqb (chk_status c) "DONE" then Ret tt else sleep 1) ;;
         match chk_httpErrorMessage c with
         | Some httperror =>
             errors <- item "error" (chk_errors c) ;;
             e <- first errors ;;
             error ("Got " ++ httperror ++ " Code " ++ err_code e
                    ++ " Error " ++ err_message e)
         | None => Ret tt
         end ;; p) w =
    let '(o, w1, tr) := run p w in
    (o, w1,
     ((if String.eqb (chk_status c) "DONE" then [] else [Slept 1]) ++ logs ++ tr)%list).
Proof.
  unfold payload_complete. intros Hc.
  destruct (chk_httpErrorMessage c) as [h |].
  - destruct (chk_errors c) as [[| e errs] |]; try discriminate.
    eexists [Logged Error_ _]. split; [reflexivity | split; [reflexivity |]].
    destruct (String.eqb (chk_status c) "DONE"); simpl;
      destruct (run p w) as [[o w1] tr]; reflexivity.
  - exists []. split; [reflexivity | split; [reflexivity |]].
    destruct (String.eqb (chk_status c) "DONE"); simpl;
      destruct (run p w) as [[o w1] tr]; reflexivity.
Qed.

Lemma wait_loop_run (k : nat) : forall (fuel t : nat) (w : W),
  (t + k <= 61)%nat ->
  (k < fuel)%nat ->
  (forall j, (j < k)%nat -> pending (answer_at selflink operation j w) = true) ->
  ((t + k < 61)%nat -> completed (answer_at selflink operation k w) = true) ->
  let r := run (wait_loop fuel selflink operation (Z.of_nat t)) w in
  let n := if (t + k <? 61)%nat then S k else k in
  outcome_of r = Returned tt /\
  world_of r = world_after selflink operation n w /\
  polls (trace_of r) = n /\
  slept (trace_of r) = Z.of_nat k.
Proof.
  induction k as [| k IH]; intros fuel t w Ht Hfuel Hpending Hdone;
    (destruct fuel as [| fuel]; [lia |]); rewrite wait_loop_unfold.
  - rewrite Nat.add_0_r in *.
    destruct (Nat.ltb_spec t 61) as [Hlt | Hge].
    + replace (Z.of_nat t >? 60) with false by (symmetry; rewrite Z.gtb_ltb; apply Z.ltb_ge; lia).
      specialize (Hdone Hlt). unfold answer_at, completed in Hdone. simpl in Hdone.
      rewrite run_poll.
      destruct (poll_once selflink operation w) as [[c | e] w1] eqn:Hpoll;
        simpl in Hdone; [| discriminate].
      apply andb_prop in Hdone. destruct Hdone as [Hstatus Hpayload].
      cbv zeta.
      destruct (run_pass_tail c
                  (if String.eqb (chk_status c) "DONE" then Ret tt
                   else wait_loop fuel selflink operation (Z.of_nat t + 1)) w1 Hpayload)
        as (logs & Hslept & Hcalls & Hrun).
      rewrite Hrun, Hstatus. simpl.
      unfold outcome_of, world_of, trace_of, polls. simpl.
      rewrite Hpoll. simpl. rewrite calls_app, Hcalls, slept_app, Hslept.
      repeat split; reflexivity.
    + replace (Z.of_nat t >? 60) with true by (symmetry; rewrite Z.gtb_ltb; apply Z.ltb_lt; lia).
      repeat split; reflexivity.
  - replace (Z.of_nat t >? 60) with false by (symmetry; rewrite Z.gtb_ltb; apply Z.ltb_ge; lia).
    assert (Hp := Hpending O ltac:(lia)).
    unfold answer_at, pending in Hp. simpl in Hp.
    rewrite run_poll.
    destruct (poll_once selflink operation w) as [[c | e] w1] eqn:Hpoll;
      simpl in Hp; [| discriminate].
    apply andb_prop in Hp. destruct Hp as [Hstatus Hpayload].
    apply negb_true_iff in Hstatus.
    cbv zeta.
    destruct (run_pass_tail c
                (if String.eqb (chk_status c) "DONE" then Ret tt
                 else wait_loop fuel selflink operation (Z.of_nat t + 1)) w1 Hpayload)
      as (logs & Hslept & Hcalls & Hrun).
    rewrite Hrun, Hstatus.
    replace (Z.of_nat t + 1) with (Z.of_nat (S t)) by lia.
    specialize (IH fuel (S t) w1 ltac:(lia) ltac:(lia)).
    assert (Hw1 : w1 = snd (poll_once selflink operation w)) by (rewrite Hpoll; reflexivity).
    assert (Hshift : forall j, answer_at selflink operation j w1
                               = answer_at selflink operation (S j) w).
    { intros j. unfold answer_at. simpl. rewrite Hw1. reflexivity. }
    destruct IH as (Ho & Hw & Hn & Hs).
    + intros j Hj. rewrite Hshift. apply Hpending. lia.
    + intros Hlt. rewrite Hshift. apply Hdone. lia.
    + replace (S t + k <? 61)%nat with (t + S k <? 61)%nat in * by (f_equal; lia).
      destruct (run (wait_loop fuel selflink operation (Z.of_nat (S t))) w1)
        as [[o w2] tr].
      unfold outcome_of, world_of, trace_of, polls, calls in *. cbn [fst snd] in *.
      cbn [app filter is_call slept length].
      rewrite filter_app, slept_app, Hslept, Hcalls.
      cbn [app length].
      rewrite Ho, Hw, Hn, Hs, Hw1.
      repeat split; try reflexivity;
        try (destruct (t + S k <? 61)%nat; reflexivity); lia.
Qed.

End Waiter.

(** The error payload of a response is logged, or reading it raises. *)
Lemma run_log_payload {W : Type} `{Backend W} (c : op_check) :
  (exists logs, slept logs = 0 /\ calls logs = [] /\ forall (p : prog unit) (w : W),
     run (match chk_httpErrorMessage c with
          | Some httperror =>
              errors <- item "error" (chk_errors c) ;;
              e <- first errors ;;
              error ("Got " ++ httperror ++ " Code " ++ err_code e
                     ++ " Error " ++ err_message e)
          | None => Ret tt
          end ;; p) w
     = let '(o, w1, tr) := run p w in (o, w1, (logs ++ tr)%list))
  \/ (exists e, forall (p : prog unit) (w : W),
       run (match chk_httpErrorMessage c with
            | Some httperror =>
                errors <- item "error" (chk_errors c) ;;
                e <- first errors ;;
                error ("Got " ++ httperror ++ " Code " ++ err_code e
                       ++ " Error " ++ err_message e)
            | None => Ret tt
            end ;; p) w = (Raised e, w, [])).
Proof.
  destruct (chk_httpErrorMessage c) as [h |];
    [destruct (chk_errors c) as [[| e0 errs] |] |].
  - right. eexists. intros p w. reflexivity.
  - left. eexists [Logged Error_ _]. split; [reflexivity |]. split; [reflexivity |].
    intros p w. cbn [item first bind error run].
    destruct (run p w) as [[o w1] tr]. reflexivity.
  - right. eexists. intros p w. reflexivity.
  - left. exists []. split; [reflexivity |]. split; [reflexivity |].
    intros p w. cbn [bind]. destruct (run p w) as [[o w1] tr]. reflexivity.
Qed.

(** With enough fuel for 62 tests of the guard the loop never runs dry, on
    any backend, and more fuel changes nothing. *)
Lemma wait_loop_fuel {W : Type} `{Backend W} (selflink operation : string) (fuel1 : nat) :
  forall (fuel2 t : nat) (w : W),
  (0 < fuel1)%nat -> (0 < fuel2)%nat ->
  (61 < t + fuel1)%nat -> (61 < t + fuel2)%nat ->
  run (wait_loop fuel1 selflink operation (Z.of_nat t)) w
  = run (wait_loop fuel2 selflink operation (Z.of_nat t)) w
  /\ outcome_of (run (wait_loop fuel1 selflink operation (Z.of_nat t)) w) <> Diverged.
Proof.
  induction fuel1 as [| fuel1 IH]; intros fuel2 t w P1 P2 H1 H2.
  - lia.
  - destruct fuel2 as [| fuel2].
    + lia.
    + rewrite !wait_loop_unfold.
      destruct (Z.of_nat t >? 60) eqn:Ht; [split; [reflexivity | discriminate] |].
      rewrite Z.gtb_ltb in Ht. apply Z.ltb_ge in Ht.
      rewrite !run_poll.
      destruct (poll_once selflink operation w) as [[c | e] w1];
        [| split; [reflexivity | discriminate]].
      cbv zeta.
      destruct (String.eqb (chk_status c) "DONE").
      * cbn [bind].
        destruct (run_log_payload c) as [(logs & _ & _ & E) | [e E]]; rewrite !E;
          split; try reflexivity; discriminate.
      * unfold sleep. cbn [bind run].
        replace (Z.of_nat t + 1) with (Z.of_nat (S t)) by lia.
        destruct (IH fuel2 (S t) w1 ltac:(lia) ltac:(lia) ltac:(lia) ltac:(lia)) as [E N].
        destruct (run_log_payload c) as [(logs & _ & _ & E1) | [e E1]]; rewrite !E1;
          [| split; [reflexivity | discriminate]].
        rewrite <- E.
        destruct (run (wait_loop fuel1 selflink operation (Z.of_nat (S t))) w1)
          as [[o w4] tr4].
        split; [reflexivity | exact N].
Qed.

(** On every backend, answering or not, the Waiter stays within its
    budget: from [timeout = t] it polls and sleeps at most [61 - t] times. *)
Lemma wait_loop_bounded {W : Type} `{Backend W} (selflink operation : string) (fuel : nat) :
  forall (t : nat) (w : W),
  (t <= 61)%nat ->
  (polls (trace_of (run (wait_loop fuel selflink operation (Z.of_nat t)) w)) <= 61 - t)%nat
  /\ 0 <= slept (trace_of (run (wait_loop fuel selflink operation (Z.of_nat t)) w))
       <= 61 - Z.of_nat t.
Proof.
  induction fuel as [| fuel IH]; intros t w Ht; unfold polls, calls, trace_of in *.
  - cbn [wait_loop run snd filter length slept]. lia.
  - rewrite wait_loop_unfold.
    destruct (Z.of_nat t >? 60) eqn:Hgt; [cbn [run snd filter length slept]; lia |].
    rewrite Z.gtb_ltb in Hgt. apply Z.ltb_ge in Hgt.
    rewrite run_poll.
    destruct (poll_once selflink operation w) as [[c | e] w1];
      [| cbn [snd filter is_call length slept]; lia].
    cbv zeta.
    destruct (String.eqb (chk_status c) "DONE").
    + cbn [bind].
      destruct (run_log_payload c) as [(logs & Hs & Hc & E) | [e E]]; rewrite E;
        unfold calls in *; cbn [run snd app filter is_call slept length].
      * rewrite app_nil_r, Hs, Hc. cbn [length]. lia.
      * lia.
    + unfold sleep. cbn [bind run].
      replace (Z.of_nat t + 1) with (Z.of_nat (S t)) by lia.
      destruct (IH (S t) w1 ltac:(lia)) as [Hp Hsl].
      destruct (run_log_payload c) as [(logs & Hs & Hc & E) | [e E]]; rewrite E;
        unfold calls in *.
      * destruct (run (wait_loop fuel selflink operation (Z.of_nat (S t))) w1)
          as [[o w2] tr].
        cbn [snd app filter is_call slept length] in *.
        rewrite filter_app, slept_app, Hs, Hc. cbn [app]. lia.
      * cbn [snd filter is_call slept length]. lia.
Qed.

Lemma wait_for_operation_bounded {W : Type} `{Backend W} (self : Kgcp) (op : operation)
  (w : W) :
  outcome_of (run (_wait_for_operation self op) w) <> Diverged
  /\ (polls (trace_of (run (_wait_for_operation self op) w)) <= 61)%nat
  /\ 0 <= slept (trace_of (run (_wait_for_operation self op) w)) <= 61.
Proof.
  unfold _wait_for_operation. split.
  - apply (wait_loop_fuel (op_selfLink op) (op_name op) wait_fuel wait_fuel O w);
      unfold wait_fuel; lia.
  - destruct (wait_loop_bounded (op_selfLink op) (op_name op) wait_fuel O w ltac:(lia))
      as [Hp Hs].
    change (Z.of_nat 0) with 0 in *. split; [lia | lia].
Qed.

(** C1, as amended: for every operation handle, on a backend that answers
    each poll (no exception, any error payload complete) the Waiter polls
    at 1-unit intervals and returns after at most 61 polls and 61 units of
    sleep, the guard being [timeout > 60].  With [k] the number of polls
    answered "not done" before the first [DONE] (61 when there is none
    among the first 61), it returns right after poll [k + 1] having slept
    [k] units, and when the budget runs out it returns the same empty
    result as on completion. *)
Theorem wait_for_operation_budget {W : Type} `{Backend W}
  (self : Kgcp) (op : operation) (w : W) (k : nat) :
  (k <= 61)%nat ->
  (forall j, (j < k)%nat ->
     pending (answer_at (op_selfLink op) (op_name op) j w) = true) ->
  ((k < 61)%nat -> completed (answer_at (op_selfLink op) (op_name op) k w) = true) ->
  let r := run (_wait_for_operation self op) w in
  outcome_of r = Returned tt /\
  polls (trace_of r) = Nat.min (S k) 61 /\
  slept (trace_of r) = Z.of_nat k /\
  slept (trace_of r) <= 61.
Proof.
  intros Hk Hpending Hdone r.
  destruct (wait_loop_run (op_selfLink op) (op_name op) k wait_fuel O w)
    as (Ho & _ & Hn & Hs); try assumption; try (unfold wait_fuel; lia).
  subst r. unfold _wait_for_operation. change (Z.of_nat 0) with 0 in *.
  rewrite Ho, Hn, Hs. cbn [Nat.add].
  repeat split; try lia.
  destruct (Nat.ltb_spec k 61); lia.
Qed.

(** On the reference backend with three polls pending, the Waiter returns
    after the fourth poll, having slept three units. *)
Lemma wait_for_operation_budget_witness :
  let r := run (_wait_for_operation gcp some_operation) (Cloud.with_pending 3 Cloud.empty) in
  outcome_of r = Returned tt /\
  polls (trace_of r) = Nat.min 4 61 /\
  slept (trace_of r) = 3 /\
  slept (trace_of r) <= 61.
Proof.
  apply (wait_for_operation_budget gcp some_operation (Cloud.with_pending 3 Cloud.empty) 3).
  - lia.
  - intros j Hj. destruct j as [| [| [| j]]]; [reflexivity | reflexivity | reflexivity | lia].
  - intros _. reflexivity.
Defined.

(** C1, as stated, fails: when no poll reports [DONE] the Waiter sleeps 61
    units, one more than the budget of 60 the claim gives. *)
Lemma wait_for_operation_sleeps_61 :
  ~ (slept (trace_of (run (_wait_for_operation gcp some_operation) slow_cloud)) <= 60).
Proof.
  assert (E : slept (trace_of (run (_wait_for_operation gcp some_operation) slow_cloud)) = 61)
    by (vm_compute; reflexivity).
  rewrite E. lia.
Qed.

(** ** [exists] and [create] *)

Section CreateFacts.

Context {W : Type} `{Backend W}.

Lemma exists_run (self : Kgcp) (name : string) (w : W) :
  run (exists_ self name) w =
  match exec (instances_get name) w with
  | (Ok _, w1) => (Returned true, w1, [Called (instances_get name)])
  | (Err _, w1) => (Returned false, w1, [Called (instances_get name)])
  end.
Proof.
  unfold exists_. rewrite run_try_except, run_bind, (run_execute (instances_get name)).
  destruct (exec (instances_get name) w) as [[vm | e] w1]; reflexivity.
Qed.

(** C3: whenever the pre-flight probe finds the name, [create] returns the
    tagged failure that reports the collision, having issued the probe and
    nothing else: no mutating call. *)
Theorem create_existing_name_fails
  (create_instance : string -> string -> prog answer)
  (self : Kgcp) (name : string) (flavor : option string) (numcpus memory : Z)
  (w w1 : W) (vm : instance) :
  exec (instances_get name) w = (Ok vm, w1) ->
  run (create create_instance self name flavor numcpus memory) w
  = (Returned (Failure ("VM " ++ name ++ " already exists")), w1,
     [Called (instances_get name)])
  /\ mutations (trace_of (run (create create_instance self name flavor numcpus memory) w)) = [].
Proof.
  intros Hprobe.
  assert (E : run (create create_instance self name flavor numcpus memory) w
              = (Returned (Failure ("VM " ++ name ++ " already exists")), w1,
                 [Called (instances_get name)])).
  { unfold create. rewrite run_bind, exists_run, Hprobe. reflexivity. }
  rewrite E. split; reflexivity.
Qed.


End CreateFacts.

(** On the reference backend [vm1] exists, and creating it again fails
    without a mutation. *)
Lemma create_existing_name_fails_witness :
  run (create submit_instance gcp "vm1" None 2 2048) cloud_with_vm1
  = (Returned (Failure "VM vm1 already exists"), cloud_with_vm1,
     [Called (instances_get "vm1")])
  /\ mutations (trace_of (run (create submit_instance gcp "vm1" None 2 2048) cloud_with_vm1)) = [].
Proof.
  eapply (create_existing_name_fails submit_instance gcp "vm1" None 2 2048 cloud_with_vm1).
  reflexivity.
Defined.


Example create_after_transient_fault :
  run (create submit_instance gcp "vm1" (Some "n1-standard-1") 2 2048) (1%nat, cloud_with_vm1)
  = (Returned (Failure "409 vm1 already exists"), (O, cloud_with_vm1),
     [Called (instances_get "vm1");
      Called (instances_insert "vm1" "zones/europe-west1-b/machineTypes/n1-standard-1")]).
Proof. reflexivity. Qed.

(** ** Shape synthesis *)

Lemma even_mod2 (n : Z) : (n mod 2 =? 0) = Z.even n.
Proof.
  rewrite Zmod_even. destruct (Z.even n); reflexivity.
Qed.

Lemma accepted_guards (numcpus memory : Z) :
  accepted numcpus memory
  = negb (negb (numcpus =? 1) && negb (numcpus mod 2 =? 0))
    && negb (negb (memory =? 512) && negb (memory mod 1024 =? 0)).
Proof.
  unfold accepted. rewrite even_mod2.
  destruct (numcpus =? 1), (Z.even numcpus), (memory =? 512), (memory mod 1024 =? 0);
    reflexivity.
Qed.

(** C2, as amended: with no flavor given and a name that does not exist yet,
    [create] accepts a cpu/memory combination exactly when the cpu count is
    1 or even and the memory is 512 or a multiple of 1024, and otherwise
    returns a tagged failure having issued the probe alone.  For an accepted
    combination the rest of the method receives the machine type
    [custom-<numcpus>-<memory>], the memory first raised to 2048 (with a
    printed notice) when more than one cpu is used, except that a memory
    below 921.6 after that step gives the catalog type [f1-micro]. *)
Theorem create_shape {W : Type} `{Backend W}
  (create_instance : string -> string -> prog answer)
  (self : Kgcp) (name : string) (numcpus memory : Z) (w w1 : W) (e : exn) :
  exec (instances_get name) w = (Err e, w1) ->
  let r := run (create create_instance self name None numcpus memory) w in
  if accepted numcpus memory then
    exists logs,
      forallb is_log logs = true /\
      ((1 <? numcpus) && (memory <? 2048) = true ->
       In (Logged Info_ "Rounding memory to 2048Mb as more than one cpu is used") logs) /\
      r = (let '(o, w2, tr) :=
             run (create_instance name ("zones/" ++ zone self ++ "/machineTypes/"
                                        ++ shape numcpus memory)) w1
           in (o, w2, (Called (instances_get name) :: logs ++ tr)%list))
  else
    exists reason,
      r = (Returned (Failure reason), w1, [Called (instances_get name)]).
Proof.
  intros Hprobe r. subst r.
  rewrite accepted_guards.
  unfold create. rewrite run_bind, exists_run, Hprobe. cbv match.
  destruct (negb (numcpus =? 1) && negb (numcpus mod 2 =? 0)) eqn:Hcpu.
  { cbn [negb andb]. eexists. reflexivity. }
  destruct (negb (memory =? 512) && negb (memory mod 1024 =? 0)) eqn:Hmem.
  { cbn [negb andb]. eexists. reflexivity. }
  cbn [negb andb].
  unfold shape, floored. rewrite (Z.gtb_ltb numcpus 1).
  destruct (1 <? numcpus) eqn:Hmany; cbn [andb].
  - destruct (Z.ltb_spec memory 2048) as [Hlow | Hhigh].
    + replace (Z.max memory 2048) with 2048 by lia.
      exists [Logged Info_ "Rounding memory to 2048Mb as more than one cpu is used"].
      split; [reflexivity |]. split; [intros _; left; reflexivity |].
      unfold pprint. cbn -[String.append Py.str_of_int].
      destruct (run (create_instance name _) w1) as [[o w2] tr]. reflexivity.
    + replace (Z.max memory 2048) with memory by lia.
      replace (memory <=? 921) with false by (symmetry; apply Z.leb_gt; lia).
      exists []. split; [reflexivity |]. split; [discriminate |].
      cbn -[String.append Py.str_of_int Z.mul Z.ltb].
      replace (10 * memory <? 9216) with false by (symmetry; apply Z.ltb_ge; lia).
      cbn -[String.append Py.str_of_int].
      destruct (run (create_instance name _) w1) as [[o w2] tr]. reflexivity.
  - cbn -[String.append Py.str_of_int Z.mul Z.ltb Z.leb].
    destruct (Z.leb_spec memory 921) as [Hsmall | Hbig].
    + replace (10 * memory <? 9216) with true by (symmetry; apply Z.ltb_lt; lia).
      exists [Logged Info_ "Rounding memory to 1024Mb"].
      split; [reflexivity |]. split; [discriminate |].
      unfold pprint. cbn -[String.append Py.str_of_int].
      destruct (run (create_instance name _) w1) as [[o w2] tr]. reflexivity.
    + replace (10 * memory <? 9216) with false by (symmetry; apply Z.ltb_ge; lia).
      exists []. split; [reflexivity |]. split; [discriminate |].
      cbn -[String.append Py.str_of_int].
      destruct (run (create_instance name _) w1) as [[o w2] tr]. reflexivity.
Qed.

(** On the reference backend, two cpus with 512 MB are accepted and the
    instance is submitted with the shape [custom-2-2048]. *)
Lemma create_shape_witness :
  exists logs,
    forallb is_log logs = true /\
    ((1 <? 2) && (512 <? 2048) = true ->
     In (Logged Info_ "Rounding memory to 2048Mb as more than one cpu is used") logs) /\
    run (create submit_instance gcp "vm1" None 2 512) Cloud.empty
    = (let '(o, w2, tr) :=
         run (submit_instance "vm1" ("zones/" ++ zone gcp ++ "/machineTypes/" ++ shape 2 512))
             Cloud.empty
       in (o, w2, (Called (instances_get "vm1") :: logs ++ tr)%list)).
Proof.
  exact (create_shape submit_instance gcp "vm1" 2 512 Cloud.empty Cloud.empty
           (HttpError "404 vm1 was not found") eq_refl).
Defined.

Example shape_two_cpus : shape 2 512 = "custom-2-2048".
Proof. reflexivity. Qed.

Example shape_four_cpus : shape 4 8192 = "custom-4-8192".
Proof. reflexivity. Qed.

(** C2, as stated, fails: one cpu with 512 MB is an accepted combination,
    and the instance is not submitted with the shape [custom-1-512] but
    with the catalog type [f1-micro]. *)
Lemma create_one_cpu_512_is_f1_micro :
  accepted 1 512 = true /\
  mutations (trace_of (run (create submit_instance gcp "vm1" None 1 512) Cloud.empty))
  = [Called (instances_insert "vm1" "zones/europe-west1-b/machineTypes/f1-micro")] /\
  ~ In (Called (instances_insert "vm1" "zones/europe-west1-b/machineTypes/custom-1-512"))
       (trace_of (run (create submit_instance gcp "vm1" None 1 512) Cloud.empty)).
Proof.
  split; [reflexivity |]. split; [reflexivity |].
  vm_compute. intros [E | [E | [E | []]]]; discriminate E.
Qed.

(** ** Resizing *)

Section Resize.

Context {W : Type} `{Backend W}.

Lemma get_vm_or_fail_run (name : string) (w : W) :
  run (get_vm_or_fail name) w =
  match exec (instances_get name) w with
  | (Ok vm, w1) => (Returned (inl vm), w1, [Called (instances_get name)])
  | (Err _, w1) =>
      (Returned (inr (Failure ("VM " ++ name ++ " not found"))), w1,
       [Called (instances_get name); Logged Error_ ("VM " ++ name ++ " not found")])
  end.
Proof.
  unfold get_vm_or_fail.
  rewrite run_try_except, run_bind, (run_execute (instances_get name)).
  destruct (exec (instances_get name) w) as [[vm | e] w1]; reflexivity.
Qed.

(** A running or stopping instance is not resized: each of the three
    methods returns the tagged failure and issues no mutating call. *)
Lemma update_while_up (self : Kgcp) (name flavor : string) (v : Py.value)
  (w w1 : W) (vm : instance) :
  exec (instances_get name) w = (Ok vm, w1) ->
  is_up vm = true ->
  let ok (r : outcome answer * W * list event) :=
    outcome_of r = Returned (Failure ("VM " ++ name ++ " up"))
    /\ world_of r = w1 /\ mutations (trace_of r) = [] in
  ok (run (update_flavor self name flavor) w)
  /\ ok (run (update_memory self name v) w)
  /\ ok (run (update_cpus self name v) w).
Proof.
  intros Hget Hup ok. subst ok.
  unfold update_flavor, update_memory, update_cpus.
  rewrite !run_bind, !get_vm_or_fail_run, !Hget, Hup.
  repeat split; reflexivity.
Qed.

(** An instance that is not up and already has the requested flavor is left
    alone by [update_flavor]. *)
Lemma update_flavor_noop (self : Kgcp) (name flavor : string)
  (w w1 : W) (vm : instance) :
  exec (instances_get name) w = (Ok vm, w1) ->
  is_up vm = false ->
  Py.basename (machineType vm) = flavor ->
  run (update_flavor self name flavor) w
  = (Returned Success, w1, [Called (instances_get name)]).
Proof.
  intros Hget Hup Hflavor.
  unfold update_flavor. rewrite run_bind, get_vm_or_fail_run, Hget, Hup.
  rewrite Hflavor, String.eqb_refl. reflexivity.
Qed.

(** [update_memory] and [update_cpus] leave an instance alone when its
    shape reads [custom-<cpus>-<memory>] and the request is the very string
    found there. *)
Lemma update_custom_noop (self : Kgcp) (name cpus memory prefix : string)
  (w w1 : W) (vm : instance) :
  exec (instances_get name) w = (Ok vm, w1) ->
  is_up vm = false ->
  Py.contains "custom" (Py.basename (machineType vm)) = true ->
  Py.split "-" (Py.basename (machineType vm)) = [prefix; cpus; memory] ->
  run (update_memory self name (Py.Str memory)) w
  = (Returned Success, w1, [Called (instances_get name)])
  /\ run (update_cpus self name (Py.Str cpus)) w
     = (Returned Success, w1, [Called (instances_get name)]).
Proof.
  intros Hget Hup Hcustom Hsplit.
  unfold update_memory, update_cpus.
  rewrite !run_bind, !get_vm_or_fail_run, Hget, Hup, Hcustom.
  unfold unpack_shape. rewrite Hsplit. cbn [tl bind Py.eq_str].
  rewrite !String.eqb_refl. split; reflexivity.
Qed.

(** An integer request never equals the string read from the machine type:
    the shape is replaced even when it already matches. *)
Lemma update_memory_int_replaces (self : Kgcp) (name cpus memory prefix : string) (n : Z)
  (w w1 : W) (vm : instance) :
  exec (instances_get name) w = (Ok vm, w1) ->
  is_up vm = false ->
  Py.contains "custom" (Py.basename (machineType vm)) = true ->
  Py.split "-" (Py.basename (machineType vm)) = [prefix; cpus; memory] ->
  exists tr,
    trace_of (run (update_memory self name (Py.Int n)) w)
    = Called (instances_get name)
      :: Called (instances_setMachineType name
                   (machineTypes_url self ++ "/custom-" ++ cpus ++ "-" ++ Py.str_of_int n))
      :: tr.
Proof.
  intros Hget Hup Hcustom Hsplit.
  unfold update_memory.
  rewrite run_bind, get_vm_or_fail_run, Hget, Hup, Hcustom.
  unfold unpack_shape. rewrite Hsplit. cbn [tl bind Py.eq_str Py.format execute].
  cbn [run].
  destruct (exec (instances_setMachineType name _) w1) as [[op | e] w2];
    eexists; reflexivity.
Qed.

End Resize.

(** C5, at the inputs where the code parts from it.  The three instances
    are stopped and already have the requested shape, yet [update_memory]
    and [update_cpus] replace the shape of [vm2] when the request is an
    integer, and raise [ValueError] on [vm3], whose N2 custom shape
    [n2-custom-2-4096] splits into more than two pieces after the first. *)
Theorem resize_of_matching_shape_mutates_or_raises :
  mutations (trace_of (run (update_memory gcp "vm2" (Py.Int 2048)) stopped_cloud))
  = [Called (instances_setMachineType "vm2"
       "https://www.googleapis.com/compute/v1/projects/p/zones/europe-west1-b/machineTypes/custom-2-2048")]
  /\ mutations (trace_of (run (update_cpus gcp "vm2" (Py.Int 2)) stopped_cloud))
     = [Called (instances_setMachineType "vm2"
          "https://www.googleapis.com/compute/v1/projects/p/zones/europe-west1-b/machineTypes/custom-2-2048")]
  /\ outcome_of (run (update_memory gcp "vm3" (Py.Str "4096")) stopped_cloud)
     = Raised (ValueError "too many values to unpack (expected 2)")
  /\ outcome_of (run (update_cpus gcp "vm3" (Py.Str "2")) stopped_cloud)
     = Raised (ValueError "too many values to unpack (expected 2)").
Proof. repeat split; reflexivity. Qed.

Example update_flavor_matching :
  run (update_flavor gcp "vm4" "n1-standard-1") stopped_cloud
  = (Returned Success, stopped_cloud, [Called (instances_get "vm4")]).
Proof. reflexivity. Qed.

Example update_memory_matching_string :
  run (update_memory gcp "vm2" (Py.Str "2048")) stopped_cloud
  = (Returned Success, stopped_cloud, [Called (instances_get "vm2")]).
Proof. reflexivity. Qed.

Example update_cpus_while_running :
  run (update_cpus gcp "vm1" (Py.Int 4)) cloud_with_vm1
  = (Returned (Failure "VM vm1 up"), cloud_with_vm1,
     [Called (instances_get "vm1"); Logged Error_ "Can't update cpus of VM vm1 while up"]).
Proof. reflexivity. Qed.

(** ** [create_network] *)

(** The network is inserted first, whatever the CIDR: the first event of
    every run is the mutating call. *)
Lemma create_network_inserts_first {W : Type} `{Backend W}
  (ip_network : string -> bool) (self : Kgcp) (name : string) (cidr : option string)
  (overrides : network_overrides) (w : W) :
  exists tr,
    trace_of (run (create_network ip_network self name cidr overrides) w)
    = Called (networks_insert name match cidr with None => true | Some _ => false end) :: tr.
Proof.
  unfold create_network. cbv zeta.
  rewrite run_bind, (run_execute (networks_insert name _)).
  destruct (exec (networks_insert name _) w) as [[op | e] w1].
  - cbv match. destruct (run _ w1) as [[o w2] tr]. eexists. reflexivity.
  - eexists. reflexivity.
Qed.

(** C4, at an input where the code parts from it: with the malformed CIDR
    [10.0.0.0/33] and subnet creation left on, [create_network] returns the
    tagged failure only after it has inserted the network and waited for
    the operation; the network stays behind. *)
Theorem create_network_invalid_cidr_leaves_network :
  run (create_network ipv4_network gcp "net1" (Some "10.0.0.0/33") no_overrides) Cloud.empty
  = (Returned (Failure "Invalid Cidr 10.0.0.0/33"),
     Cloud.add Cloud.Network "net1" Cloud.empty,
     [Called (networks_insert "net1" false);
      Called (globalOperations_get "operation-insert-net1")])
  /\ ipv4_network "10.0.0.0/33" = false
  /\ mutations (trace_of (run (create_network ipv4_network gcp "net1" (Some "10.0.0.0/33")
                                 no_overrides) Cloud.empty))
     = [Called (networks_insert "net1" false)].
Proof. repeat split; reflexivity. Qed.

(** ** The calls a program can make *)

Section Footprint.

Context {W : Type} `{Backend W}.

Lemma uses_trace {A : Type} (P : call -> bool) (p : prog A) :
  uses P p -> forall w : W, forallb (event_in P) (trace_of (run p w)) = true.
Proof.
  induction p as [a | e | c k IH | ev k IH | ]; intros Hp w; simpl in *; try reflexivity.
  - destruct Hp as [Hc Hk]. destruct (exec c w) as [r w1].
    specialize (IH r (Hk r) w1). destruct (run (k r) w1) as [[o w2] tr].
    unfold trace_of in *. simpl in *. rewrite Hc, IH. reflexivity.
  - destruct Hp as [Hev Hk]. specialize (IH Hk w). destruct (run k w) as [[o w1] tr].
    unfold trace_of in *. simpl in *. rewrite Hev, IH. reflexivity.
Qed.

Lemma uses_bind {A B : Type} (P : call -> bool) (p : prog A) (f : A -> prog B) :
  uses P p -> (forall a, uses P (f a)) -> uses P (bind p f).
Proof.
  intros Hp Hf. induction p as [a | e | c k IH | ev k IH | ]; simpl in *; auto.
  - destruct Hp as [Hc Hk]. split; [assumption |]. intros r. apply IH, Hk.
  - destruct Hp as [Hev Hk]. split; auto.
Qed.

Lemma uses_try_except {A : Type} (P : call -> bool) (p : prog A) (h : exn -> prog A) :
  uses P p -> (forall e, uses P (h e)) -> uses P (try_except p h).
Proof.
  intros Hp Hh. induction p as [a | e | c k IH | ev k IH | ]; simpl in *; auto.
  - destruct Hp as [Hc Hk]. split; [assumption |]. intros r. apply IH, Hk.
  - destruct Hp as [Hev Hk]. split; auto.
Qed.

Lemma uses_execute (P : call -> bool) (c : call) : P c = true -> uses P (execute c).
Proof.
  intros Hc. simpl. split; [assumption |]. intros [a | e]; exact I.
Qed.

End Footprint.

(** ** The cluster-prefix rule *)

Lemma append_assoc (a b c : string) : (a ++ b) ++ c = a ++ (b ++ c).
Proof.
  induction a as [| x a IH]; simpl; [reflexivity | rewrite IH; reflexivity].
Qed.

Lemma split_unfold (sep : ascii) (s : string) :
  Py.split sep s
  = before_first sep s :: match after_first sep s with
                          | Some rest => Py.split sep rest
                          | None => []
                          end.
Proof.
  induction s as [| c s IH]; simpl; [reflexivity |].
  destruct (Ascii.eqb c sep); [reflexivity |].
  rewrite IH. reflexivity.
Qed.

Lemma after_first_dot (name domain : string) :
  exists rest, after_first "." (name ++ "." ++ domain) = Some rest.
Proof.
  induction name as [| c name [rest IH]]; simpl.
  - eexists. reflexivity.
  - destruct (Ascii.eqb c "."); eexists; [reflexivity | exact IH].
Qed.

(** The rule never raises: it is a pure function of the name and the
    domain. *)
Lemma cluster_rule_ret (name domain : string) :
  let fqdn := name ++ "." ++ domain in
  cluster_rule name domain
  = Ret (if String.eqb (before_first "-" fqdn) (second_label fqdn)
         then (Some (before_first "-" fqdn), before_first "." fqdn,
               Py.replace (before_first "-" fqdn ++ ".") ""
                 (Py.replace (before_first "." fqdn ++ ".") "" fqdn))
         else (None, name, domain)).
Proof.
  intros fqdn. unfold cluster_rule, second_label. fold fqdn.
  rewrite (split_unfold "-" fqdn), (split_unfold "." fqdn).
  destruct (after_first_dot name domain) as [rest Hrest]. fold fqdn in Hrest.
  rewrite Hrest, (split_unfold "." rest).
  cbn [getitem nth_error bind firstn Py.join String.concat].
  destruct (String.eqb (before_first "-" fqdn) (before_first "." rest)); reflexivity.
Qed.

(** C6: for every name and domain, the rule that [reserve_dns] and
    [delete_dns] both start with extracts a cluster exactly when the
    fragment of the fully-qualified name before its first hyphen equals its
    second dot-separated label; the record name is then [<host>.<cluster>],
    with [<host>] the first label, and otherwise the name unchanged. *)
Theorem cluster_rule_spec (name domain : string) :
  let fqdn := name ++ "." ++ domain in
  let cluster := before_first "-" fqdn in
  let host := before_first "." fqdn in
  if String.eqb cluster (second_label fqdn)
  then exists domain',
         cluster_rule name domain = Ret (Some cluster, host, domain')
         /\ dnsentry (Some cluster) host = host ++ "." ++ cluster
         /\ entry_of (Some cluster) host domain' = host ++ "." ++ cluster ++ "." ++ domain' ++ "."
  else cluster_rule name domain = Ret (None, name, domain)
       /\ dnsentry None name = name
       /\ entry_of None name domain = name ++ "." ++ domain ++ ".".
Proof.
  intros fqdn cluster host. subst cluster host.
  rewrite cluster_rule_ret. fold fqdn.
  destruct (String.eqb (before_first "-" fqdn) (second_label fqdn)).
  - eexists. split; [reflexivity |]. split; [reflexivity |].
    unfold entry_of, dnsentry.
    rewrite !append_assoc. reflexivity.
  - repeat split; reflexivity.
Qed.

Example cluster_rule_cluster_vm :
  cluster_rule "mycluster-ctlplane-0" "mycluster.example.com"
  = Ret (Some "mycluster", "mycluster-ctlplane-0", "example.com").
Proof. reflexivity. Qed.

Example cluster_rule_prefix_not_second_label :
  cluster_rule "ctlplane-0" "mycluster.example.com"
  = Ret (None, "ctlplane-0", "mycluster.example.com").
Proof. reflexivity. Qed.

Example cluster_rule_ordinary_name :
  cluster_rule "standalone" "example.com" = Ret (None, "standalone", "example.com").
Proof. reflexivity. Qed.

(** *** The domain the rule leaves *)




Lemma contains_cons (p : string) (c : ascii) (s : string) :
  Py.contains p (String c s) = prefix p (String c s) || Py.contains p s.
Proof.
  unfold Py.contains. cbn [index].
  destruct (prefix p (String c s)); [reflexivity |].
  destruct (index 0 p s); reflexivity.
Qed.


Lemma contains_char_cons (a c : ascii) (s : string) :
  Py.contains (String a "") (String c s) = Ascii.eqb a c || Py.contains (String a "") s.
Proof.
  unfold Py.contains. cbn [index prefix].
  destruct (ascii_dec a c) as [<- | Hc].
  - rewrite Ascii.eqb_refl.
    replace (prefix "" s) with true by (destruct s; reflexivity). reflexivity.
  - destruct (Ascii.eqb_spec a c) as [E | _]; [contradiction |].
    cbn [orb]. destruct (index 0 (String a "") s); reflexivity.
Qed.





(** ** [reserve_dns] *)

Section ReserveDns.

Context {W : Type} `{Backend W}.












End ReserveDns.

Example reserve_dns_cluster_wildcard :
  changesets (trace_of (run (reserve_dns gcp "mycluster-ctlplane-0" [NetName "default"]
                               "mycluster.example.com" None ["*"; "www"]) dns_cloud))
  = [Called (dns_changes_create "example-com"
       [mkRecordSet "mycluster-ctlplane-0.mycluster.example.com." "A" 300 ["10.0.0.2"];
        mkRecordSet "*.apps.mycluster.example.com." "A" 300 ["34.1.2.3"];
        mkRecordSet "www.example.com." "CNAME" 300
                    ["mycluster-ctlplane-0.mycluster.example.com."]]
       [])].
Proof. reflexivity. Qed.

Example reserve_dns_standalone_wildcard :
  changesets (trace_of (run (reserve_dns gcp "standalone" [NetName "default"]
                               "example.com" None ["*"]) dns_cloud))
  = [Called (dns_changes_create "example-com"
       [mkRecordSet "standalone.example.com." "A" 300 ["34.1.2.3"];
        mkRecordSet "*.standalone.example.com." "A" 300 ["34.1.2.3"]]
       [])].
Proof. reflexivity. Qed.



(** ** Termination and invariants of runs *)

Section Totality.

Context {W : Type} `{Backend W}.

Lemma total_run {A : Type} (p : prog A) :
  total p -> forall w : W, outcome_of (run p w) <> Diverged.
Proof.
  induction p as [a | e | c k IH | ev k IH | ]; intros Hp w; simpl in *;
    try discriminate; try contradiction.
  - destruct (exec c w) as [r w1]. specialize (IH r (Hp r) w1).
    destruct (run (k r) w1) as [[o w2] tr]. exact IH.
  - specialize (IH Hp w). destruct (run k w) as [[o w1] tr]. exact IH.
Qed.

Lemma total_bind {A B : Type} (p : prog A) (f : A -> prog B) :
  total p -> (forall a, total (f a)) -> total (bind p f).
Proof.
  intros Hp Hf. induction p as [a | e | c k IH | ev k IH | ]; simpl in *; auto.
Qed.

Lemma total_try_except {A : Type} (p : prog A) (h : exn -> prog A) :
  total p -> (forall e, total (h e)) -> total (try_except p h).
Proof.
  intros Hp Hh. induction p as [a | e | c k IH | ev k IH | ]; simpl in *; auto.
Qed.

Lemma total_execute (c : call) : total (execute c).
Proof. intros [a | e]; exact I. Qed.

(** A property of the backend that every call of a program preserves holds
    when the program ends, however it ends. *)
Lemma run_invariant {A : Type} (P : call -> bool) (Inv : W -> Prop) (p : prog A) :
  (forall c w, P c = true -> Inv w -> Inv (snd (exec c w))) ->
  uses P p -> forall w, Inv w -> Inv (world_of (run p w)).
Proof.
  intros Hstep.
  induction p as [a | e | c k IH | ev k IH | ]; intros Hp w Hw; simpl in *; try exact Hw.
  - destruct Hp as [Hc Hk]. specialize (Hstep c w Hc Hw).
    destruct (exec c w) as [r w1]. specialize (IH r (Hk r) w1 Hstep).
    destruct (run (k r) w1) as [[o w2] tr]. exact IH.
  - destruct Hp as [_ Hk]. specialize (IH Hk w Hw).
    destruct (run k w) as [[o w1] tr]. exact IH.
Qed.

Lemma total_wait_loop (selflink operation : string) (fuel : nat) :
  forall t : nat, (0 < fuel)%nat -> (61 < t + fuel)%nat ->
  total (wait_loop fuel selflink operation (Z.of_nat t)).
Proof.
  induction fuel as [| fuel IH]; intros t Hpos Hfuel; [lia |].
  rewrite wait_loop_unfold.
  destruct (Z.of_nat t >? 60) eqn:Ht; [exact I |].
  rewrite Z.gtb_ltb in Ht. apply Z.ltb_ge in Ht.
  apply total_bind.
  { destruct (Py.contains "zone" selflink); [| destruct (Py.contains "region" selflink)];
      [ exact (total_execute (zoneOperations_get operation))
      | exact (total_execute (regionOperations_get operation))
      | exact (total_execute (globalOperations_get operation)) ]. }
  intros check. cbv zeta. apply total_bind.
  { destruct (String.eqb (chk_status check) "DONE"); exact I. }
  intros _. apply total_bind.
  { destruct (chk_httpErrorMessage check); [| exact I].
    destruct (chk_errors check) as [[| e errs] |]; exact I. }
  intros _. destruct (String.eqb (chk_status check) "DONE"); [exact I |].
  replace (Z.of_nat t + 1) with (Z.of_nat (S t)) by lia.
  apply IH; lia.
Qed.

Lemma total_wait_for_operation (self : Kgcp) (op : operation) :
  total (_wait_for_operation self op).
Proof.
  unfold _wait_for_operation. apply (total_wait_loop _ _ wait_fuel O); unfold wait_fuel; lia.
Qed.

Lemma uses_wait_loop (P : call -> bool) (selflink operation : string) (fuel : nat) :
  P (zoneOperations_get operation) = true ->
  P (regionOperations_get operation) = true ->
  P (globalOperations_get operation) = true ->
  forall timeout, uses P (wait_loop fuel selflink operation timeout).
Proof.
  intros Hz Hr Hg.
  induction fuel as [| fuel IH]; intros timeout; [exact I |].
  rewrite wait_loop_unfold. destruct (timeout >? 60); [exact I |].
  apply uses_bind.
  { destruct (Py.contains "zone" selflink); [| destruct (Py.contains "region" selflink)];
      [ exact (uses_execute P (zoneOperations_get operation) Hz)
      | exact (uses_execute P (regionOperations_get operation) Hr)
      | exact (uses_execute P (globalOperations_get operation) Hg) ]. }
  intros check. cbv zeta. apply uses_bind.
  { destruct (String.eqb (chk_status check) "DONE"); simpl; auto. }
  intros _. apply uses_bind.
  { destruct (chk_httpErrorMessage check); [| exact I].
    destruct (chk_errors check) as [[| e errs] |]; simpl; auto. }
  intros _. destruct (String.eqb (chk_status check) "DONE"); [exact I | apply IH].
Qed.

Lemma uses_wait_for_operation (P : call -> bool) (self : Kgcp) (op : operation) :
  P (zoneOperations_get (op_name op)) = true ->
  P (regionOperations_get (op_name op)) = true ->
  P (globalOperations_get (op_name op)) = true ->
  uses P (_wait_for_operation self op).
Proof. intros. apply uses_wait_loop; assumption. Qed.

Lemma for_each_skip (items : list string) (f : string -> prog unit) (w : W) :
  (forall x, In x items -> f x = Ret tt) ->
  run (for_each items f) w = (Returned tt, w, []).
Proof.
  induction items as [| x items IH]; intros Hf; [reflexivity |].
  cbn [for_each]. rewrite (Hf x (or_introl eq_refl)). cbn [bind].
  apply IH. intros y Hy. apply Hf. right. exact Hy.
Qed.

Lemma skip_step {B : Type} (items : list string) (f : string -> prog unit)
  (rest : prog B) (w : W) :
  (forall x, In x items -> f x = Ret tt) ->
  run (for_each items f ;; rest) w = run rest w.
Proof.
  intros Hf. rewrite run_bind, (for_each_skip items f w Hf).
  destruct (run rest w) as [[o w1] tr]. reflexivity.
Qed.

End Totality.

(** ** [delete_dns] and [delete_loadbalancer] *)

Lemma delete_dns_teardown (self : Kgcp) (name domain : string) :
  uses teardown_call (delete_dns self name domain) /\ total (delete_dns self name domain).
Proof.
  unfold delete_dns. rewrite cluster_rule_ret. cbv zeta.
  destruct (if String.eqb _ _ then _ else _) as [[cluster host] dom]. cbn [bind].
  split.
  - split; [reflexivity |]. intros [zones | e]; [| exact I]. cbn [bind].
    destruct (matching_zones dom zones) as [| dnszone others]; [exact I |].
    apply uses_bind; [apply uses_execute; reflexivity |]. intros all.
    apply uses_bind.
    { destruct (flat_map _ all); [exact I | apply uses_execute; reflexivity]. }
    intros _. apply uses_bind; [| intros; exact I].
    apply uses_try_except; [| intros; exact I].
    apply uses_bind; [apply uses_execute; reflexivity | intros; exact I].
  - intros [zones | e]; [| exact I]. cbn [bind].
    destruct (matching_zones dom zones) as [| dnszone others]; [exact I |].
    apply total_bind; [apply total_execute |]. intros all.
    apply total_bind.
    { destruct (flat_map _ all); [exact I | apply total_execute]. }
    intros _. apply total_bind; [| intros; exact I].
    apply total_try_except; [| intros; exact I].
    apply total_bind; [apply total_execute | intros; exact I].
Qed.

Lemma clear_spec (looked_for : string -> bool) (r : result (list string)) :
  clear looked_for r = true ->
  exists items, r = Ok items /\ forall x, In x items -> looked_for x = false.
Proof.
  destruct r as [items | e]; [| discriminate]. simpl. intros Hall.
  exists items. split; [reflexivity |]. intros x Hx.
  rewrite forallb_forall in Hall. apply negb_true_iff, Hall, Hx.
Qed.

Section Teardown.

Context {W : Type} `{Backend W}.

(** What the rest of a method yields carries over a first step that
    returns. *)
Lemma run_bind_post {A B : Type} (p : prog A) (f : A -> prog B) (w : W)
  (Q : outcome B -> W -> Prop) :
  (exists a w1 tr1,
     run p w = (Returned a, w1, tr1)
     /\ Q (outcome_of (run (f a) w1)) (world_of (run (f a) w1))) ->
  Q (outcome_of (run (bind p f) w)) (world_of (run (bind p f) w)).
Proof.
  intros (a & w1 & tr1 & Hp & Hq). rewrite run_bind, Hp.
  destruct (run (f a) w1) as [[o w2] tr2]. exact Hq.
Qed.

Lemma returns_bind {A B : Type} (p : prog A) (f : A -> prog B) :
  returns p -> (forall a, returns (f a)) -> returns (bind p f).
Proof.
  intros Hp Hf. induction p as [a | e | c k IH | ev k IH | ]; simpl in *; auto.
Qed.

(** A total program inside [try: ... except:] returns when the handler
    does. *)
Lemma returns_try_except {A : Type} (p : prog A) (h : exn -> prog A) :
  total p -> (forall e, returns (h e)) -> returns (try_except p h).
Proof.
  intros Hp Hh. induction p as [a | e | c k IH | ev k IH | ]; simpl in *; auto.
Qed.

Lemma returns_for_each (items : list string) (f : string -> prog unit) :
  (forall x, returns (f x)) -> returns (for_each items f).
Proof.
  intros Hf. induction items as [| x items IH]; [exact I |].
  cbn [for_each]. apply returns_bind; auto.
Qed.

Lemma uses_for_each (P : call -> bool) (items : list string) (f : string -> prog unit) :
  (forall x, uses P (f x)) -> uses P (for_each items f).
Proof.
  intros Hf. induction items as [| x items IH]; [exact I |].
  cbn [for_each]. apply uses_bind; auto.
Qed.

(** A step that returns keeps what its calls keep. *)
Lemma returning_step (P : call -> bool) (Inv : W -> Prop) (p : prog unit) (w : W) :
  (forall c w, P c = true -> Inv w -> Inv (snd (exec c w))) ->
  uses P p -> returns p -> Inv w ->
  exists w1 tr, run p w = (Returned tt, w1, tr) /\ Inv w1.
Proof.
  intros Hstep Hu Hr Hw.
  pose proof (run_invariant P Inv p Hstep Hu w Hw) as Hinv.
  assert (Hret : exists a, outcome_of (run p w) = Returned a).
  { clear Hinv Hu Hw. revert w.
    induction p as [a | e | c k IH | ev k IH | ]; intros w; simpl in *; try contradiction.
    - eexists. reflexivity.
    - destruct (exec c w) as [r w1]. destruct (IH r (Hr r) w1) as [a Ha].
      destruct (run (k r) w1) as [[o w2] tr]. exists a. exact Ha.
    - destruct (IH Hr w) as [a Ha]. destruct (run k w) as [[o w1] tr]. exists a. exact Ha. }
  destruct Hret as [[] Hret].
  destruct (run p w) as [[o w1] tr]. unfold world_of, outcome_of in *. cbn [fst snd] in *.
  subst o. eauto.
Qed.

(** [delete_loadbalancer] tolerates the absence of every resource of the
    load balancer.  On any backend, from a state in which the listings
    answer and show no firewall rule, forwarding rule, backend service or
    health check of that name, and this stays so under calls that create
    nothing, a call of [delete_loadbalancer] raises no fault: it returns
    success, the address step and the deletion of the instance group being
    free to fail inside their [try] blocks. *)
Lemma teardown_tolerates_absence
  (self : Kgcp) (name : string) (absent : W -> Prop) :
  (forall c w, teardown_call c = true -> absent w -> absent (snd (exec c w))) ->
  (forall w, absent w -> listings_clear (Py.replace "." "-" name) w = true) ->
  forall w, absent w ->
  outcome_of (run (delete_loadbalancer self name) w) = Returned Success
  /\ absent (world_of (run (delete_loadbalancer self name) w)).
Proof.
  intros Hstable Hclear w Hw.
  unfold delete_loadbalancer. cbv zeta.
  set (lb := Py.replace "." "-" name) in *.
  (* firewall rules *)
  pose proof (Hclear w Hw) as C. unfold listings_clear in C.
  rewrite !andb_true_iff in C. destruct C as [[[[[C _] _] _] _] _].
  apply clear_spec in C. destruct C as (items & E & Hitems).
  pose proof (Hstable firewalls_list w eq_refl Hw) as Hw1.
  apply (run_bind_post (execute firewalls_list)
           _ w (fun o w' => o = Returned Success /\ absent w')).
  rewrite (run_execute firewalls_list).
  destruct (exec firewalls_list w) as [r w1]. cbn [fst snd] in E, Hw1. subst r.
  eexists _, _, _. split; [reflexivity |].
  rewrite skip_step by (intros x Hx; rewrite (Hitems x Hx); reflexivity).
  clear items Hitems w Hw. rename w1 into w, Hw1 into Hw.
  (* forwarding rules *)
  pose proof (Hclear w Hw) as C. unfold listings_clear in C.
  rewrite !andb_true_iff in C. destruct C as [[[[[_ C] _] _] _] _].
  apply clear_spec in C. destruct C as (items & E & Hitems).
  pose proof (Hstable forwardingRules_list w eq_refl Hw) as Hw1.
  apply (run_bind_post (execute forwardingRules_list)
           _ w (fun o w' => o = Returned Success /\ absent w')).
  rewrite (run_execute forwardingRules_list).
  destruct (exec forwardingRules_list w) as [r w1]. cbn [fst snd] in E, Hw1. subst r.
  eexists _, _, _. split; [reflexivity |].
  rewrite skip_step
    by (intros x Hx; specialize (Hitems x Hx); unfold lb_rule in Hitems;
        rewrite Hitems; reflexivity).
  clear items Hitems w Hw. rename w1 into w, Hw1 into Hw.
  (* the address, inside its try block *)
  apply (run_bind_post (try_except _ _)
           _ w (fun o w' => o = Returned Success /\ absent w')).
  match goal with |- context [try_except ?p ?h] =>
    assert (Hp : uses teardown_call p /\ total p);
    [| destruct (returning_step teardown_call absent (try_except p h) w Hstable)
         as (w1 & tr & Hrun & Hw1);
       [ apply uses_try_except; [apply Hp |]; intros e; destruct (debug self); simpl; auto
       | apply returns_try_except; [apply Hp |]; intros e; destruct (debug self); exact I
       | exact Hw | ] ]
  end.
  { split.
    apply uses_bind; [apply uses_execute; reflexivity |]. intros address.
    apply uses_bind.
    { destruct (addr_labels address) as [labels |]; [| exact I].
      destruct (lookup "domain" labels); [| exact I].
      destruct (lookup "dnsclient" labels); [exact I |].
      unfold pprint. cbn [bind]. split; [reflexivity |].
      apply uses_bind; [apply delete_dns_teardown | intros; exact I]. }
    intros _. unfold pprint. cbn [bind]. split; [reflexivity |].
    apply uses_bind; [apply uses_execute; reflexivity |]. intros operation.
    apply uses_wait_for_operation; reflexivity.
    apply total_bind; [apply total_execute |]. intros address.
    apply total_bind.
    { destruct (addr_labels address) as [labels |]; [| exact I].
      destruct (lookup "domain" labels); [| exact I].
      destruct (lookup "dnsclient" labels); [exact I |].
      unfold pprint. cbn [bind total].
      apply total_bind; [apply delete_dns_teardown | intros; exact I]. }
    intros _. unfold pprint. cbn [bind total].
    apply total_bind; [apply total_execute |]. intros operation.
    apply total_wait_for_operation. }
  eexists _, _, _. split; [exact Hrun |].
  clear tr Hrun Hp w Hw. rename w1 into w, Hw1 into Hw.
  (* backend services *)
  pose proof (Hclear w Hw) as C. unfold listings_clear in C.
  rewrite !andb_true_iff in C. destruct C as [[[[_ C] _] _] _].
  apply clear_spec in C. destruct C as (items & E & Hitems).
  pose proof (Hstable regionBackendServices_list w eq_refl Hw) as Hw1.
  apply (run_bind_post (execute regionBackendServices_list)
           _ w (fun o w' => o = Returned Success /\ absent w')).
  rewrite (run_execute regionBackendServices_list).
  destruct (exec regionBackendServices_list w) as [r w1]. cbn [fst snd] in E, Hw1. subst r.
  eexists _, _, _. split; [reflexivity |].
  rewrite skip_step by (intros x Hx; rewrite (Hitems x Hx); reflexivity).
  clear items Hitems w Hw. rename w1 into w, Hw1 into Hw.
  (* regional health checks *)
  pose proof (Hclear w Hw) as C. unfold listings_clear in C.
  rewrite !andb_true_iff in C. destruct C as [[[_ C] _] _].
  apply clear_spec in C. destruct C as (items & E & Hitems).
  pose proof (Hstable regionHealthChecks_list w eq_refl Hw) as Hw1.
  apply (run_bind_post (execute regionHealthChecks_list)
           _ w (fun o w' => o = Returned Success /\ absent w')).
  rewrite (run_execute regionHealthChecks_list).
  destruct (exec regionHealthChecks_list w) as [r w1]. cbn [fst snd] in E, Hw1. subst r.
  eexists _, _, _. split; [reflexivity |].
  rewrite skip_step by (intros x Hx; rewrite (Hitems x Hx); reflexivity).
  clear items Hitems w Hw. rename w1 into w, Hw1 into Hw.
  (* global health checks *)
  pose proof (Hclear w Hw) as C. unfold listings_clear in C.
  rewrite !andb_true_iff in C. destruct C as [[_ C] _].
  apply clear_spec in C. destruct C as (items & E & Hitems).
  pose proof (Hstable healthChecks_list w eq_refl Hw) as Hw1.
  apply (run_bind_post (execute healthChecks_list)
           _ w (fun o w' => o = Returned Success /\ absent w')).
  rewrite (run_execute healthChecks_list).
  destruct (exec healthChecks_list w) as [r w1]. cbn [fst snd] in E, Hw1. subst r.
  eexists _, _, _. split; [reflexivity |].
  rewrite skip_step by (intros x Hx; rewrite (Hitems x Hx); reflexivity).
  clear items Hitems w Hw. rename w1 into w, Hw1 into Hw.
  (* instance groups, each deletion inside its try block *)
  pose proof (Hclear w Hw) as C. unfold listings_clear in C.
  rewrite !andb_true_iff in C. destruct C as [_ C].
  pose proof (Hstable instanceGroups_list w eq_refl Hw) as Hw1.
  apply (run_bind_post (execute instanceGroups_list)
           _ w (fun o w' => o = Returned Success /\ absent w')).
  rewrite (run_execute instanceGroups_list).
  destruct (exec instanceGroups_list w) as [[items | e] w1]; [| discriminate C].
  cbn [fst snd] in Hw1.
  eexists _, _, _. split; [reflexivity |].
  apply (run_bind_post (for_each items _)
           _ w1 (fun o w' => o = Returned Success /\ absent w')).
  match goal with |- context [for_each items ?f] =>
    destruct (returning_step teardown_call absent (for_each items f) w1 Hstable)
      as (w2 & tr & Hrun & Hw2)
  end.
  { apply uses_for_each. intros x. destruct (String.eqb x lb); [| exact I].
    unfold pprint. cbn [bind]. split; [reflexivity |].
    apply uses_try_except.
    - apply uses_bind; [apply uses_execute; reflexivity |]. intros operation.
      apply uses_wait_for_operation; reflexivity.
    - intros e. simpl. auto. }
  { apply returns_for_each. intros x. destruct (String.eqb x lb); [| exact I].
    unfold pprint. cbn [bind returns].
    apply returns_try_except; [| intros e; exact I].
    apply total_bind; [apply total_execute |]. intros operation.
    apply total_wait_for_operation. }
  { exact Hw1. }
  eexists _, _, _. split; [exact Hrun |].
  split; [reflexivity | exact Hw2].
Qed.

(** C8, as amended.  Every step of [delete_loadbalancer] tolerates the
    absence of its resource: on any backend, from a state [absent] of the
    load balancer's resources - the listings answer and show no firewall
    rule, forwarding rule, backend service or health check of that name,
    and calls that create nothing keep it so - a call returns success and
    leaves such a state, the address step and the deletion of the instance
    group being free to fail inside their [try] blocks.  Hence the
    teardown is idempotent on a backend that is consistent about
    deletions, one on which a teardown that returns has left such a state:
    a second call right after a first call that returned raises no fault,
    it returns success, for every load-balancer name. *)
Theorem delete_loadbalancer_idempotent
  (self : Kgcp) (name : string) (absent : W -> Prop) :
  (forall c w, teardown_call c = true -> absent w -> absent (snd (exec c w))) ->
  (forall w, absent w -> listings_clear (Py.replace "." "-" name) w = true) ->
  (forall w, absent w ->
             outcome_of (run (delete_loadbalancer self name) w) = Returned Success
             /\ absent (world_of (run (delete_loadbalancer self name) w)))
  /\ ((forall w a, outcome_of (run (delete_loadbalancer self name) w) = Returned a ->
                    absent (world_of (run (delete_loadbalancer self name) w))) ->
      forall w a,
        outcome_of (run (delete_loadbalancer self name) w) = Returned a ->
        outcome_of (run (delete_loadbalancer self name)
                        (world_of (run (delete_loadbalancer self name) w)))
        = Returned Success).
Proof.
  intros Hstable Hclear. split.
  - exact (teardown_tolerates_absence self name absent Hstable Hclear).
  - intros Hfirst w a Hrun.
    pose proof (Hfirst w a Hrun) as Habsent.
    destruct (teardown_tolerates_absence self name absent Hstable Hclear _ Habsent)
      as [Hsecond _].
    exact Hsecond.
Qed.

End Teardown.

(** *** The reference cloud after a teardown *)

Lemma forallb_filter {A : Type} (P Q : A -> bool) (l : list A) :
  forallb P l = true -> forallb P (filter Q l) = true.
Proof.
  induction l as [| x l IH]; simpl; [reflexivity |].
  intros Hl. apply andb_prop in Hl. destruct Hl as [Hx Hl].
  destruct (Q x); simpl; [rewrite Hx |]; auto.
Qed.

Lemma cloud_absent_stable (lb : string) (c : call) (w : Cloud.t) :
  teardown_call c = true ->
  cloud_absent lb w = true ->
  cloud_absent lb (snd (exec c w)) = true.
Proof.
  unfold exec, cloud_backend, cloud_absent.
  destruct c; intros Hc Hw; try discriminate Hc; cbn [Cloud.step];
    try exact Hw;
    try (unfold Cloud.check; destruct (Cloud.pending w); exact Hw);
    try (unfold Cloud.on_instance; destruct (Cloud.find _ _); exact Hw);
    try (unfold Cloud.delete; destruct (Cloud.has _ _ w); cbn [snd];
         [apply forallb_filter |]; exact Hw);
    try (destruct (Cloud.find _ (Cloud.addresses w)); exact Hw);
    try (destruct additions; [exact Hw | discriminate Hc]).
Qed.

Lemma cloud_absent_named (lb : string) (k : Cloud.kind) (w : Cloud.t) :
  cloud_absent lb w = true ->
  forallb (fun n => negb (targets lb (k, n))) (Cloud.named k w) = true.
Proof.
  unfold cloud_absent, Cloud.named.
  induction (Cloud.resources w) as [| [k' n] l IH]; simpl; [auto |].
  intros Hl. apply andb_prop in Hl. destruct Hl as [Hn Hl].
  specialize (IH Hl).
  destruct k', k; simpl; try exact IH; rewrite IH, andb_true_r; exact Hn.
Qed.

Lemma cloud_absent_clear (lb : string) (w : Cloud.t) :
  cloud_absent lb w = true -> listings_clear lb w = true.
Proof.
  intros Hw. unfold listings_clear, exec, cloud_backend. cbn [Cloud.step fst clear answers].
  pose proof (cloud_absent_named lb Cloud.Firewall w Hw) as H1.
  pose proof (cloud_absent_named lb Cloud.ForwardingRule w Hw) as H2.
  pose proof (cloud_absent_named lb Cloud.BackendService w Hw) as H3.
  pose proof (cloud_absent_named lb Cloud.RegionHealthCheck w Hw) as H4.
  pose proof (cloud_absent_named lb Cloud.HealthCheck w Hw) as H5.
  unfold targets in *. cbn [fst snd] in *.
  rewrite H1, H2, H3, H4, H5. reflexivity.
Qed.

Example delete_loadbalancer_second_call :
  trace_of (run (delete_loadbalancer gcp "lb.1")
                (world_of (run (delete_loadbalancer gcp "lb.1") lb_cloud)))
  = [Called firewalls_list; Called forwardingRules_list; Called (addresses_get "lb-1");
     Called regionBackendServices_list; Called regionHealthChecks_list;
     Called healthChecks_list; Called instanceGroups_list].
Proof. reflexivity. Qed.

(** ** Runs on a backend that answers every call *)

Section Answering.

Context {W : Type} `{Backend W}.

Lemma ensures_run {A : Type} (p : prog A) (Q : A -> Prop) :
  answering W -> ensures p Q ->
  forall w : W, exists a, outcome_of (run p w) = Returned a /\ Q a.
Proof.
  intros Hb. induction p as [a | e | c k IH | ev k IH | ]; intros Hp w; simpl in *;
    try contradiction.
  - exists a. split; [reflexivity | exact Hp].
  - destruct (Hb c w) as (a & Ha & Hc).
    destruct (exec c w) as [r w1]. cbn [fst] in Ha. subst r.
    destruct (IH (Ok a) (Hp a Hc) w1) as (b & Hb' & Hq).
    destruct (run (k (Ok a)) w1) as [[o w2] tr]. exists b. split; assumption.
  - destruct (IH Hp w) as (b & Hb' & Hq).
    destruct (run k w) as [[o w1] tr]. exists b. split; assumption.
Qed.

End Answering.

Lemma ensures_weaken {A : Type} (p : prog A) (Q R : A -> Prop) :
  (forall a, Q a -> R a) -> ensures p Q -> ensures p R.
Proof.
  intros HQR. induction p as [a | e | c k IH | ev k IH | ]; simpl; auto.
Qed.

Lemma ensures_bind {A B : Type} (p : prog A) (f : A -> prog B) (Q : B -> Prop) :
  ensures p (fun a => ensures (f a) Q) -> ensures (bind p f) Q.
Proof.
  induction p as [a | e | c k IH | ev k IH | ]; simpl; auto.
Qed.

Lemma ensures_then {A B : Type} (p : prog A) (f : A -> prog B) (R : A -> Prop)
  (Q : B -> Prop) :
  ensures p R -> (forall a, R a -> ensures (f a) Q) -> ensures (bind p f) Q.
Proof.
  intros Hp Hf. apply ensures_bind. apply (ensures_weaken p R); assumption.
Qed.

Lemma ensures_execute (c : call) (Q : resp_of c -> Prop) :
  (forall a, complete c a = true -> Q a) -> ensures (execute c) Q.
Proof. intros HQ a Ha. simpl. apply HQ, Ha. Qed.


Lemma ensures_wait_loop (selflink operation : string) (fuel : nat) :
  forall t : nat, (0 < fuel)%nat -> (61 < t + fuel)%nat ->
  ensures (wait_loop fuel selflink operation (Z.of_nat t)) (fun _ => True).
Proof.
  induction fuel as [| fuel IH]; intros t Hpos Hfuel; [lia |].
  rewrite wait_loop_unfold.
  destruct (Z.of_nat t >? 60) eqn:Ht; [exact I |].
  rewrite Z.gtb_ltb in Ht. apply Z.ltb_ge in Ht.
  apply (ensures_then _ _ (fun check => payload_complete check = true)).
  { destruct (Py.contains "zone" selflink); [| destruct (Py.contains "region" selflink)];
      [ apply (ensures_execute (zoneOperations_get operation))
      | apply (ensures_execute (regionOperations_get operation))
      | apply (ensures_execute (globalOperations_get operation)) ];
      intros a Ha; exact Ha. }
  intros check Hcheck. cbv zeta. unfold payload_complete in Hcheck.
  apply (ensures_then _ _ (fun _ => True)).
  { destruct (String.eqb (chk_status check) "DONE"); exact I. }
  intros _ _. apply (ensures_then _ _ (fun _ => True)).
  { destruct (chk_httpErrorMessage check); [| exact I].
    destruct (chk_errors check) as [[| e errs] |]; try discriminate. exact I. }
  intros _ _. destruct (String.eqb (chk_status check) "DONE"); [exact I |].
  replace (Z.of_nat t + 1) with (Z.of_nat (S t)) by lia.
  apply IH; lia.
Qed.

Lemma ensures_wait_for_operation (self : Kgcp) (op : operation) :
  ensures (_wait_for_operation self op) (fun _ => True).
Proof.
  unfold _wait_for_operation. apply (ensures_wait_loop _ _ wait_fuel O); unfold wait_fuel; lia.
Qed.

(** *** Backends on which the lookup of an instance may fail *)

Section AnsweringBut.

Context {W : Type} `{Backend W}.




End AnsweringBut.




















(** The lookup of [update_aliases] is the one call it guards: when it
    raises, the method returns the tagged failure and issues nothing
    else. *)
Lemma update_aliases_unknown_vm {W : Type} `{Backend W}
  (self : Kgcp) (name cidr : string) (w w1 : W) (e : exn) :
  exec (instances_get name) w = (Err e, w1) ->
  run (update_aliases self name cidr) w
  = (Returned (Failure ("VM " ++ name ++ " not found")), w1,
     [Called (instances_get name); Logged Error_ ("VM " ++ name ++ " not found")]).
Proof.
  intros Hget. unfold update_aliases. rewrite run_bind, get_vm_or_fail_run, Hget.
  reflexivity.
Qed.

Lemma obliging_answers : answering unit.
Proof.
  intros c w. exists (canned c). split; [reflexivity |]. destruct c; reflexivity.
Qed.




(** *** Two teardowns in a row on the reference cloud *)

Lemma uses_forwarding_gone_loop (P : call -> bool) (n : string) (fuel : nat) :
  P forwardingRules_list = true ->
  forall timeout, uses P (forwarding_gone_loop fuel n timeout).
Proof.
  intros HP. induction fuel as [| fuel IH]; intros timeout; [exact I |].
  cbn [forwarding_gone_loop]. destruct (timeout >=? 60); [simpl; auto |].
  apply uses_bind; [apply uses_execute; exact HP |]. intros items.
  destruct (filter (String.eqb n) items); [exact I |].
  unfold sleep. cbn [bind uses event_in]. auto.
Qed.

Ltac teardown_uses :=
  repeat first
    [ exact I
    | reflexivity
    | apply uses_wait_for_operation
    | apply uses_forwarding_gone_loop
    | apply delete_dns_teardown
    | apply uses_execute
    | apply uses_for_each; intros ?
    | apply uses_try_except; [| intros ?]
    | match goal with
      | |- uses _ (if ?b then _ else _) => destruct b
      | |- uses _ (match ?x with _ => _ end) => destruct x
      | |- uses _ (Tell _ _) => split
      | |- uses _ (bind (pprint _) _) => unfold pprint; cbn [bind]
      | |- uses _ (bind (warning _) _) => unfold warning; cbn [bind]
      | |- uses _ (warning _) => unfold warning
      | |- uses _ (bind _ _) => apply uses_bind; [| intros ?]
      end ].

Lemma uses_delete_loadbalancer (self : Kgcp) (name : string) :
  uses teardown_call (delete_loadbalancer self name).
Proof. unfold delete_loadbalancer. cbv zeta. teardown_uses. Qed.

Section RunInversion.

Context {W : Type} `{Backend W}.

Lemma run_bind_inv {A B : Type} (p : prog A) (f : A -> prog B) (w w' : W)
  (b : B) (tr : list event) :
  run (bind p f) w = (Returned b, w', tr) ->
  exists a w1 tr1 tr2,
    run p w = (Returned a, w1, tr1) /\ run (f a) w1 = (Returned b, w', tr2).
Proof.
  rewrite run_bind.
  destruct (run p w) as [[[a | e | ] w1] tr1]; try discriminate.
  destruct (run (f a) w1) as [[o w2] tr2] eqn:Hf.
  intros E. inversion E; subst. eauto 6.
Qed.

End RunInversion.

Section CloudTeardown.

Lemma shrinks_refl (w : Cloud.t) : shrinks w w.
Proof. apply incl_refl. Qed.

Lemma shrinks_trans (w1 w2 w3 : Cloud.t) : shrinks w1 w2 -> shrinks w2 w3 -> shrinks w1 w3.
Proof. unfold shrinks. intros H12 H23. eapply incl_tran; eassumption. Qed.

Lemma teardown_shrinks (c : call) (w : Cloud.t) :
  teardown_call c = true -> shrinks w (snd (exec c w)).
Proof.
  unfold exec, cloud_backend, shrinks.
  destruct c; intros Hc; try discriminate Hc; cbn [Cloud.step];
    try apply incl_refl;
    try (unfold Cloud.check; destruct (Cloud.pending w); apply incl_refl);
    try (unfold Cloud.on_instance; destruct (Cloud.find _ _); apply incl_refl);
    try (unfold Cloud.delete; destruct (Cloud.has _ _ w); cbn [snd];
         [apply incl_filter | apply incl_refl]);
    try (destruct (Cloud.find _ (Cloud.addresses w)); apply incl_refl);
    try (destruct additions; [apply incl_refl | discriminate Hc]).
Qed.

Lemma run_shrinks {A : Type} (p : prog A) (w : Cloud.t) :
  uses teardown_call p -> shrinks w (world_of (run p w)).
Proof.
  intros Hp.
  apply (run_invariant teardown_call (fun w' => shrinks w w') p); [| exact Hp | apply shrinks_refl].
  intros c w1 Hc Hw1. eapply shrinks_trans; [exact Hw1 | apply teardown_shrinks, Hc].
Qed.

Lemma has_in (k : Cloud.kind) (n : string) (w : Cloud.t) :
  Cloud.has k n w = true <-> In n (Cloud.named k w).
Proof.
  unfold Cloud.has. rewrite existsb_exists. split.
  - intros (x & Hx & E). apply String.eqb_eq in E. subst. exact Hx.
  - intros Hn. exists n. split; [exact Hn | apply String.eqb_refl].
Qed.

Lemma kind_eqb_eq (a b : Cloud.kind) : Cloud.kind_eqb a b = true <-> a = b.
Proof. destruct a, b; simpl; split; intros E; try reflexivity; discriminate E. Qed.

Lemma named_in (k : Cloud.kind) (n : string) (w : Cloud.t) :
  In n (Cloud.named k w) <-> In (k, n) (Cloud.resources w).
Proof.
  unfold Cloud.named. rewrite in_map_iff. split.
  - intros ([k' n'] & E & Hin). cbn in E. subst n'.
    apply filter_In in Hin. destruct Hin as [Hin Hk]. cbn in Hk.
    apply kind_eqb_eq in Hk. subst. exact Hin.
  - intros Hin. exists (k, n). split; [reflexivity |].
    apply filter_In. split; [exact Hin |]. cbn. apply kind_eqb_eq. reflexivity.
Qed.

Lemma has_shrinks (k : Cloud.kind) (n : string) (w w' : Cloud.t) :
  shrinks w w' -> Cloud.has k n w = false -> Cloud.has k n w' = false.
Proof.
  intros Hs Hw. destruct (Cloud.has k n w') eqn:E; [| reflexivity].
  apply has_in, named_in, Hs, named_in, has_in in E. congruence.
Qed.

Lemma has_remove (k : Cloud.kind) (n : string) (w : Cloud.t) :
  Cloud.has k n (Cloud.remove k n w) = false.
Proof.
  destruct (Cloud.has k n (Cloud.remove k n w)) eqn:E; [| reflexivity].
  apply has_in, named_in in E. unfold Cloud.remove in E. cbn in E.
  apply filter_In in E. destruct E as [_ E]. cbn in E.
  rewrite String.eqb_refl, (proj2 (kind_eqb_eq k k) eq_refl) in E. discriminate E.
Qed.

(** One sweep of the teardown: a loop that deletes the selected items of a
    listing, each with a call outside any [try] block.  If the loop
    returns, every selected resource that was listed, or was absent
    already, is absent. *)
Lemma cloud_sweep (k : Cloud.kind) (del : string -> call) (sel : string -> bool)
  (f : string -> prog unit) :
  (forall n w, snd (exec (del n) w)
               = if Cloud.has k n w then Cloud.remove k n w else w) ->
  (forall n w, Cloud.has k n w = false -> answers (fst (exec (del n) w)) = false) ->
  (forall n, teardown_call (del n) = true) ->
  (forall n, sel n = true ->
     exists msg rest,
       f n = Tell (Logged Info_ msg) (Call (del n) rest)
       /\ (forall e, rest (Err e) = Raise e)
       /\ (forall r, uses teardown_call (rest r))) ->
  (forall n, sel n = false -> f n = Ret tt) ->
  forall items (w w' : Cloud.t) tr,
    run (for_each items f) w = (Returned tt, w', tr) ->
    shrinks w w'
    /\ forall n, sel n = true ->
         In n items \/ Cloud.has k n w = false -> Cloud.has k n w' = false.
Proof.
  intros Hsnd Herr Hdel Hf Hskip.
  induction items as [| x items IH]; intros w w' tr Hrun.
  - cbn in Hrun. inversion Hrun; subst. split; [apply shrinks_refl |].
    intros n _ [[] | Hn]. exact Hn.
  - cbn [for_each] in Hrun.
    apply run_bind_inv in Hrun. destruct Hrun as ([] & w1 & tr1 & tr2 & Hx & Hrest).
    destruct (IH w1 w' tr2 Hrest) as [Hs1 Hclean].
    destruct (sel x) eqn:Hselx.
    + destruct (Hf x Hselx) as (msg & rest & Efx & Eerr & Urest).
      rewrite Efx in Hx. cbn [run] in Hx.
      pose proof (Hsnd x w) as Hw. pose proof (Herr x w) as Hr.
      destruct (exec (del x) w) as [r wd]. cbn [fst snd] in Hw, Hr.
      pose proof (run_shrinks (rest r) wd (Urest r)) as Hs2.
      destruct (run (rest r) wd) as [[o w2] tr3] eqn:Hrun_rest.
      unfold world_of in Hs2. cbn [fst snd] in Hs2.
      inversion Hx; subst o w2. clear Hx.
      assert (Hgone : Cloud.has k x wd = false /\ shrinks w wd).
      { destruct (Cloud.has k x w) eqn:Hhas.
        - subst wd. split; [apply has_remove |].
          unfold shrinks, Cloud.remove. cbn. apply incl_filter.
        - specialize (Hr eq_refl). destruct r as [a | e]; [discriminate Hr |].
          rewrite Eerr in Hrun_rest. cbn in Hrun_rest. discriminate Hrun_rest. }
      destruct Hgone as [Hgone Hs0].
      split; [eapply shrinks_trans; [eapply shrinks_trans |]; eassumption |].
      intros n Hn [[-> | Hin] | Habsent].
      * apply Hclean; [exact Hn | right]. eapply has_shrinks; eassumption.
      * apply Hclean; [exact Hn | left; exact Hin].
      * apply Hclean; [exact Hn | right].
        eapply has_shrinks; [exact Hs2 |]. eapply has_shrinks; eassumption.
    + rewrite (Hskip x Hselx) in Hx. cbn in Hx. inversion Hx; subst w1. clear Hx.
      split; [exact Hs1 |].
      intros n Hn [[-> | Hin] | Habsent].
      * congruence.
      * apply Hclean; [exact Hn | left; exact Hin].
      * apply Hclean; [exact Hn | right; exact Habsent].
Qed.

End CloudTeardown.

Section CloudTeardownTwice.

Lemma run_shrinks_eq {A : Type} (p : prog A) (w w' : Cloud.t) (o : outcome A)
  (tr : list event) :
  uses teardown_call p -> run p w = (o, w', tr) -> shrinks w w'.
Proof.
  intros Hp Hrun. pose proof (run_shrinks p w Hp) as Hs. rewrite Hrun in Hs. exact Hs.
Qed.

Lemma cloud_absent_of_has (lb : string) (w : Cloud.t) :
  Cloud.has Cloud.Firewall lb w = false ->
  (forall n, lb_rule lb n = true -> Cloud.has Cloud.ForwardingRule n w = false) ->
  Cloud.has Cloud.BackendService lb w = false ->
  Cloud.has Cloud.RegionHealthCheck lb w = false ->
  Cloud.has Cloud.HealthCheck lb w = false ->
  cloud_absent lb w = true.
Proof.
  intros H1 H2 H3 H4 H5. unfold cloud_absent. apply forallb_forall.
  intros [k n] Hin. apply negb_true_iff.
  destruct (targets lb (k, n)) eqn:Ht; [| reflexivity].
  apply named_in, has_in in Hin.
  unfold targets in Ht. cbn [fst snd] in Ht.
  destruct k; try discriminate Ht;
    try (apply String.eqb_eq in Ht; subst n; congruence).
  rewrite (H2 n Ht) in Hin. discriminate Hin.
Qed.

Lemma listed_or_absent (k : Cloud.kind) (n : string) (w : Cloud.t) :
  In n (Cloud.named k w) \/ Cloud.has k n w = false.
Proof.
  destruct (Cloud.has k n w) eqn:E; [left; apply has_in, E | right; reflexivity].
Qed.

Ltac sweep_condition :=
  cbv beta;
  first
    [ solve [ intros n w0; unfold exec, cloud_backend; cbn [Cloud.step];
              unfold Cloud.delete; destruct (Cloud.has _ n w0); reflexivity ]
    | solve [ intros n w0 Hn; unfold exec, cloud_backend; cbn [Cloud.step];
              unfold Cloud.delete; rewrite Hn; reflexivity ]
    | solve [ intros n; reflexivity ]
    | solve [ intros n Hn; try unfold lb_rule in Hn; rewrite Hn; reflexivity ]
    | solve [ intros n Hn;
              try (apply String.eqb_eq in Hn; subst n; rewrite String.eqb_refl);
              try (unfold lb_rule in Hn; rewrite Hn);
              eexists _, _; split; [reflexivity |]; split;
              [ intros e; reflexivity | intros [op | e]; cbn [bind]; teardown_uses ] ] ].

(** On the reference cloud, a teardown that returns leaves no resource that
    the next teardown would delete outside a [try] block. *)
Lemma first_teardown_clears (self : Kgcp) (name : string) (w w' : Cloud.t)
  (a : answer) (tr : list event) :
  run (delete_loadbalancer self name) w = (Returned a, w', tr) ->
  cloud_absent (Py.replace "." "-" name) w' = true.
Proof.
  unfold delete_loadbalancer. cbv zeta. set (lb := Py.replace "." "-" name).
  intros Hrun.
  (* firewall rules *)
  apply run_bind_inv in Hrun.
  destruct Hrun as (items1 & w1l & ta1 & tb1 & Hlist1 & Hrun).
  rewrite (run_execute firewalls_list) in Hlist1.
  unfold exec, cloud_backend in Hlist1. cbn [Cloud.step] in Hlist1.
  injection Hlist1 as Eitems1 Ew1 _. subst items1 w1l.
  apply run_bind_inv in Hrun. destruct Hrun as ([] & w1 & tc1 & td1 & Hloop1 & Hrun).
  eapply (cloud_sweep Cloud.Firewall firewalls_delete (fun n => String.eqb n lb))
    in Hloop1; try solve [sweep_condition].
  destruct Hloop1 as [_ Hclean1].
  assert (F1 : Cloud.has Cloud.Firewall lb w' = false).
  { 
    eapply has_shrinks; [eapply run_shrinks_eq; [| exact Hrun]; teardown_uses |].
    apply Hclean1; [apply String.eqb_refl | apply listed_or_absent]. }
  (* forwarding rules *)
  apply run_bind_inv in Hrun.
  destruct Hrun as (items2 & w2l & ta2 & tb2 & Hlist2 & Hrun).
  rewrite (run_execute forwardingRules_list) in Hlist2.
  unfold exec, cloud_backend in Hlist2. cbn [Cloud.step] in Hlist2.
  injection Hlist2 as Eitems2 Ew2 _. subst items2 w2l.
  apply run_bind_inv in Hrun. destruct Hrun as ([] & w2 & tc2 & td2 & Hloop2 & Hrun).
  eapply (cloud_sweep Cloud.ForwardingRule forwardingRules_delete (lb_rule lb))
    in Hloop2; try solve [sweep_condition].
  destruct Hloop2 as [_ Hclean2].
  assert (F2 : forall n, lb_rule lb n = true -> Cloud.has Cloud.ForwardingRule n w' = false).
  { intros n Hn.
    eapply has_shrinks; [eapply run_shrinks_eq; [| exact Hrun]; teardown_uses |].
    apply Hclean2; [exact Hn | apply listed_or_absent]. }
  (* the address *)
  apply run_bind_inv in Hrun. destruct Hrun as ([] & w3 & ta3 & tb3 & _ & Hrun).
  (* backend services *)
  apply run_bind_inv in Hrun.
  destruct Hrun as (items4 & w4l & ta4 & tb4 & Hlist4 & Hrun).
  rewrite (run_execute regionBackendServices_list) in Hlist4.
  unfold exec, cloud_backend in Hlist4. cbn [Cloud.step] in Hlist4.
  injection Hlist4 as Eitems4 Ew4 _. subst items4 w4l.
  apply run_bind_inv in Hrun. destruct Hrun as ([] & w4 & tc4 & td4 & Hloop4 & Hrun).
  eapply (cloud_sweep Cloud.BackendService regionBackendServices_delete (fun n => String.eqb n lb))
    in Hloop4; try solve [sweep_condition].
  destruct Hloop4 as [_ Hclean4].
  assert (F4 : Cloud.has Cloud.BackendService lb w' = false).
  { 
    eapply has_shrinks; [eapply run_shrinks_eq; [| exact Hrun]; teardown_uses |].
    apply Hclean4; [apply String.eqb_refl | apply listed_or_absent]. }
  (* regional health checks *)
  apply run_bind_inv in Hrun.
  destruct Hrun as (items5 & w5l & ta5 & tb5 & Hlist5 & Hrun).
  rewrite (run_execute regionHealthChecks_list) in Hlist5.
  unfold exec, cloud_backend in Hlist5. cbn [Cloud.step] in Hlist5.
  injection Hlist5 as Eitems5 Ew5 _. subst items5 w5l.
  apply run_bind_inv in Hrun. destruct Hrun as ([] & w5 & tc5 & td5 & Hloop5 & Hrun).
  eapply (cloud_sweep Cloud.RegionHealthCheck regionHealthChecks_delete (fun n => String.eqb n lb))
    in Hloop5; try solve [sweep_condition].
  destruct Hloop5 as [_ Hclean5].
  assert (F5 : Cloud.has Cloud.RegionHealthCheck lb w' = false).
  { 
    eapply has_shrinks; [eapply run_shrinks_eq; [| exact Hrun]; teardown_uses |].
    apply Hclean5; [apply String.eqb_refl | apply listed_or_absent]. }
  (* global health checks *)
  apply run_bind_inv in Hrun.
  destruct Hrun as (items6 & w6l & ta6 & tb6 & Hlist6 & Hrun).
  rewrite (run_execute healthChecks_list) in Hlist6.
  unfold exec, cloud_backend in Hlist6. cbn [Cloud.step] in Hlist6.
  injection Hlist6 as Eitems6 Ew6 _. subst items6 w6l.
  apply run_bind_inv in Hrun. destruct Hrun as ([] & w6 & tc6 & td6 & Hloop6 & Hrun).
  eapply (cloud_sweep Cloud.HealthCheck healthChecks_delete (fun n => String.eqb n lb))
    in Hloop6; try solve [sweep_condition].
  destruct Hloop6 as [_ Hclean6].
  assert (F6 : Cloud.has Cloud.HealthCheck lb w' = false).
  { 
    eapply has_shrinks; [eapply run_shrinks_eq; [| exact Hrun]; teardown_uses |].
    apply Hclean6; [apply String.eqb_refl | apply listed_or_absent]. }
  apply cloud_absent_of_has; assumption.
Qed.

(** On the reference cloud, for every state and every name: after a
    teardown that returned, a second teardown returns success. *)
Lemma cloud_teardown_twice (self : Kgcp) (name : string) (w : Cloud.t) (a : answer) :
  outcome_of (run (delete_loadbalancer self name) w) = Returned a ->
  outcome_of (run (delete_loadbalancer self name)
                  (world_of (run (delete_loadbalancer self name) w)))
  = Returned Success.
Proof.
  intros Hfirst.
  destruct (run (delete_loadbalancer self name) w) as [[o w'] tr] eqn:Hrun.
  unfold outcome_of, world_of in *. cbn [fst snd] in *. subst o.
  apply (teardown_tolerates_absence self name
           (fun w0 => cloud_absent (Py.replace "." "-" name) w0 = true)).
  - intros c w0. apply cloud_absent_stable.
  - intros w0. apply cloud_absent_clear.
  - eapply first_teardown_clears. exact Hrun.
Qed.

End CloudTeardownTwice.

(** The reference cloud is consistent about deletions: a teardown of
    [lb.1] from a state without its resources returns success, and after a
    first teardown that returned, the second call right after it returns
    success. *)
Lemma delete_loadbalancer_idempotent_witness :
  outcome_of (run (delete_loadbalancer gcp "lb.1") Cloud.empty) = Returned Success
  /\ outcome_of (run (delete_loadbalancer gcp "lb.1")
                     (world_of (run (delete_loadbalancer gcp "lb.1") lb_cloud)))
     = Returned Success.
Proof.
  destruct (delete_loadbalancer_idempotent gcp "lb.1"
              (fun w => cloud_absent "lb-1" w = true)
              (fun c w => cloud_absent_stable "lb-1" c w)
              (fun w => cloud_absent_clear "lb-1" w)) as [Habsent Htwice].
  split.
  - exact (proj1 (Habsent Cloud.empty eq_refl)).
  - apply (Htwice) with (a := Success).
    + intros w a Hrun.
      destruct (run (delete_loadbalancer gcp "lb.1") w) as [[o w'] tr] eqn:E.
      unfold outcome_of, world_of in *. cbn [fst snd] in *. subst o.
      exact (first_teardown_clears gcp "lb.1" w w' a tr E).
    + reflexivity.
Defined.

(** C8, as stated, fails on a backend where a deletion outlasts the
    Waiter.  The first teardown of [lb] finds the firewall rule, has its
    deletion accepted, polls the operation 61 times in vain and goes on to
    return success; the second call right after it finds the rule still
    listed, and the repeated deletion, which is outside any [try] block
    (line 1359), raises into the caller. *)
Lemma delete_loadbalancer_second_call_raises :
  let teardown := run (delete_loadbalancer gcp "lb") lagging_lb in
  outcome_of teardown = Returned Success
  /\ mutations (trace_of teardown) = [Called (firewalls_delete "lb")]
  /\ slept (trace_of teardown) = 61
  /\ run (delete_loadbalancer gcp "lb") (world_of teardown)
     = (Raised (HttpError "400 The resource lb is not ready"), world_of teardown,
        [Called firewalls_list; Logged Info_ "Deleting firewall rule lb";
         Called (firewalls_delete "lb")]).
Proof. repeat split; vm_compute; reflexivity. Qed.


(** * More properties of the adapter *)

(** ** Budgets and footprints *)

Section Budget.

Context {W : Type} `{Backend W}.

Lemma within_run {A : Type} (p : prog A) : forall (n : nat) (s : Z),
  within n s p ->
  forall w : W,
    outcome_of (run p w) <> Diverged
    /\ (polls (trace_of (run p w)) <= n)%nat
    /\ 0 <= slept (trace_of (run p w)) <= s.
Proof.
  induction p as [a | e | c k IH | ev k IH | ]; intros n s Hp w;
    unfold polls, calls, outcome_of, trace_of in *; cbn [within] in Hp.
  - cbn [run fst snd filter length slept]. repeat split; try discriminate; lia.
  - cbn [run fst snd filter length slept]. repeat split; try discriminate; lia.
  - destruct n as [| n]; [contradiction |]. cbn [run].
    destruct (exec c w) as [r w1]. specialize (IH r n s (Hp r) w1).
    destruct (run (k r) w1) as [[o w2] tr]. cbn [fst snd filter is_call length slept] in *.
    destruct IH as (Ho & Hn & Hs). repeat split; try assumption; lia.
  - cbn [run]. destruct ev as [c | d | l msg].
    + destruct n as [| n]; [contradiction |].
      specialize (IH n s Hp w). destruct (run k w) as [[o w1] tr].
      cbn [fst snd filter is_call length slept] in *.
      destruct IH as (Ho & Hn & Hs). repeat split; try assumption; lia.
    + destruct Hp as [Hd Hp]. specialize (IH n (s - d) Hp w).
      destruct (run k w) as [[o w1] tr].
      cbn [fst snd filter is_call length slept] in *.
      destruct IH as (Ho & Hn & Hs). repeat split; try assumption; lia.
    + specialize (IH n s Hp w). destruct (run k w) as [[o w1] tr].
      cbn [fst snd filter is_call length slept] in *.
      destruct IH as (Ho & Hn & Hs). repeat split; try assumption; lia.
  - contradiction.
Qed.

(** A program that only reads leaves no mutation in its trace. *)
Lemma reading_no_mutation {A : Type} (p : prog A) (w : W) :
  uses reading p -> mutations (trace_of (run p w)) = [].
Proof.
  intros Hp. pose proof (uses_trace reading p Hp w) as Htr.
  unfold mutations.
  induction (trace_of (run p w)) as [| ev tr IH]; [reflexivity |].
  cbn [forallb] in Htr. apply andb_prop in Htr. destruct Htr as [Hev Htr].
  cbn [filter]. rewrite (IH Htr).
  destruct ev as [c | d | l msg]; cbn [is_mutation]; try reflexivity.
  unfold event_in, reading in Hev. apply negb_true_iff in Hev. rewrite Hev. reflexivity.
Qed.

End Budget.

Lemma within_weaken {A : Type} (p : prog A) : forall (n n' : nat) (s s' : Z),
  within n s p -> (n <= n')%nat -> s <= s' -> within n' s' p.
Proof.
  induction p as [a | e | c k IH | ev k IH | ]; intros n n' s s' Hp Hn Hs; cbn [within] in *;
    try lia; try contradiction.
  - destruct n as [| n]; [contradiction |]. destruct n' as [| n']; [lia |].
    intros r. apply (IH r n n' s s'); [apply Hp | lia | lia].
  - destruct ev as [c | d | l msg].
    + destruct n as [| n]; [contradiction |]. destruct n' as [| n']; [lia |].
      apply (IH n n' s s'); [assumption | lia | lia].
    + destruct Hp as [Hd Hp]. split; [assumption |].
      apply (IH n n' (s - d) (s' - d)); [assumption | lia | lia].
    + apply (IH n n' s s'); assumption.
Qed.

Lemma within_bind {A B : Type} (p : prog A) (f : A -> prog B) (n2 : nat) (s2 : Z) :
  0 <= s2 -> (forall a, within n2 s2 (f a)) ->
  forall (n1 : nat) (s1 : Z), within n1 s1 p -> within (n1 + n2) (s1 + s2) (bind p f).
Proof.
  intros Hs2 Hf.
  induction p as [a | e | c k IH | ev k IH | ]; intros n1 s1 Hp; cbn [within bind] in *;
    try lia; try contradiction.
  - apply (within_weaken (f a) n2 (n1 + n2) s2 (s1 + s2)); [apply Hf | lia | lia].
  - destruct n1 as [| n1]; [contradiction |]. cbn [Nat.add].
    intros r. apply IH, Hp.
  - destruct ev as [c | d | l msg].
    + destruct n1 as [| n1]; [contradiction |]. cbn [Nat.add]. apply IH, Hp.
    + destruct Hp as [Hd Hp]. split; [assumption |].
      replace (s1 + s2 - d) with (s1 - d + s2) by lia. apply IH, Hp.
    + apply IH, Hp.
Qed.

Lemma within_try_except {A : Type} (p : prog A) (h : exn -> prog A) (n2 : nat) (s2 : Z) :
  0 <= s2 -> (forall e, within n2 s2 (h e)) ->
  forall (n1 : nat) (s1 : Z), within n1 s1 p -> within (n1 + n2) (s1 + s2) (try_except p h).
Proof.
  intros Hs2 Hh.
  induction p as [a | e | c k IH | ev k IH | ]; intros n1 s1 Hp;
    cbn [within try_except] in *; try lia; try contradiction.
  - apply (within_weaken (h e) n2 (n1 + n2) s2 (s1 + s2)); [apply Hh | lia | lia].
  - destruct n1 as [| n1]; [contradiction |]. cbn [Nat.add].
    intros r. apply IH, Hp.
  - destruct ev as [c | d | l msg].
    + destruct n1 as [| n1]; [contradiction |]. cbn [Nat.add]. apply IH, Hp.
    + destruct Hp as [Hd Hp]. split; [assumption |].
      replace (s1 + s2 - d) with (s1 - d + s2) by lia. apply IH, Hp.
    + apply IH, Hp.
Qed.

Lemma within_execute (c : call) : within 1 0 (execute c).
Proof. intros [a | e]; cbn [within]; lia. Qed.

Lemma within_wait_loop (selflink operation : string) (fuel : nat) :
  forall t : nat, (t <= 61)%nat -> (61 < t + fuel)%nat ->
  within (61 - t) (61 - Z.of_nat t) (wait_loop fuel selflink operation (Z.of_nat t)).
Proof.
  induction fuel as [| fuel IH]; intros t Ht Hfuel; [lia |].
  rewrite wait_loop_unfold.
  destruct (Z.of_nat t >? 60) eqn:Hgt; [cbn [within]; lia |].
  rewrite Z.gtb_ltb in Hgt. apply Z.ltb_ge in Hgt.
  replace (61 - t)%nat with (1 + (61 - S t))%nat by lia.
  replace (61 - Z.of_nat t) with (0 + (61 - Z.of_nat t)) by lia.
  apply within_bind; [lia | |].
  2:{ destruct (Py.contains "zone" selflink); [| destruct (Py.contains "region" selflink)];
        [ exact (within_execute (zoneOperations_get operation))
        | exact (within_execute (regionOperations_get operation))
        | exact (within_execute (globalOperations_get operation)) ]. }
  intros check. cbv zeta.
  destruct (String.eqb (chk_status check) "DONE").
  - cbn [bind].
    destruct (chk_httpErrorMessage check) as [h |];
      [destruct (chk_errors check) as [[| e errs] |] |]; cbn [item first bind error within]; lia.
  - unfold sleep. cbn [bind within]. split; [lia |].
    replace (Z.of_nat t + 1) with (Z.of_nat (S t)) by lia.
    replace (61 - Z.of_nat t - 1) with (61 - Z.of_nat (S t)) by lia.
    destruct (chk_httpErrorMessage check) as [h |];
      [destruct (chk_errors check) as [[| e errs] |] |]; cbn [item first bind error within];
      try lia; apply IH; lia.
Qed.

Lemma within_wait_for_operation (self : Kgcp) (op : operation) :
  within 61 61 (_wait_for_operation self op).
Proof.
  unfold _wait_for_operation.
  exact (within_wait_loop (op_selfLink op) (op_name op) wait_fuel O ltac:(lia)
           ltac:(unfold wait_fuel; lia)).
Qed.

(** ** The Waiter and failed operations *)

Section WaiterErrors.

Context {W : Type} `{Backend W}.

(** X1: when the first poll reports the operation [DONE] together with an
    error, the Waiter writes the error to the log and returns normally,
    after that one poll and without sleeping: the failure of an operation
    never reaches the caller. *)
Theorem wait_for_operation_logs_failure_and_returns
  (self : Kgcp) (op : operation) (w w' : W) (c : op_check)
  (httperror : string) (e : op_error) (errors : list op_error) :
  poll_once (op_selfLink op) (op_name op) w = (Ok c, w') ->
  chk_status c = "DONE" ->
  chk_httpErrorMessage c = Some httperror ->
  chk_errors c = Some (e :: errors) ->
  let r := run (_wait_for_operation self op) w in
  outcome_of r = Returned tt
  /\ world_of r = w'
  /\ polls (trace_of r) = 1%nat
  /\ slept (trace_of r) = 0
  /\ In (Logged Error_ ("Got " ++ httperror ++ " Code " ++ err_code e
                        ++ " Error " ++ err_message e)) (trace_of r).
Proof.
  intros Hpoll Hstatus Hmsg Herrors r. subst r.
  unfold _wait_for_operation, wait_fuel. rewrite wait_loop_unfold.
  change (0 >? 60) with false. cbv match.
  rewrite run_poll, Hpoll. cbv zeta. rewrite Hstatus, Hmsg, Herrors.
  change (String.eqb "DONE" "DONE") with true.
  cbn [bind item first error run].
  unfold outcome_of, world_of, trace_of, polls, calls.
  cbn [fst snd filter is_call length slept].
  repeat split; try reflexivity. right. left. reflexivity.
Qed.

(** X2: a poll that carries [httpErrorMessage] without the error details
    makes the Waiter raise, whatever the status: [KeyError] when the
    [error] key is missing, [IndexError] when its list is empty. *)
Theorem wait_for_operation_raises_on_bare_error
  (self : Kgcp) (op : operation) (w w' : W) (c : op_check) :
  poll_once (op_selfLink op) (op_name op) w = (Ok c, w') ->
  payload_complete c = false ->
  let r := run (_wait_for_operation self op) w in
  outcome_of r = Raised (match chk_errors c with
                         | None => KeyError "error"
                         | Some _ => IndexError "list index out of range"
                         end)
  /\ polls (trace_of r) = 1%nat.
Proof.
  intros Hpoll Hpayload r. subst r.
  unfold _wait_for_operation, wait_fuel. rewrite wait_loop_unfold.
  change (0 >? 60) with false. cbv match.
  rewrite run_poll, Hpoll. cbv zeta.
  unfold payload_complete in Hpayload.
  destruct (chk_httpErrorMessage c) as [h |]; [| discriminate].
  destruct (chk_errors c) as [[| e errs] |]; try discriminate;
    destruct (String.eqb (chk_status c) "DONE");
    unfold sleep; cbn [bind item first error run];
    unfold outcome_of, trace_of, polls, calls; cbn [fst snd filter is_call length];
    split; reflexivity.
Qed.

End WaiterErrors.

Lemma wait_for_operation_logs_failure_and_returns_witness :
  let r := run (_wait_for_operation gcp some_operation) quota_exceeded in
  outcome_of r = Returned tt
  /\ world_of r = quota_exceeded
  /\ polls (trace_of r) = 1%nat
  /\ slept (trace_of r) = 0
  /\ In (Logged Error_ ("Got " ++ "FORBIDDEN" ++ " Code " ++ "QUOTA_EXCEEDED"
                        ++ " Error " ++ "Quota exceeded")) (trace_of r).
Proof.
  exact (wait_for_operation_logs_failure_and_returns gcp some_operation
           quota_exceeded quota_exceeded quota_exceeded "FORBIDDEN"
           (mkOpError "QUOTA_EXCEEDED" "Quota exceeded") []
           eq_refl eq_refl eq_refl eq_refl).
Defined.

Lemma wait_for_operation_raises_on_bare_error_witness :
  let r := run (_wait_for_operation gcp some_operation)
               (mkCheck "RUNNING" (Some "FORBIDDEN") None) in
  outcome_of r = Raised (KeyError "error") /\ polls (trace_of r) = 1%nat.
Proof.
  exact (wait_for_operation_raises_on_bare_error gcp some_operation
           (mkCheck "RUNNING" (Some "FORBIDDEN") None)
           (mkCheck "RUNNING" (Some "FORBIDDEN") None)
           (mkCheck "RUNNING" (Some "FORBIDDEN") None) eq_refl eq_refl).
Defined.

(** Every call of the loop is the poll of the one operation, on the one
    endpoint its [selfLink] selects. *)
Lemma uses_wait_loop_endpoint (selflink operation : string) (fuel : nat) :
  forall timeout,
    uses (polls_operation selflink operation) (wait_loop fuel selflink operation timeout).
Proof.
  induction fuel as [| fuel IH]; intros timeout; [exact I |].
  rewrite wait_loop_unfold. destruct (timeout >? 60); [exact I |].
  apply uses_bind.
  { destruct (Py.contains "zone" selflink) eqn:Hz;
      [| destruct (Py.contains "region" selflink) eqn:Hr];
      [ apply (uses_execute _ (zoneOperations_get operation))
      | apply (uses_execute _ (regionOperations_get operation))
      | apply (uses_execute _ (globalOperations_get operation)) ];
      cbn [polls_operation]; rewrite ?Hz, ?Hr, String.eqb_refl; reflexivity. }
  intros check. cbv zeta. apply uses_bind.
  { destruct (String.eqb (chk_status check) "DONE"); simpl; auto. }
  intros _. apply uses_bind.
  { destruct (chk_httpErrorMessage check); [| exact I].
    destruct (chk_errors check) as [[| e errs] |]; simpl; auto. }
  intros _. destruct (String.eqb (chk_status check) "DONE"); [exact I | apply IH].
Qed.

(** X3: on every backend, every call the Waiter issues is a poll of the
    operation it was given, always on the same endpoint: the zonal one when
    the [selfLink] contains [zone] anywhere (in a project name as well),
    else the regional one when it contains [region], else the global one.
    The Waiter never issues another call. *)
Theorem wait_for_operation_polls_one_endpoint {W : Type} `{Backend W}
  (self : Kgcp) (op : operation) (w : W) :
  forallb (event_in (polls_operation (op_selfLink op) (op_name op)))
          (trace_of (run (_wait_for_operation self op) w)) = true.
Proof.
  apply uses_trace. unfold _wait_for_operation. apply uses_wait_loop_endpoint.
Qed.

(** A regional operation of the project [timezone-app] is polled on the
    zonal endpoint. *)
Example regional_operation_polled_as_zonal :
  calls (trace_of (run (_wait_for_operation gcp
                          (mkOperation "op1"
                             "https://www.googleapis.com/compute/v1/projects/timezone-app/regions/r/operations/op1"
                             "https://www.googleapis.com/compute/v1/projects/timezone-app/regions/r/addresses/a"))
                       Cloud.empty))
  = [Called (zoneOperations_get "op1")].
Proof. vm_compute. reflexivity. Qed.

(** ** Probes: [status], [vm_ports], [ip] and [internalip] *)

Section Probes.

Context {W : Type} `{Backend W}.

(** X4: [exists], [status] and [vm_ports] never raise and change nothing:
    each issues the one lookup of the instance and no other call.  When the
    lookup answers, [exists] gives [True], [status] the status of the
    instance and [vm_ports] the base name of the subnetwork of every
    network interface that has one, in order; when the lookup raises,
    whatever the exception, they give [False], [None] and the empty
    list. *)
Theorem status_and_vm_ports_never_raise (self : Kgcp) (name : string) (w : W) :
  let lookup := fst (exec (instances_get name) w) in
  outcome_of (run (exists_ self name) w)
  = Returned (match lookup with Ok _ => true | Err _ => false end)
  /\ outcome_of (run (status self name) w)
     = Returned (match lookup with Ok vm => Some (vm_status vm) | Err _ => None end)
  /\ outcome_of (run (vm_ports self name) w)
     = Returned (match lookup with
                 | Ok vm =>
                     flat_map (fun interface => match subnetwork interface with
                                                | Some s => [Py.basename s]
                                                | None => []
                                                end)
                              (networkInterfaces vm)
                 | Err _ => []
                 end)
  /\ calls (trace_of (run (exists_ self name) w)) = [Called (instances_get name)]
  /\ calls (trace_of (run (status self name) w)) = [Called (instances_get name)]
  /\ calls (trace_of (run (vm_ports self name) w)) = [Called (instances_get name)].
Proof.
  unfold exists_, status, vm_ports, error, outcome_of, trace_of, calls.
  cbn [execute bind try_except run].
  destruct (exec (instances_get name) w) as [[vm | e] w1];
    cbn [bind try_except run fst snd filter is_call];
    repeat split; reflexivity.
Qed.

(** X5: on an adapter with [public] off, [ip] and [internalip] run alike
    (same result, same trace, same backend state) in every case but one.
    When the lookup raises both return [None]; when the instance has no
    network interface both raise [IndexError]; when the first interface has
    a [networkIP] both return it.  When the first interface has no
    [networkIP], [internalip] returns [None] and [ip] raises [KeyError],
    after the same lookup. *)
Theorem ip_of_private_adapter (self : Kgcp) (name : string) (w : W) :
  public self = false ->
  let r := run (ip self name) w in
  let r' := run (internalip self name) w in
  match fst (exec (instances_get name) w) with
  | Err _ => r = r' /\ outcome_of r = Returned None
  | Ok vm =>
      match networkInterfaces vm with
      | [] => r = r' /\ outcome_of r = Raised (IndexError "list index out of range")
      | nic0 :: _ =>
          match networkIP nic0 with
          | Some i => r = r' /\ outcome_of r = Returned (Some i)
          | None =>
              outcome_of r = Raised (KeyError "networkIP")
              /\ outcome_of r' = Returned None
              /\ world_of r = world_of r'
              /\ trace_of r = trace_of r'
          end
      end
  end.
Proof.
  intros Hprivate. unfold ip, internalip, error, outcome_of, world_of, trace_of.
  rewrite Hprivate.
  cbn [execute bind try_except run negb].
  destruct (exec (instances_get name) w) as [[vm | e] w1];
    cbn [bind try_except run fst snd]; [| split; reflexivity].
  destruct (networkInterfaces vm) as [| nic0 rest]; cbn [first bind run fst snd];
    [split; reflexivity |].
  destruct (networkIP nic0) as [i |]; cbn [item bind run fst snd]; repeat split; reflexivity.
Qed.

End Probes.

(** On the reference cloud: [vm1] has an internal address, and both methods
    return it; an instance whose interface has none yet divides them. *)
Lemma ip_of_private_adapter_witness :
  (run (ip gcp_private "vm1") cloud_with_vm1 = run (internalip gcp_private "vm1") cloud_with_vm1
   /\ outcome_of (run (ip gcp_private "vm1") cloud_with_vm1) = Returned (Some "10.0.0.2"))
  /\ (outcome_of (run (ip gcp_private "vm0") unaddressed_cloud) = Raised (KeyError "networkIP")
      /\ outcome_of (run (internalip gcp_private "vm0") unaddressed_cloud) = Returned None
      /\ world_of (run (ip gcp_private "vm0") unaddressed_cloud)
         = world_of (run (internalip gcp_private "vm0") unaddressed_cloud)
      /\ trace_of (run (ip gcp_private "vm0") unaddressed_cloud)
         = trace_of (run (internalip gcp_private "vm0") unaddressed_cloud)).
Proof.
  split.
  - exact (ip_of_private_adapter gcp_private "vm1" cloud_with_vm1 eq_refl).
  - exact (ip_of_private_adapter gcp_private "vm0" unaddressed_cloud eq_refl).
Defined.

(** ** [reserve_dns] and [delete_dns] *)

Lemma within_internalip (self : Kgcp) (name : string) : within 1 0 (internalip self name).
Proof.
  unfold internalip, error. cbn [execute bind try_except within].
  intros [vm | e]; cbn [bind try_except within]; [| lia].
  destruct (networkInterfaces vm); cbn [first bind within]; lia.
Qed.

Lemma within_ip (self : Kgcp) (name : string) : within 1 0 (ip self name).
Proof.
  unfold ip, error. cbn [execute bind try_except within].
  intros [vm | e]; cbn [bind try_except within]; [| lia].
  destruct (networkInterfaces vm) as [| nic0 rest]; cbn [first bind within]; [lia |].
  destruct (negb (public self)).
  - destruct (networkIP nic0); cbn [item bind within]; lia.
  - destruct (accessConfigs nic0) as [[| cfg cfgs] |]; cbn [item first bind within]; lia.
Qed.

Ltac split_budget n1 s1 n2 s2 :=
  refine (within_weaken _ (n1 + n2)%nat _ (s1 + s2) _ _ _ _);
  [apply within_bind | lia | lia].

Lemma within_internalip_loop (self : Kgcp) (name : string) (fuel : nat) :
  forall k : nat, (k <= 10)%nat -> (k < fuel)%nat ->
  within k (5 * Z.of_nat k) (internalip_loop fuel self name (100 - 10 * Z.of_nat k)).
Proof.
  induction fuel as [| fuel IH]; intros k Hk Hfuel; [lia |].
  cbn [internalip_loop].
  destruct (Z.eqb_spec (100 - 10 * Z.of_nat k) 100) as [E | E]; [cbn [within]; lia |].
  destruct k as [| k]; [lia |].
  split_budget 1%nat 0 k (5 * Z.of_nat (S k)); [lia | | apply within_internalip].
  intros [i |]; [cbn [within]; lia |].
  unfold sleep, pprint. cbn [bind within]. split; [lia |].
  replace (5 * Z.of_nat (S k) - 5) with (5 * Z.of_nat k) by lia.
  replace (100 - 10 * Z.of_nat (S k) + 10) with (100 - 10 * Z.of_nat k) by lia.
  apply IH; lia.
Qed.

Lemma within_ip_loop (self : Kgcp) (name : string) (fuel : nat) :
  forall k : nat, (k <= 10)%nat -> (k < fuel)%nat ->
  within (k + 2) (5 * Z.of_nat k) (ip_loop fuel self name (100 - 10 * Z.of_nat k)).
Proof.
  induction fuel as [| fuel IH]; intros k Hk Hfuel; [lia |].
  cbn [ip_loop].
  destruct (Z.eqb_spec (100 - 10 * Z.of_nat k) 100) as [E | E]; [cbn [within]; lia |].
  destruct k as [| k]; [lia |].
  split_budget 1%nat 0 (k + 2)%nat (5 * Z.of_nat (S k)); [lia | | apply within_ip].
  intros [address |].
  - replace (k + 2)%nat with (S (S k)) by lia. cbn [execute bind within].
    intros [a | e]; cbn [bind within]; [| lia]. intros [b | e]; cbn [bind within]; lia.
  - unfold sleep, pprint. cbn [bind within]. split; [lia |].
    replace (5 * Z.of_nat (S k) - 5) with (5 * Z.of_nat k) by lia.
    replace (100 - 10 * Z.of_nat (S k) + 10) with (100 - 10 * Z.of_nat k) by lia.
    apply IH; lia.
Qed.

Lemma within_reserve_dns (self : Kgcp) (name : string) (nets : list net) (domain : string)
  (ip : option string) (alias : list string) :
  within 24 100 (reserve_dns self name nets domain ip alias).
Proof.
  unfold reserve_dns. rewrite cluster_rule_ret. cbv zeta.
  destruct (if String.eqb _ _ then _ else _) as [[cluster host] dom]. cbn [bind].
  split_budget 1%nat 0 23%nat 100; [lia | | apply within_execute].
  intros zones. destruct (matching_zones dom zones) as [| dnszone others].
  { unfold error. cbn [bind within]. lia. }
  split_budget 10%nat 50 13%nat 50; [lia | |].
  2:{ destruct (cluster_style cluster host); [| cbn [within]; lia].
      exact (within_internalip_loop self host dns_fuel 10 ltac:(lia)
               ltac:(unfold dns_fuel; lia)). }
  intros internalip.
  split_budget 12%nat 50 1%nat 0; [lia | |].
  2:{ destruct ip as [i |]; [cbn [within]; lia |].
      destruct nets as [| [n | [i |]] nets]; cbn [first bind within]; try lia;
        exact (within_ip_loop self host dns_fuel 10 ltac:(lia) ltac:(unfold dns_fuel; lia)). }
  intros [i |]; unfold error; cbn [bind within]; [| lia].
  cbn [execute bind within]. intros [[] | e]; cbn [bind within]; lia.
Qed.

Section Dns.

Context {W : Type} `{Backend W}.

(** X6: [reserve_dns] ends on every backend, whatever it answers: it gives
    up looking for the internal address after 10 probes and for the
    external one after 10 more, so a run issues at most 24 calls and sleeps
    at most 100 seconds. *)
Theorem reserve_dns_budget (self : Kgcp) (name : string) (nets : list net)
  (domain : string) (ip : option string) (alias : list string) (w : W) :
  let r := run (reserve_dns self name nets domain ip alias) w in
  outcome_of r <> Diverged
  /\ (polls (trace_of r) <= 24)%nat
  /\ 0 <= slept (trace_of r) <= 100.
Proof.
  exact (within_run _ 24 100 (within_reserve_dns self name nets domain ip alias) w).
Qed.

(** X7: when no zone of the project matches the domain, [reserve_dns]
    returns the tagged failure that names the domain (the one left by the
    cluster rule) after the listing of the zones alone: no address is
    looked up, [nets] is not read, nothing is changed. *)
Theorem reserve_dns_unknown_domain (self : Kgcp) (name : string) (nets : list net)
  (domain : string) (ip : option string) (alias : list string) (w w' : W)
  (zones : list dns_zone) (cluster : option string) (host dom : string) :
  cluster_rule name domain = Ret (cluster, host, dom) ->
  exec dns_list_zones w = (Ok zones, w') ->
  matching_zones dom zones = [] ->
  run (reserve_dns self name nets domain ip alias) w
  = (Returned (Failure ("Domain " ++ dom ++ " not found")), w',
     [Called dns_list_zones; Logged Error_ ("Domain " ++ dom ++ " not found")]).
Proof.
  intros Hrule Hzones Hnone. unfold reserve_dns. rewrite Hrule. cbn [bind].
  rewrite run_bind, (run_execute dns_list_zones), Hzones. cbv match.
  rewrite Hnone. reflexivity.
Qed.

(** X8: when no zone matches, [delete_dns] returns [None] after the
    listing of the zones alone: no record is deleted and the address of the
    name is not released. *)
Theorem delete_dns_unknown_domain (self : Kgcp) (name domain : string) (w w' : W)
  (zones : list dns_zone) (cluster : option string) (host dom : string) :
  cluster_rule name domain = Ret (cluster, host, dom) ->
  exec dns_list_zones w = (Ok zones, w') ->
  matching_zones dom zones = [] ->
  run (delete_dns self name domain) w = (Returned PyNone, w', [Called dns_list_zones]).
Proof.
  intros Hrule Hzones Hnone. unfold delete_dns. rewrite Hrule. cbn [bind].
  rewrite run_bind, (run_execute dns_list_zones), Hzones. cbv match.
  rewrite Hnone. reflexivity.
Qed.

(** X9: on every backend, [delete_dns] submits at most one change-set; it
    adds no record, and every record it deletes is one that the listing of
    that zone returned. *)
Theorem delete_dns_deletes_listed_records (self : Kgcp) (name domain : string) (w : W) :
  let r := run (delete_dns self name domain) w in
  match changesets (trace_of r) with
  | [] => True
  | [Called (dns_changes_create z additions deletions)] =>
      additions = [] /\ deletions <> []
      /\ exists all,
           fst (exec (dns_list_resource_record_sets z) (snd (exec dns_list_zones w))) = Ok all
           /\ incl deletions all
  | _ => False
  end.
Proof.
  unfold delete_dns. rewrite cluster_rule_ret. cbv zeta.
  destruct (if String.eqb _ _ then _ else _) as [[cluster host] dom]. cbn [bind].
  rewrite run_bind, (run_execute dns_list_zones).
  destruct (exec dns_list_zones w) as [[zones | e] w1]; [| exact I]. cbv match.
  destruct (matching_zones dom zones) as [| dnszone others]; [exact I |].
  rewrite run_bind, (run_execute (dns_list_resource_record_sets (zone_name dnszone))).
  cbn [snd].
  destruct (exec (dns_list_resource_record_sets (zone_name dnszone)) w1)
    as [[all | e] w2] eqn:Hall; [| exact I].
  cbv match.
  assert (Hincl : incl (flat_map (doomed cluster host dom (entry_of cluster host dom)) all) all).
  { intros r Hr. apply in_flat_map in Hr. destruct Hr as (x & Hx & Hr).
    unfold doomed in Hr.
    destruct (_ || _) in Hr.
    - destruct Hr as [<- | []]. exact Hx.
    - apply in_map_iff in Hr. destruct Hr as (y & <- & _). exact Hx. }
  destruct (flat_map (doomed cluster host dom (entry_of cluster host dom)) all)
    as [| r0 records] eqn:Hrecords.
  - cbn [bind try_except execute run].
    destruct (exec (addresses_delete host) w2) as [[op | e] w3]; exact I.
  - rewrite run_bind, (run_execute (dns_changes_create (zone_name dnszone) [] (r0 :: records))).
    destruct (exec (dns_changes_create (zone_name dnszone) [] (r0 :: records)) w2)
      as [[[] | e] w3].
    + cbn [bind try_except execute run].
      destruct (exec (addresses_delete host) w3) as [[op | e] w4];
        cbn [trace_of snd app changesets filter is_changeset];
        (split; [reflexivity |]); (split; [discriminate |]);
        exists all; (split; [rewrite Hall; reflexivity | exact Hincl]).
    + cbn [trace_of snd app changesets filter is_changeset].
      split; [reflexivity |]. split; [discriminate |].
      exists all. split; [rewrite Hall; reflexivity | exact Hincl].
Qed.

(** X10: once the zone is found and its records listed, a failure to
    release the address does not show: with nothing to delete in the zone,
    [delete_dns] returns success whether the backend released the address
    of the name or raised, and that release is the only mutating call. *)
Theorem delete_dns_tolerates_missing_address (self : Kgcp) (name domain : string)
  (w w1 w2 : W) (zones : list dns_zone) (dnszone : dns_zone) (others : list dns_zone)
  (all : list record_set) (cluster : option string) (host dom : string) :
  cluster_rule name domain = Ret (cluster, host, dom) ->
  exec dns_list_zones w = (Ok zones, w1) ->
  matching_zones dom zones = dnszone :: others ->
  exec (dns_list_resource_record_sets (zone_name dnszone)) w1 = (Ok all, w2) ->
  flat_map (doomed cluster host dom (entry_of cluster host dom)) all = [] ->
  let r := run (delete_dns self name domain) w in
  outcome_of r = Returned Success
  /\ world_of r = snd (exec (addresses_delete host) w2)
  /\ mutations (trace_of r) = [Called (addresses_delete host)].
Proof.
  intros Hrule Hzones Hzone Hall Hnone r. subst r.
  unfold delete_dns. rewrite Hrule. cbn [bind].
  rewrite run_bind, (run_execute dns_list_zones), Hzones. cbv match. rewrite Hzone.
  rewrite run_bind, (run_execute (dns_list_resource_record_sets (zone_name dnszone))), Hall.
  cbv match. rewrite Hnone.
  cbn [bind try_except execute run].
  destruct (exec (addresses_delete host) w2) as [[op | e] w3];
    repeat split; reflexivity.
Qed.

End Dns.

Lemma reserve_dns_unknown_domain_witness :
  run (reserve_dns gcp "standalone" [] "example.org" None []) dns_cloud
  = (Returned (Failure ("Domain " ++ "example.org" ++ " not found")), dns_cloud,
     [Called dns_list_zones; Logged Error_ ("Domain " ++ "example.org" ++ " not found")]).
Proof.
  exact (reserve_dns_unknown_domain gcp "standalone" [] "example.org" None []
           dns_cloud dns_cloud [mkZone "example.com." "example-com"] None
           "standalone" "example.org" eq_refl eq_refl eq_refl).
Defined.

Lemma delete_dns_unknown_domain_witness :
  run (delete_dns gcp "standalone" "example.org") dns_cloud
  = (Returned PyNone, dns_cloud, [Called dns_list_zones]).
Proof.
  exact (delete_dns_unknown_domain gcp "standalone" "example.org"
           dns_cloud dns_cloud [mkZone "example.com." "example-com"] None
           "standalone" "example.org" eq_refl eq_refl eq_refl).
Defined.

Lemma delete_dns_tolerates_missing_address_witness :
  let r := run (delete_dns gcp "standalone" "example.com") dns_cloud in
  outcome_of r = Returned Success
  /\ world_of r = snd (exec (addresses_delete "standalone") dns_cloud)
  /\ mutations (trace_of r) = [Called (addresses_delete "standalone")].
Proof.
  exact (delete_dns_tolerates_missing_address gcp "standalone" "example.com"
           dns_cloud dns_cloud dns_cloud [mkZone "example.com." "example-com"]
           (mkZone "example.com." "example-com") [] [] None "standalone" "example.com"
           eq_refl eq_refl eq_refl eq_refl eq_refl).
Defined.

(** On the reference cloud the records of [vm1], and the alias that points
    to it, are deleted in one change-set; the record of the other machine
    stays. *)
Example delete_dns_on_records_cloud :
  changesets (trace_of (run (delete_dns gcp "vm1" "example.com") records_cloud))
  = [Called (dns_changes_create "example-com" []
               [mkRecordSet "vm1.example.com." "A" 300 ["34.1.2.3"];
                mkRecordSet "www.example.com." "CNAME" 300 ["vm1.example.com."]])]
  /\ Cloud.records (world_of (run (delete_dns gcp "vm1" "example.com") records_cloud))
     = [("example-com", mkRecordSet "other.example.com." "A" 300 ["34.1.2.4"])].
Proof. split; reflexivity. Qed.

(** ** The reach of [delete_loadbalancer] *)

(** A name whose dots were turned into hyphens is the first label of any
    fully-qualified name built on it. *)
Lemma replace_dot_before_first (s rest : string) :
  before_first "." (Py.replace "." "-" s ++ String "." rest) = Py.replace "." "-" s.
Proof.
  unfold Py.replace. induction s as [| c s IH]; [reflexivity |].
  cbn [Py.replace_from prefix String.length Nat.sub].
  destruct (ascii_dec "." c) as [<- | Hc].
  - replace (prefix "" s) with true by (destruct s; reflexivity).
    cbn [String.append before_first]. change (Ascii.eqb "-" ".") with false. cbv match.
    rewrite IH. reflexivity.
  - cbn [String.append before_first].
    destruct (Ascii.eqb_spec c ".") as [-> | _]; [contradiction Hc; reflexivity |].
    rewrite IH. reflexivity.
Qed.

(** [prefix] and [in] on a pattern cut short. *)
Lemma prefix_app_l (a b : string) : forall s : string,
  prefix (a ++ b) s = true -> prefix a s = true.
Proof.
  induction a as [| x a IH]; intros s Hs; [destruct s; reflexivity |].
  destruct s as [| y s]; [discriminate Hs |].
  cbn [String.append prefix] in *.
  destruct (ascii_dec x y); [apply IH; exact Hs | discriminate Hs].
Qed.

Lemma contains_app_l (a b s : string) :
  Py.contains (a ++ b) s = true -> Py.contains a s = true.
Proof.
  induction s as [| c s IH].
  - destruct a as [| x a]; [reflexivity | discriminate].
  - rewrite !contains_cons. intros Hs. apply orb_true_iff in Hs.
    apply orb_true_iff. destruct Hs as [Hs | Hs].
    + left. apply (prefix_app_l a b), Hs.
    + right. apply IH, Hs.
Qed.

Lemma contains_app_r (a b s : string) :
  Py.contains (a ++ b) s = true -> Py.contains b s = true.
Proof.
  assert (Hhere : forall a s, prefix (a ++ b) s = true -> Py.contains b s = true).
  { clear a s. induction a as [| x a IH]; intros s Hs.
    - destruct s as [| c s]; [destruct b; [reflexivity | discriminate Hs] |].
      rewrite contains_cons. cbn [String.append] in Hs. rewrite Hs. reflexivity.
    - destruct s as [| c s]; [discriminate Hs |].
      cbn [String.append prefix] in Hs. destruct (ascii_dec x c); [| discriminate Hs].
      rewrite contains_cons. rewrite (IH s Hs). apply orb_true_r. }
  induction s as [| c s IH].
  - intros Hs. apply (Hhere a ""). unfold Py.contains in Hs. cbn [index] in Hs.
    destruct (a ++ b); [reflexivity | discriminate Hs].
  - rewrite (contains_cons (a ++ b)). intros Hs. apply orb_true_iff in Hs.
    destruct Hs as [Hs | Hs]; [exact (Hhere a _ Hs) |].
    rewrite contains_cons, (IH Hs). apply orb_true_r.
Qed.

Lemma contains_self (p : string) : Py.contains p p = true.
Proof.
  destruct p as [| c p]; [reflexivity |].
  rewrite contains_cons.
  replace (prefix (String c p) (String c p)) with true; [reflexivity |].
  symmetry. induction (String c p) as [| x q IH]; [reflexivity |].
  cbn [prefix]. destruct (ascii_dec x x) as [_ | Hx]; [exact IH | contradiction Hx; reflexivity].
Qed.

Lemma contains_drop (p : string) (n : nat) : forall s : string,
  Py.contains p (Py.drop n s) = true -> Py.contains p s = true.
Proof.
  induction n as [| n IH]; intros s Hs; [exact Hs |].
  destruct s as [| c s]; [exact Hs |].
  cbn [Py.drop] in Hs. rewrite contains_cons, (IH s Hs). apply orb_true_r.
Qed.

(** [s.endswith(p)] implies [p in s]. *)
Lemma endswith_contains (s p : string) :
  Py.endswith s p = true -> Py.contains p s = true.
Proof.
  unfold Py.endswith. intros Hs. apply andb_prop in Hs. destruct Hs as [_ Hs].
  apply String.eqb_eq in Hs.
  apply (contains_drop p (String.length s - String.length p)).
  rewrite Hs. apply contains_self.
Qed.

Lemma before_first_within (a : ascii) (s t : string) :
  Py.contains (String a "") s = true -> before_first a (s ++ t) = before_first a s.
Proof.
  induction s as [| c s IH]; [discriminate |].
  rewrite contains_char_cons. cbn [String.append before_first].
  rewrite (Ascii.eqb_sym c a).
  destruct (Ascii.eqb a c); [reflexivity |].
  cbn [orb]. intros Hs. rewrite (IH Hs). reflexivity.
Qed.

(** Every record [delete_dns] collects for [lb] mentions [lb]; [cluster]
    is what the rule extracted, the fragment before the first hyphen if
    anything. *)
Lemma doomed_mentions (cluster : option string) (lb dom : string) (record : record_set) :
  (forall c, cluster = Some c -> Py.contains "ctlplane-0" lb = true ->
             c = before_first "-" lb) ->
  forallb (mentions lb) (doomed cluster lb dom (entry_of cluster lb dom) record) = true.
Proof.
  intros Hcluster. unfold doomed, mentions.
  destruct (Py.contains (entry_of cluster lb dom) (rr_name record)) eqn:Hentry.
  - cbn [orb forallb]. rewrite andb_true_r.
    assert (Hlb : Py.contains (lb ++ ".") (rr_name record) = true).
    { assert (Hcut : exists rest, entry_of cluster lb dom = (lb ++ ".") ++ rest).
      { unfold entry_of, dnsentry. destruct cluster as [c |].
        - exists (c ++ "." ++ dom ++ "."). rewrite !append_assoc. reflexivity.
        - exists (dom ++ "."). rewrite !append_assoc. reflexivity. }
      destruct Hcut as [rest Hcut]. rewrite Hcut in Hentry.
      exact (contains_app_l _ _ _ Hentry). }
    rewrite Hlb. reflexivity.
  - cbn [orb].
    destruct (Py.contains "ctlplane-0" lb) eqn:Hctl; cbn [andb orb].
    + destruct (Py.endswith _ _) eqn:Hends.
      * cbn [forallb]. rewrite andb_true_r.
        apply endswith_contains in Hends.
        assert (Hmention : Py.contains (before_first "-" lb ++ ".") (rr_name record)
                           || Py.contains "None." (rr_name record) = true).
        { destruct cluster as [c |]; cbn [format_cluster] in Hends.
          - rewrite (Hcluster c eq_refl eq_refl) in Hends.
            rewrite <- (append_assoc (before_first "-" lb) "." (dom ++ ".")) in Hends.
            rewrite (contains_app_l _ _ _ Hends). reflexivity.
          - change ("None" ++ "." ++ dom ++ ".") with ("None." ++ (dom ++ ".")) in Hends.
            rewrite (contains_app_l _ _ _ Hends). apply orb_true_r. }
        rewrite Hmention. apply orb_true_r.
      * destruct (filter (Py.contains lb) (rr_datas record)) as [| d l] eqn:Hl;
          [reflexivity |].
        assert (Hdata : existsb (Py.contains lb) (rr_datas record) = true).
        { assert (Hd : In d (filter (Py.contains lb) (rr_datas record)))
            by (rewrite Hl; left; reflexivity).
          apply filter_In in Hd. apply existsb_exists. exists d. exact Hd. }
        clear Hl. induction (d :: l) as [| x xs IH]; [reflexivity |].
        cbn [map forallb]. rewrite Hdata, orb_true_r. exact IH.
    + destruct (filter (Py.contains lb) (rr_datas record)) as [| d l] eqn:Hl;
        [reflexivity |].
      assert (Hdata : existsb (Py.contains lb) (rr_datas record) = true).
      { assert (Hd : In d (filter (Py.contains lb) (rr_datas record)))
          by (rewrite Hl; left; reflexivity).
        apply filter_In in Hd. apply existsb_exists. exists d. exact Hd. }
      clear Hl. induction (d :: l) as [| x xs IH]; [reflexivity |].
      cbn [map forallb]. rewrite Hdata, orb_true_r, orb_false_r. exact IH.
Qed.

Lemma flat_map_doomed_mention (cluster : option string) (lb dom : string)
  (all : list record_set) :
  (forall c, cluster = Some c -> Py.contains "ctlplane-0" lb = true ->
             c = before_first "-" lb) ->
  forallb (mentions lb) (flat_map (doomed cluster lb dom (entry_of cluster lb dom)) all) = true.
Proof.
  intros Hcluster. induction all as [| record all IH]; [reflexivity |].
  cbn [flat_map]. rewrite forallb_app, (doomed_mentions _ _ _ _ Hcluster), IH. reflexivity.
Qed.

Lemma uses_delete_dns_scoped (self : Kgcp) (name domain : string) :
  uses (scoped_to (Py.replace "." "-" name))
       (delete_dns self (Py.replace "." "-" name) domain).
Proof.
  unfold delete_dns. rewrite cluster_rule_ret. cbv zeta.
  change (Py.replace "." "-" name ++ "." ++ domain)
    with (Py.replace "." "-" name ++ String "." domain).
  rewrite replace_dot_before_first.
  set (lb := Py.replace "." "-" name).
  destruct (String.eqb _ _); cbn [bind].
  - split; [reflexivity |]. intros [zones | e]; [| exact I]. cbn [bind].
    destruct (matching_zones _ zones) as [| dnszone others]; [exact I |].
    apply uses_bind; [apply uses_execute; reflexivity |]. intros all.
    apply uses_bind.
    { pose proof (flat_map_doomed_mention
                    (Some (before_first "-" (lb ++ String "." domain))) lb
                    (Py.replace (before_first "-" (lb ++ String "." domain) ++ ".") ""
                       (Py.replace (lb ++ ".") "" (lb ++ String "." domain))) all) as Hall.
      assert (Hcluster : forall c,
                Some (before_first "-" (lb ++ String "." domain)) = Some c ->
                Py.contains "ctlplane-0" lb = true -> c = before_first "-" lb).
      { intros c Hc Hctl. inversion Hc.
        apply before_first_within.
        exact (contains_app_l "-" "0" lb (contains_app_r "ctlplane" "-0" lb Hctl)). }
      specialize (Hall Hcluster).
      destruct (flat_map _ all); [exact I | apply uses_execute; exact Hall]. }
    intros _. apply uses_bind; [| intros; exact I].
    apply uses_try_except; [| intros; exact I].
    apply uses_bind; [apply uses_execute; apply String.eqb_refl | intros; exact I].
  - split; [reflexivity |]. intros [zones | e]; [| exact I]. cbn [bind].
    destruct (matching_zones _ zones) as [| dnszone others]; [exact I |].
    apply uses_bind; [apply uses_execute; reflexivity |]. intros all.
    apply uses_bind.
    { pose proof (flat_map_doomed_mention None lb domain all) as Hall.
      specialize (Hall ltac:(discriminate)).
      destruct (flat_map _ all); [exact I | apply uses_execute; exact Hall]. }
    intros _. apply uses_bind; [| intros; exact I].
    apply uses_try_except; [| intros; exact I].
    apply uses_bind; [apply uses_execute; apply String.eqb_refl | intros; exact I].
Qed.

Ltac scoped_uses :=
  repeat first
    [ exact I
    | reflexivity
    | apply String.eqb_refl
    | assumption
    | apply uses_wait_for_operation
    | apply uses_forwarding_gone_loop
    | apply uses_delete_dns_scoped
    | apply uses_execute
    | apply uses_for_each; intros ?
    | apply uses_try_except; [| intros ?]
    | match goal with
      | |- uses _ (if ?b then _ else _) => destruct b eqn:?
      | |- uses _ (match ?x with _ => _ end) => destruct x
      | |- uses _ (Tell _ _) => split
      | |- uses _ (bind (pprint _) _) => unfold pprint; cbn [bind]
      | |- uses _ (bind (warning _) _) => unfold warning; cbn [bind]
      | |- uses _ (warning _) => unfold warning
      | |- uses _ (bind _ _) => apply uses_bind; [| intros ?]
      end ].

Lemma uses_delete_loadbalancer_scoped (self : Kgcp) (name : string) :
  uses (scoped_to (Py.replace "." "-" name)) (delete_loadbalancer self name).
Proof. unfold delete_loadbalancer. cbv zeta. scoped_uses. Qed.

Lemma within_forwarding_gone_loop (n : string) (fuel : nat) :
  forall k : nat, (k <= 12)%nat -> (k < fuel)%nat ->
  within k (5 * Z.of_nat k) (forwarding_gone_loop fuel n (60 - 5 * Z.of_nat k)).
Proof.
  induction fuel as [| fuel IH]; intros k Hk Hfuel; [lia |].
  cbn [forwarding_gone_loop].
  destruct (Z.geb_spec (60 - 5 * Z.of_nat k) 60) as [E | E];
    [unfold warning; cbn [within]; lia |].
  destruct k as [| k]; [lia |].
  split_budget 1%nat 0 k (5 * Z.of_nat (S k)); [lia | | apply within_execute].
  intros items. destruct (filter (String.eqb n) items); [cbn [within]; lia |].
  unfold sleep. cbn [bind within]. split; [lia |].
  replace (5 * Z.of_nat (S k) - 5) with (5 * Z.of_nat k) by lia.
  replace (60 - 5 * Z.of_nat (S k) + 5) with (60 - 5 * Z.of_nat k) by lia.
  apply IH; lia.
Qed.

Section LoadBalancer.

Context {W : Type} `{Backend W}.

(** X11: on every backend, whatever it lists and answers, every call of
    [delete_loadbalancer] is a read or a poll, the deletion of a compute
    resource that bears the name of the load balancer (dots turned into
    hyphens; for a forwarding rule that name or that name followed by a
    hyphen), or a DNS change-set that adds nothing and deletes only records
    that mention that name: records whose name contains [<name>.], records
    with a datum that contains [<name>], and, when the name contains
    [ctlplane-0], records whose name contains [<cluster>.] (what precedes
    the first hyphen of the name) or [None.].  The DNS tests are substring
    tests, so the records of other hosts are within reach (see
    [delete_loadbalancer_reaches_other_hosts]). *)
Theorem delete_loadbalancer_stays_in_scope (self : Kgcp) (name : string) (w : W) :
  forallb (event_in (scoped_to (Py.replace "." "-" name)))
          (trace_of (run (delete_loadbalancer self name) w)) = true.
Proof. apply uses_trace, uses_delete_loadbalancer_scoped. Qed.

(** X12: the wait for a deleted forwarding rule to leave the listing ends
    on every backend after at most 12 listings and 60 seconds of sleep,
    and issues nothing but listings. *)
Theorem forwarding_rule_wait_budget (forwarding_rule_name : string) (w : W) :
  let r := run (forwarding_gone_loop forwarding_fuel forwarding_rule_name 0) w in
  outcome_of r <> Diverged
  /\ (polls (trace_of r) <= 12)%nat
  /\ 0 <= slept (trace_of r) <= 60
  /\ mutations (trace_of r) = [].
Proof.
  intros r. subst r.
  destruct (within_run _ 12 60
              (within_forwarding_gone_loop forwarding_rule_name forwarding_fuel 12
                 ltac:(lia) ltac:(unfold forwarding_fuel; lia)) w) as (Ho & Hn & Hs).
  change (60 - 5 * Z.of_nat 12) with 0 in *. change (5 * Z.of_nat 12) with 60 in *.
  repeat split; try assumption; try lia.
  apply reading_no_mutation, uses_forwarding_gone_loop. reflexivity.
Qed.

End LoadBalancer.

(** Tearing down [lb] deletes, with its own record, the record of the host
    [mylb], whose name ends like the entry of [lb], and the alias [db1],
    whose datum names [mylb]; the compute resources it deletes are those
    of [lb] (the address twice: [delete_dns] releases it first, and the
    second deletion fails inside the [try] block). *)
Example delete_loadbalancer_reaches_other_hosts :
  mutations (trace_of (run (delete_loadbalancer gcp "lb") shared_zone_cloud))
  = [Called (forwardingRules_delete "lb");
     Called (dns_changes_create "example-com" []
               [mkRecordSet "lb.example.com." "A" 300 ["34.9.9.9"];
                mkRecordSet "mylb.example.com." "A" 300 ["34.7.7.7"];
                mkRecordSet "db1.example.com." "CNAME" 300 ["mylb.example.com."]]);
     Called (addresses_delete "lb");
     Called (addresses_delete "lb");
     Called (regionBackendServices_delete "lb")]
  /\ Cloud.records (world_of (run (delete_loadbalancer gcp "lb") shared_zone_cloud))
     = [("example-com", mkRecordSet "www.example.com." "A" 300 ["34.8.8.8"])].
Proof. split; vm_compute; reflexivity. Qed.

(** ** [create_bucket], [update_aliases] and [create_network] *)

Lemma mutations_app (tr1 tr2 : list event) :
  mutations (tr1 ++ tr2)%list = (mutations tr1 ++ mutations tr2)%list.
Proof. apply filter_app. Qed.

Section Changes.

Context {W : Type} `{Backend W}.

(** On an answering backend the Waiter returns, and it has changed
    nothing. *)
Lemma run_wait_answering (self : Kgcp) (op : operation) (w : W) :
  answering W ->
  exists w' tr,
    run (_wait_for_operation self op) w = (Returned tt, w', tr) /\ mutations tr = [].
Proof.
  intros Hans.
  destruct (ensures_run _ _ Hans (ensures_wait_for_operation self op) w) as ([] & Ho & _).
  pose proof (reading_no_mutation (_wait_for_operation self op) w
                (uses_wait_for_operation reading self op eq_refl eq_refl eq_refl)) as Hm.
  destruct (run (_wait_for_operation self op) w) as [[o w'] tr].
  unfold outcome_of, trace_of in *. cbn [fst snd] in *. subst o.
  exists w', tr. split; [reflexivity | exact Hm].
Qed.

(** X13: [create_bucket] leaves a bucket that is already listed alone: it
    logs an error and returns [None] after the listing, without a call to
    create the bucket or to change its access list, public or not. *)
Theorem create_bucket_leaves_existing_bucket (self : Kgcp) (bucket : string)
  (public : bool) (w w' : W) (buckets : list string) :
  exec storage_list_buckets w = (Ok buckets, w') ->
  In bucket buckets ->
  run (create_bucket self bucket public) w
  = (Returned PyNone, w',
     [Called storage_list_buckets; Logged Error_ ("Bucket " ++ bucket ++ " already there")]).
Proof.
  intros Hlist Hin. unfold create_bucket, list_buckets.
  rewrite run_bind, (run_execute storage_list_buckets), Hlist. cbv match.
  replace (existsb (String.eqb bucket) buckets) with true; [reflexivity |].
  symmetry. apply existsb_exists. exists bucket. split; [exact Hin | apply String.eqb_refl].
Qed.

(** X14: on every backend, [update_aliases] makes at most one change, the
    update of interface [nic0] of the instance with the given range; it
    returns success only after that change, and every run that ends
    without it ends in a failure or an exception. *)
Theorem update_aliases_one_mutation (self : Kgcp) (name cidr : string) (w : W) :
  let r := run (update_aliases self name cidr) w in
  match mutations (trace_of r) with
  | [] => outcome_of r <> Returned Success
  | [Called (instances_updateNetworkInterface n interface body)] =>
      n = name /\ interface = "nic0" /\ al_ipCidrRange body = cidr
  | _ => False
  end.
Proof.
  unfold update_aliases. rewrite run_bind, get_vm_or_fail_run.
  destruct (exec (instances_get name) w) as [[vm | e] w1]; cbv match;
    [| cbn [run trace_of outcome_of fst snd app mutations filter is_mutation mutating];
       discriminate].
  destruct (networkInterfaces vm) as [| nic0 rest]; cbn [first bind run];
    [cbn [trace_of outcome_of fst snd app mutations filter is_mutation mutating];
     discriminate |].
  destruct (subnetwork nic0) as [s |]; cbn [item bind run];
    [| cbn [trace_of outcome_of fst snd app mutations filter is_mutation mutating];
       discriminate].
  unfold get_subnet. cbn [execute bind run].
  destruct (exec (subnetworks_get _ _) w1) as [[[sn |] | e] w2]; cbn [bind run item];
    try (cbn [trace_of outcome_of fst snd app mutations filter is_mutation mutating];
         discriminate).
  destruct (secondaryIpRanges sn) as [[| range0 ranges] |]; cbn [bind run item first];
    try (cbn [trace_of outcome_of fst snd app mutations filter is_mutation mutating];
         discriminate).
  destruct (exec (instances_updateNetworkInterface _ _ _) w2) as [[op | e] w3];
    cbn [bind run].
  - pose proof (reading_no_mutation (_wait_for_operation self op ;; Ret Success) w3) as Hm.
    destruct (run (_wait_for_operation self op ;; Ret Success) w3) as [[o w4] tr].
    cbn [trace_of snd] in Hm.
    cbn [trace_of outcome_of fst snd app mutations filter is_mutation mutating].
    fold (mutations tr). rewrite Hm.
    + repeat split; reflexivity.
    + apply uses_bind; [| intros; exact I].
      apply uses_wait_for_operation; reflexivity.
  - cbn [trace_of outcome_of fst snd app mutations filter is_mutation mutating].
    repeat split; reflexivity.
Qed.

(** X15: on a backend that answers every call, with a valid CIDR (and a
    valid second CIDR when one is given) and subnet creation left on,
    [create_network] returns success having made three changes, in this
    order: the network in custom mode, the subnetwork that points to the
    link the first insertion returned and carries the second range, and the
    firewall rule [allow-ssh-<name>] that opens port 22 to every source. *)
Theorem create_network_creates_in_order (ip_network : string -> bool)
  (self : Kgcp) (name cidr : string) (overrides : network_overrides) (w : W) :
  answering W ->
  ov_create_subnet overrides <> Some false ->
  ip_network cidr = true ->
  match ov_dual_cidr overrides with
  | Some dual_cidr => ip_network dual_cidr
  | None => true
  end = true ->
  let r := run (create_network ip_network self name (Some cidr) overrides) w in
  exists network,
    fst (exec (networks_insert name false) w) = Ok network
    /\ outcome_of r = Returned Success
    /\ mutations (trace_of r)
       = [Called (networks_insert name false);
          Called (subnetworks_insert
                    (mkSubnetBody name cidr (op_targetLink network)
                       ("https://www.googleapis.com/compute/v1/projects/" ++ project self
                        ++ "/regions/" ++ region self)
                       (dual_ranges name overrides)));
          Called (firewalls_insert
                    (mkFirewallBody ("allow-ssh-" ++ name) ("global/networks/" ++ name)
                       ["0.0.0.0/0"] [("tcp", ["22"])]))].
Proof.
  intros Hans Hon Hcidr Hdual r. subst r.
  unfold create_network. cbv zeta.
  rewrite run_bind, (run_execute (networks_insert name false)).
  destruct (Hans (networks_insert name false) w) as (network & Hnet & _).
  destruct (exec (networks_insert name false) w) as [r1 w1]. cbn [fst] in Hnet. subst r1.
  exists network. split; [reflexivity |]. cbv match.
  rewrite run_bind.
  destruct (run_wait_answering self network w1 Hans) as (w2 & tr2 & Hwait & Hm2).
  rewrite Hwait.
  replace (match ov_create_subnet overrides with Some b => b | None => true end) with true
    by (destruct (ov_create_subnet overrides) as [[|] |]; congruence).
  rewrite Hcidr. cbn [negb].
  assert (Hranges :
    match ov_dual_cidr overrides with
    | Some dual_cidr =>
        if negb (ip_network dual_cidr)
        then Ret (inr (Failure ("Invalid Dual Cidr " ++ dual_cidr)))
        else Ret (inl (Some [mkRange (or_default (ov_dual_name overrides) ("dual-" ++ name))
                                    dual_cidr]))
    | None => Ret (inl None)
    end = (Ret (inl (dual_ranges name overrides)) : prog (_ + answer))).
  { unfold dual_ranges. destruct (ov_dual_cidr overrides) as [d |]; [| reflexivity].
    rewrite Hdual. reflexivity. }
  rewrite Hranges. cbn [bind].
  rewrite !run_bind.
  match goal with
  | |- context [run (execute (subnetworks_insert ?b)) w2] =>
      rewrite (run_execute (subnetworks_insert b));
      destruct (Hans (subnetworks_insert b) w2) as (sub & Hsub & _);
      destruct (exec (subnetworks_insert b) w2) as [r3 w3]; cbn [fst] in Hsub; subst r3
  end.
  cbv match. rewrite run_bind.
  destruct (run_wait_answering self sub w3 Hans) as (w4 & tr4 & Hwait4 & Hm4).
  rewrite Hwait4. cbn [run].
  rewrite run_bind.
  match goal with
  | |- context [run (execute (firewalls_insert ?b)) w4] =>
      rewrite (run_execute (firewalls_insert b));
      destruct (Hans (firewalls_insert b) w4) as (fw & Hfw & _);
      destruct (exec (firewalls_insert b) w4) as [r5 w5]; cbn [fst] in Hfw; subst r5
  end.
  cbn [run outcome_of trace_of fst snd].
  split; [reflexivity |].
  rewrite !mutations_app, Hm2, Hm4. reflexivity.
Qed.

End Changes.

Lemma create_bucket_leaves_existing_bucket_witness :
  run (create_bucket gcp "assets" true) (Cloud.add Cloud.Bucket "assets" Cloud.empty)
  = (Returned PyNone, Cloud.add Cloud.Bucket "assets" Cloud.empty,
     [Called storage_list_buckets; Logged Error_ ("Bucket " ++ "assets" ++ " already there")]).
Proof.
  apply (create_bucket_leaves_existing_bucket gcp "assets" true
           (Cloud.add Cloud.Bucket "assets" Cloud.empty)
           (Cloud.add Cloud.Bucket "assets" Cloud.empty) ["assets"]).
  - reflexivity.
  - left. reflexivity.
Defined.

Lemma create_network_creates_in_order_witness :
  let r := run (create_network ipv4_network gcp "net1" (Some "10.0.0.0/24") no_overrides) tt in
  exists network,
    fst (exec (networks_insert "net1" false) tt) = Ok network
    /\ outcome_of r = Returned Success
    /\ mutations (trace_of r)
       = [Called (networks_insert "net1" false);
          Called (subnetworks_insert
                    (mkSubnetBody "net1" "10.0.0.0/24" (op_targetLink network)
                       ("https://www.googleapis.com/compute/v1/projects/" ++ project gcp
                        ++ "/regions/" ++ region gcp)
                       (dual_ranges "net1" no_overrides)));
          Called (firewalls_insert
                    (mkFirewallBody ("allow-ssh-" ++ "net1") ("global/networks/" ++ "net1")
                       ["0.0.0.0/0"] [("tcp", ["22"])]))].
Proof.
  apply (create_network_creates_in_order ipv4_network gcp "net1" "10.0.0.0/24" no_overrides tt).
  - exact obliging_answers.
  - discriminate.
  - reflexivity.
  - reflexivity.
Defined.

(** ** Names and labels *)

(** [replace] of one character by another works character by character. *)
Lemma replace_char_cons (a b c : ascii) (s : string) :
  Py.replace (String a "") (String b "") (String c s)
  = String (if Ascii.eqb a c then b else c) (Py.replace (String a "") (String b "") s).
Proof.
  unfold Py.replace. cbn [Py.replace_from prefix String.length Nat.sub].
  destruct (ascii_dec a c) as [<- | Hc].
  - rewrite Ascii.eqb_refl.
    replace (prefix "" s) with true by (destruct s; reflexivity). reflexivity.
  - destruct (Ascii.eqb_spec a c) as [E | _]; [contradiction | reflexivity].
Qed.

Lemma replace_char_removes (a b : ascii) (s : string) :
  a <> b -> Py.contains (String a "") (Py.replace (String a "") (String b "") s) = false.
Proof.
  intros Hab. induction s as [| c s IH]; [reflexivity |].
  rewrite replace_char_cons, contains_char_cons, IH, orb_false_r.
  destruct (Ascii.eqb_spec a c) as [<- | Hc].
  - apply Ascii.eqb_neq. exact Hab.
  - apply Ascii.eqb_neq. exact Hc.
Qed.

Lemma replace_char_back (a b : ascii) (s : string) :
  Py.contains (String b "") s = false ->
  Py.replace (String b "") (String a "") (Py.replace (String a "") (String b "") s) = s.
Proof.
  induction s as [| c s IH]; [reflexivity |].
  rewrite contains_char_cons. intros Hc. apply orb_false_elim in Hc. destruct Hc as [Hbc Hs].
  rewrite !replace_char_cons, (IH Hs).
  destruct (Ascii.eqb_spec a c) as [<- | Hac].
  - rewrite Ascii.eqb_refl. reflexivity.
  - rewrite Hbc. reflexivity.
Qed.

Lemma replace_char_app (a b : ascii) (s t : string) :
  Py.replace (String a "") (String b "") (s ++ t)
  = Py.replace (String a "") (String b "") s ++ Py.replace (String a "") (String b "") t.
Proof.
  induction s as [| c s IH]; [reflexivity |].
  cbn [String.append]. rewrite !replace_char_cons, IH. reflexivity.
Qed.

(** X16: the domain of a load balancer survives the round trip through the
    label of its address exactly when it holds no hyphen: the label written
    by [create_loadbalancer] (dots turned into hyphens) is read back by
    [delete_loadbalancer] (hyphens turned into dots) as the same domain if
    and only if the domain has no hyphen; and with a [dnsclient] label
    beside it no domain is read at all. *)
Theorem domain_label_round_trip (domain : string) :
  (teardown_domain (Some (address_labels domain None)) = Some domain
   <-> Py.contains "-" domain = false)
  /\ forall dnsclient,
       teardown_domain (Some (address_labels domain (Some dnsclient))) = None.
Proof.
  split; [| reflexivity].
  unfold teardown_domain, address_labels. cbn [lookup String.eqb Ascii.eqb Bool.eqb].
  split.
  - intros E. injection E as E. rewrite <- E.
    apply (replace_char_removes "-" "."). discriminate.
  - intros Hd. f_equal. apply (replace_char_back "." "-"). exact Hd.
Qed.

(** The domain [my-site.com] comes back as [my.site.com]. *)
Example hyphenated_domain_does_not_survive :
  teardown_domain (Some (address_labels "my-site.com" None)) = Some "my.site.com".
Proof. reflexivity. Qed.

(** X17: the name [add_image] registers an image under holds no hyphen:
    every dot and every hyphen of the file name of the URL has become a
    dot (only the prefix [rhcos-], added when the URL mentions [rhcos],
    brings one). *)
Theorem shortimage_has_no_hyphen (url : string) :
  Py.contains "rhcos" url = false -> Py.contains "-" (shortimage url) = false.
Proof.
  intros Hurl. unfold shortimage. rewrite Hurl.
  apply (replace_char_removes "-" "."). discriminate.
Qed.

Lemma shortimage_has_no_hyphen_witness :
  Py.contains "-" (shortimage "https://example.com/images/Fedora-Cloud-Base-38.qcow2?x=1")
  = false.
Proof.
  exact (shortimage_has_no_hyphen
           "https://example.com/images/Fedora-Cloud-Base-38.qcow2?x=1" eq_refl).
Defined.

Example shortimage_of_fedora :
  shortimage "https://example.com/images/Fedora-Cloud-Base-38.qcow2?x=1"
  = "Fedora.Cloud.Base.38.qcow2".
Proof. reflexivity. Qed.

(** Joining what was split gives the string back. *)
Lemma join_split (sep : ascii) (s : string) :
  Py.join (String sep "") (Py.split sep s) = s.
Proof.
  unfold Py.join. induction s as [| c s IH]; [reflexivity |].
  cbn [Py.split]. destruct (Ascii.eqb_spec c sep) as [-> | Hc].
  - destruct (Py.split sep s) as [| x xs] eqn:Hsplit.
    + rewrite (split_unfold sep s) in Hsplit. discriminate.
    + rewrite <- IH. reflexivity.
  - destruct (Py.split sep s) as [| x xs] eqn:Hsplit.
    + rewrite (split_unfold sep s) in Hsplit. discriminate.
    + rewrite <- IH. destruct xs as [| y ys]; reflexivity.
Qed.

(** X18: a security group named [api-<kube>] or [apps-<kube>] is given
    the one target tag [<kube>], with the dots of the name turned into
    hyphens, however many hyphens [<kube>] holds itself. *)
Theorem security_group_tags_name_the_cluster (kube : string) :
  security_group_tags ("api-" ++ kube) = Some [Py.replace "." "-" kube]
  /\ security_group_tags ("apps-" ++ kube) = Some [Py.replace "." "-" kube].
Proof.
  unfold security_group_tags. cbv zeta.
  rewrite !(replace_char_app "." "-").
  change (Py.replace "." "-" "api-") with "api-".
  change (Py.replace "." "-" "apps-") with "apps-".
  set (k := Py.replace "." "-" kube).
  split.
  - replace (Py.startswith ("api-" ++ k) "api-") with true
      by (unfold Py.startswith; cbn; destruct k; reflexivity).
    cbn [orb String.append Py.split Ascii.eqb Bool.eqb].
    rewrite (split_unfold "-" k) at 1.
    cbn [tl]. rewrite <- (split_unfold "-" k), (join_split "-" k). reflexivity.
  - replace (Py.startswith ("apps-" ++ k) "apps-") with true
      by (unfold Py.startswith; cbn; destruct k; reflexivity).
    rewrite orb_true_r.
    cbn [String.append Py.split Ascii.eqb Bool.eqb].
    rewrite (split_unfold "-" k) at 1.
    cbn [tl]. rewrite <- (split_unfold "-" k), (join_split "-" k). reflexivity.
Qed.

(** X19: the image project of an image named [<family>-<rest>] is
    [<family>-cloud] for the families [centos], [coreos], [cos], [debian]
    and [rhel]; the images whose name starts with [sles] are looked for in
    [suse-cloud] and those whose name starts with [ubuntu] in
    [ubuntu-os-cloud]. *)
Theorem get_image_project_of_family (family rest : string) :
  In family ["centos"; "coreos"; "cos"; "debian"; "rhel"] ->
  __get_image_project (family ++ "-" ++ rest) = Some (family ++ "-cloud")
  /\ __get_image_project ("sles" ++ rest) = Some "suse-cloud"
  /\ __get_image_project ("ubuntu" ++ rest) = Some "ubuntu-os-cloud".
Proof.
  intros Hfamily. repeat split.
  - cbn [In] in Hfamily.
    destruct Hfamily as [<- | [<- | [<- | [<- | [<- | []]]]]];
      unfold __get_image_project, Py.startswith;
      cbn; destruct (Py.split "-" rest) eqn:Hsplit;
      try (rewrite (split_unfold "-" rest) in Hsplit; discriminate);
      try reflexivity; destruct rest; reflexivity.
  - unfold __get_image_project, Py.startswith. cbn. destruct rest; reflexivity.
  - unfold __get_image_project, Py.startswith. cbn. destruct rest; reflexivity.
Qed.

Lemma get_image_project_of_family_witness :
  __get_image_project ("debian" ++ "-" ++ "12") = Some ("debian" ++ "-cloud")
  /\ __get_image_project ("sles" ++ "-15") = Some "suse-cloud"
  /\ __get_image_project ("ubuntu" ++ "-2204-lts") = Some "ubuntu-os-cloud".
Proof.
  apply (get_image_project_of_family "debian" "12").
  right. right. right. left. reflexivity.
Defined.


(** * Properties of the rest of the adapter *)

(** ** Running a program over all the calls *)

Section FullRun.

Context {W : Type} `{Full.Backend W}.

Lemma full_run_bind {A B : Type} (p : Full.prog A) (f : A -> Full.prog B) (w : W) :
  Full.run (Full.bind p f) w =
  match Full.run p w with
  | (Returned a, w1, tr1) =>
      let '(o, w2, tr2) := Full.run (f a) w1 in (o, w2, (tr1 ++ tr2)%list)
  | (Raised e, w1, tr1) => (Raised e, w1, tr1)
  | (Diverged, w1, tr1) => (Diverged, w1, tr1)
  end.
Proof.
  revert w. induction p as [a | e | c k IH | ev k IH | ]; intros w; cbn [Full.bind Full.run].
  - destruct (Full.run (f a) w) as [[o w2] tr2]. reflexivity.
  - reflexivity.
  - destruct (Full.exec c w) as [r w1]. rewrite IH.
    destruct (Full.run (k r) w1) as [[[a | e | ] w2] tr1]; try reflexivity.
    destruct (Full.run (f a) w2) as [[o w3] tr2]. reflexivity.
  - rewrite IH. destruct (Full.run k w) as [[[a | e | ] w1] tr1]; try reflexivity.
    destruct (Full.run (f a) w1) as [[o w2] tr2]. reflexivity.
  - reflexivity.
Qed.

Lemma full_run_try_except {A : Type} (p : Full.prog A) (h : exn -> Full.prog A) (w : W) :
  Full.run (Full.try_except p h) w =
  match Full.run p w with
  | (Raised e, w1, tr1) =>
      let '(o, w2, tr2) := Full.run (h e) w1 in (o, w2, (tr1 ++ tr2)%list)
  | x => x
  end.
Proof.
  revert w. induction p as [a | e | c k IH | ev k IH | ]; intros w;
    cbn [Full.try_except Full.run].
  - reflexivity.
  - destruct (Full.run (h e) w) as [[o w2] tr2]. reflexivity.
  - destruct (Full.exec c w) as [r w1]. rewrite IH.
    destruct (Full.run (k r) w1) as [[[a | e | ] w2] tr1]; try reflexivity.
    destruct (Full.run (h e) w2) as [[o w3] tr2]. reflexivity.
  - rewrite IH. destruct (Full.run k w) as [[[a | e | ] w1] tr1]; try reflexivity.
    destruct (Full.run (h e) w1) as [[o w2] tr2]. reflexivity.
  - reflexivity.
Qed.

Lemma full_uses_trace {A : Type} (P : Full.call -> bool) (p : Full.prog A) :
  Full.uses P p ->
  forall w : W, forallb (Full.event_in P) (Full.trace_of (Full.run p w)) = true.
Proof.
  induction p as [a | e | c k IH | ev k IH | ]; intros Hp w;
    cbn [Full.uses Full.run] in *; try reflexivity.
  - destruct Hp as [Hc Hk]. destruct (Full.exec c w) as [r w1].
    specialize (IH r (Hk r) w1). destruct (Full.run (k r) w1) as [[o w2] tr].
    unfold Full.trace_of in *. cbn [snd forallb Full.event_in] in *.
    rewrite Hc, IH. reflexivity.
  - destruct Hp as [Hev Hk]. specialize (IH Hk w). destruct (Full.run k w) as [[o w1] tr].
    unfold Full.trace_of in *. cbn [snd forallb] in *. rewrite Hev, IH. reflexivity.
Qed.

(** A program that only reads leaves no mutation in its trace. *)
Lemma full_reading_no_mutation {A : Type} (p : Full.prog A) (w : W) :
  Full.uses Full.reading p -> Full.mutations (Full.trace_of (Full.run p w)) = [].
Proof.
  intros Hp. pose proof (full_uses_trace Full.reading p Hp w) as Htr.
  unfold Full.mutations.
  induction (Full.trace_of (Full.run p w)) as [| ev tr IH]; [reflexivity |].
  cbn [forallb] in Htr. apply andb_prop in Htr. destruct Htr as [Hev Htr].
  cbn [filter]. rewrite (IH Htr).
  destruct ev as [c | d | l msg]; cbn [Full.is_mutation]; try reflexivity.
  unfold Full.event_in, Full.reading in Hev. apply negb_true_iff in Hev.
  rewrite Hev. reflexivity.
Qed.

Lemma full_within_run {A : Type} (p : Full.prog A) : forall (n : nat) (s : Z),
  Full.within n s p ->
  forall w : W,
    Full.outcome_of (Full.run p w) <> Diverged
    /\ (Full.polls (Full.trace_of (Full.run p w)) <= n)%nat
    /\ 0 <= Full.slept (Full.trace_of (Full.run p w)) <= s.
Proof.
  induction p as [a | e | c k IH | ev k IH | ]; intros n s Hp w;
    unfold Full.polls, Full.outcome_of, Full.trace_of in *; cbn [Full.within] in Hp.
  - cbn [Full.run fst snd filter length Full.slept]. repeat split; try discriminate; lia.
  - cbn [Full.run fst snd filter length Full.slept]. repeat split; try discriminate; lia.
  - destruct n as [| n]; [contradiction |]. cbn [Full.run].
    destruct (Full.exec c w) as [r w1]. specialize (IH r n s (Hp r) w1).
    destruct (Full.run (k r) w1) as [[o w2] tr].
    cbn [fst snd filter Full.is_call length Full.slept] in *.
    destruct IH as (Ho & Hn & Hs). repeat split; try assumption; lia.
  - cbn [Full.run]. destruct ev as [c | d | l msg].
    + destruct n as [| n]; [contradiction |].
      specialize (IH n s Hp w). destruct (Full.run k w) as [[o w1] tr].
      cbn [fst snd filter Full.is_call length Full.slept] in *.
      destruct IH as (Ho & Hn & Hs). repeat split; try assumption; lia.
    + destruct Hp as [Hd Hp]. specialize (IH n (s - d) Hp w).
      destruct (Full.run k w) as [[o w1] tr].
      cbn [fst snd filter Full.is_call length Full.slept] in *.
      destruct IH as (Ho & Hn & Hs). repeat split; try assumption; lia.
    + specialize (IH n s Hp w). destruct (Full.run k w) as [[o w1] tr].
      cbn [fst snd filter Full.is_call length Full.slept] in *.
      destruct IH as (Ho & Hn & Hs). repeat split; try assumption; lia.
  - contradiction.
Qed.

Lemma full_run_execute (c : Full.call) (w : W) :
  Full.run (Full.execute c) w =
  match Full.exec c w with
  | (Ok a, w1) => (Returned a, w1, [Full.Called c])
  | (Err e, w1) => (Raised e, w1, [Full.Called c])
  end.
Proof.
  unfold Full.execute. cbn [Full.run].
  destruct (Full.exec c w) as [[a | e] w1]; reflexivity.
Qed.

End FullRun.

Lemma full_mutations_app (tr1 tr2 : list Full.event) :
  Full.mutations (tr1 ++ tr2)%list = (Full.mutations tr1 ++ Full.mutations tr2)%list.
Proof. apply filter_app. Qed.

Lemma full_mutations_cons (ev : Full.event) (tr : list Full.event) :
  Full.mutations (ev :: tr)
  = if Full.is_mutation ev then ev :: Full.mutations tr else Full.mutations tr.
Proof. reflexivity. Qed.

Lemma full_mutations_nil : Full.mutations [] = [].
Proof. reflexivity. Qed.

Ltac mutations_norm :=
  repeat (rewrite full_mutations_app || rewrite full_mutations_cons
          || rewrite full_mutations_nil);
  cbn [Full.is_mutation Full.mutating mutating].

Lemma full_uses_bind {A B : Type} (P : Full.call -> bool) (p : Full.prog A)
  (f : A -> Full.prog B) :
  Full.uses P p -> (forall a, Full.uses P (f a)) -> Full.uses P (Full.bind p f).
Proof.
  intros Hp Hf. induction p as [a | e | c k IH | ev k IH | ];
    cbn [Full.uses Full.bind] in *; auto.
  - destruct Hp as [Hc Hk]. split; [assumption |]. intros r. apply IH, Hk.
  - destruct Hp as [Hev Hk]. split; auto.
Qed.

Lemma full_uses_try_except {A : Type} (P : Full.call -> bool) (p : Full.prog A)
  (h : exn -> Full.prog A) :
  Full.uses P p -> (forall e, Full.uses P (h e)) -> Full.uses P (Full.try_except p h).
Proof.
  intros Hp Hh. induction p as [a | e | c k IH | ev k IH | ];
    cbn [Full.uses Full.try_except] in *; auto.
  - destruct Hp as [Hc Hk]. split; [assumption |]. intros r. apply IH, Hk.
  - destruct Hp as [Hev Hk]. split; auto.
Qed.

Lemma full_uses_execute (P : Full.call -> bool) (c : Full.call) :
  P c = true -> Full.uses P (Full.execute c).
Proof.
  intros Hc. cbn [Full.execute Full.uses]. split; [assumption |]. intros [a | e]; exact I.
Qed.

Lemma full_uses_for_fold {A S : Type} (P : Full.call -> bool) (l : list A)
  (body : S -> A -> Full.prog S) :
  (forall s x, Full.uses P (body s x)) -> forall s, Full.uses P (Full.for_fold l s body).
Proof.
  intros Hbody. induction l as [| x l IH]; intros s; cbn [Full.for_fold]; [exact I |].
  apply full_uses_bind; [apply Hbody | intros s'; apply IH].
Qed.

(** A lifted program makes the calls of the program it lifts. *)
Lemma full_uses_lift {A : Type} (P : call -> bool) (Q : Full.call -> bool) (p : prog A) :
  (forall c, P c = true -> Q (Full.base c) = true) ->
  uses P p -> Full.uses Q (Full.lift p).
Proof.
  intros HPQ. induction p as [a | e | c k IH | ev k IH | ]; intros Hp;
    cbn [uses Full.lift Full.uses] in *; auto.
  - destruct Hp as [Hc Hk]. split; [apply HPQ, Hc |]. intros r. apply IH, Hk.
  - destruct Hp as [Hev Hk]. split; [| apply IH, Hk].
    destruct ev as [c | d | l msg]; cbn [Full.lift_event Full.event_in event_in] in *;
      auto.
Qed.

Lemma full_within_weaken {A : Type} (p : Full.prog A) : forall (n n' : nat) (s s' : Z),
  Full.within n s p -> (n <= n')%nat -> s <= s' -> Full.within n' s' p.
Proof.
  induction p as [a | e | c k IH | ev k IH | ]; intros n n' s s' Hp Hn Hs;
    cbn [Full.within] in *; try lia; try contradiction.
  - destruct n as [| n]; [contradiction |]. destruct n' as [| n']; [lia |].
    intros r. apply (IH r n n' s s'); [apply Hp | lia | lia].
  - destruct ev as [c | d | l msg].
    + destruct n as [| n]; [contradiction |]. destruct n' as [| n']; [lia |].
      apply (IH n n' s s'); [assumption | lia | lia].
    + destruct Hp as [Hd Hp]. split; [assumption |].
      apply (IH n n' (s - d) (s' - d)); [assumption | lia | lia].
    + apply (IH n n' s s'); assumption.
Qed.

Lemma full_within_bind {A B : Type} (p : Full.prog A) (f : A -> Full.prog B)
  (n2 : nat) (s2 : Z) :
  0 <= s2 -> (forall a, Full.within n2 s2 (f a)) ->
  forall (n1 : nat) (s1 : Z),
    Full.within n1 s1 p -> Full.within (n1 + n2) (s1 + s2) (Full.bind p f).
Proof.
  intros Hs2 Hf.
  induction p as [a | e | c k IH | ev k IH | ]; intros n1 s1 Hp;
    cbn [Full.within Full.bind] in *; try lia; try contradiction.
  - apply (full_within_weaken (f a) n2 (n1 + n2) s2 (s1 + s2)); [apply Hf | lia | lia].
  - destruct n1 as [| n1]; [contradiction |]. cbn [Nat.add].
    intros r. apply IH, Hp.
  - destruct ev as [c | d | l msg].
    + destruct n1 as [| n1]; [contradiction |]. cbn [Nat.add]. apply IH, Hp.
    + destruct Hp as [Hd Hp]. split; [assumption |].
      replace (s1 + s2 - d) with (s1 - d + s2) by lia. apply IH, Hp.
    + apply IH, Hp.
Qed.

Lemma full_within_try_except {A : Type} (p : Full.prog A) (h : exn -> Full.prog A)
  (n2 : nat) (s2 : Z) :
  0 <= s2 -> (forall e, Full.within n2 s2 (h e)) ->
  forall (n1 : nat) (s1 : Z),
    Full.within n1 s1 p -> Full.within (n1 + n2) (s1 + s2) (Full.try_except p h).
Proof.
  intros Hs2 Hh.
  induction p as [a | e | c k IH | ev k IH | ]; intros n1 s1 Hp;
    cbn [Full.within Full.try_except] in *; try lia; try contradiction.
  - apply (full_within_weaken (h e) n2 (n1 + n2) s2 (s1 + s2)); [apply Hh | lia | lia].
  - destruct n1 as [| n1]; [contradiction |]. cbn [Nat.add].
    intros r. apply IH, Hp.
  - destruct ev as [c | d | l msg].
    + destruct n1 as [| n1]; [contradiction |]. cbn [Nat.add]. apply IH, Hp.
    + destruct Hp as [Hd Hp]. split; [assumption |].
      replace (s1 + s2 - d) with (s1 - d + s2) by lia. apply IH, Hp.
    + apply IH, Hp.
Qed.

Lemma full_within_execute (c : Full.call) : Full.within 1 0 (Full.execute c).
Proof. intros [a | e]; cbn [Full.within]; lia. Qed.

Lemma full_within_lift {A : Type} (p : prog A) : forall (n : nat) (s : Z),
  within n s p -> Full.within n s (Full.lift p).
Proof.
  induction p as [a | e | c k IH | ev k IH | ]; intros n s Hp;
    cbn [within Full.lift Full.within] in *; auto.
  - destruct n as [| n]; [contradiction |]. intros r. apply IH, Hp.
  - destruct ev as [c | d | l msg]; cbn [Full.lift_event].
    + destruct n as [| n]; [contradiction |]. apply IH, Hp.
    + destruct Hp as [Hd Hp]. split; [assumption | apply IH, Hp].
    + apply IH, Hp.
Qed.

(** The Waiter, lifted: it only reads, and it stays within its budget. *)
Lemma full_uses_wait (self : Kgcp) (op : operation) :
  Full.uses Full.reading (Full.lift (_wait_for_operation self op)).
Proof.
  apply (full_uses_lift reading).
  - intros c Hc. exact Hc.
  - apply uses_wait_for_operation; reflexivity.
Qed.

Lemma full_within_wait (self : Kgcp) (op : operation) :
  Full.within 61 61 (Full.lift (_wait_for_operation self op)).
Proof. apply full_within_lift, within_wait_for_operation. Qed.

Ltac full_split_budget n1 s1 n2 s2 :=
  refine (full_within_weaken _ (n1 + n2)%nat _ (s1 + s2) _ _ _ _);
  [apply full_within_bind | lia | lia].

(** ** [add_disk] *)

Lemma within_disk_ready_loop (diskname : string) (fuel : nat) :
  forall k : nat, (k <= 13)%nat -> (k < fuel)%nat ->
  Full.within k (5 * Z.of_nat k) (Full.disk_ready_loop fuel diskname (65 - 5 * Z.of_nat k)).
Proof.
  induction fuel as [| fuel IH]; intros k Hk Hfuel; [lia |].
  cbn [Full.disk_ready_loop].
  destruct (Z.gtb_spec (65 - 5 * Z.of_nat k) 60) as [E | E]; [cbn [Full.within]; lia |].
  destruct k as [| k]; [lia |].
  full_split_budget 1%nat 0 k (5 * Z.of_nat (S k)); [lia | | apply full_within_execute].
  intros newdisk. destruct (String.eqb (Full.dk_status newdisk) "READY");
    [cbn [Full.within]; lia |].
  unfold Full.sleep, Full.pprint. cbn [Full.bind Full.within]. split; [lia |].
  replace (5 * Z.of_nat (S k) - 5) with (5 * Z.of_nat k) by lia.
  replace (65 - 5 * Z.of_nat (S k) + 5) with (65 - 5 * Z.of_nat k) by lia.
  apply IH; lia.
Qed.

Lemma within_add_disk (self : Kgcp) (name : string) (size : Z) :
  Full.within 16 65 (Full.add_disk self name size).
Proof.
  unfold Full.add_disk.
  full_split_budget 1%nat 0 15%nat 65; [lia | |].
  2:{ cbn [Full.execute Full.bind Full.try_except Full.within].
      intros [vm | e]; cbn [Full.bind Full.try_except Full.within]; lia. }
  intros [vm |]; [| cbn [Full.within]; lia]. cbv zeta.
  full_split_budget 1%nat 0 14%nat 65; [lia | | apply full_within_execute].
  intros _.
  full_split_budget 13%nat 65 1%nat 0; [lia | |].
  2:{ exact (within_disk_ready_loop _ Full.disk_fuel 13 ltac:(lia)
               ltac:(unfold Full.disk_fuel; lia)). }
  intros [failure |]; [cbn [Full.within]; lia |].
  cbn [Full.execute Full.bind Full.within]. intros [op | e]; cbn [Full.bind Full.within]; lia.
Qed.

Section AddDisk.

Context {W : Type} `{Full.Backend W}.

(** X20: [add_disk] ends on every backend: the wait for the new disk
    gives up after 13 polls, so a run issues at most 16 calls and sleeps at
    most 65 seconds. *)
Theorem add_disk_budget (self : Kgcp) (name : string) (size : Z) (w : W) :
  let r := Full.run (Full.add_disk self name size) w in
  Full.outcome_of r <> Diverged
  /\ (Full.polls (Full.trace_of r) <= 16)%nat
  /\ 0 <= Full.slept (Full.trace_of r) <= 65.
Proof. exact (full_within_run _ 16 65 (within_add_disk self name size) w). Qed.

Lemma disk_ready_loop_stalled (diskname : string) (fuel : nat) :
  (forall w' : W, exists dk,
      fst (Full.exec (Full.disks_get diskname) w') = Ok dk
      /\ String.eqb (Full.dk_status dk) "READY" = false) ->
  forall (k : nat) (w : W), (k <= 13)%nat -> (k < fuel)%nat ->
  exists w' tr,
    Full.run (Full.disk_ready_loop fuel diskname (65 - 5 * Z.of_nat k)) w
    = (Returned (Some (Failure "timeout waiting for new disk to be ready")), w', tr)
    /\ Full.slept tr = 5 * Z.of_nat k /\ Full.mutations tr = [].
Proof.
  intros Hstalled. induction fuel as [| fuel IH]; intros k w Hk Hfuel; [lia |].
  cbn [Full.disk_ready_loop].
  destruct (Z.gtb_spec (65 - 5 * Z.of_nat k) 60) as [E | E].
  - exists w, []. assert (k = O) by lia. subst k. repeat split; reflexivity.
  - destruct k as [| k]; [lia |].
    cbn [Full.execute Full.bind Full.run].
    destruct (Hstalled w) as (dk & Hdk & Hstatus).
    destruct (Full.exec (Full.disks_get diskname) w) as [r w1]. cbn [fst] in Hdk. subst r.
    cbn [Full.bind]. rewrite Hstatus.
    unfold Full.sleep, Full.pprint. cbn [Full.bind Full.run].
    replace (65 - 5 * Z.of_nat (S k) + 5) with (65 - 5 * Z.of_nat k) by lia.
    destruct (IH k w1 ltac:(lia) ltac:(lia)) as (w' & tr & Hrun & Hs & Hm).
    rewrite Hrun. eexists. eexists. split; [reflexivity |].
    cbn [Full.slept Full.mutations filter Full.is_mutation Full.mutating].
    fold (Full.mutations tr). rewrite Hs, Hm. split; [lia | reflexivity].
Qed.

(** X21: when the new disk never gets ready, [add_disk] returns the
    timeout failure after 65 seconds of sleep with the disk created and not
    attached: the insertion of the disk, named [<name>-disk<n+1>] for an
    instance with [n] disks, is the only change. *)
Theorem add_disk_times_out_without_attaching (self : Kgcp) (name : string) (size : Z)
  (w w1 w2 : W) (vm : Full.vm_resource) (op : operation) :
  let diskname := name ++ "-disk"
                  ++ Py.str_of_int (Z.of_nat (List.length (Full.vmr_disks vm)) + 1) in
  Full.exec (Full.instances_lookup name) w = (Ok vm, w1) ->
  Full.exec (Full.disks_insert diskname size) w1 = (Ok op, w2) ->
  (forall w' : W, exists dk,
      fst (Full.exec (Full.disks_get diskname) w') = Ok dk
      /\ String.eqb (Full.dk_status dk) "READY" = false) ->
  let r := Full.run (Full.add_disk self name size) w in
  Full.outcome_of r = Returned (Failure "timeout waiting for new disk to be ready")
  /\ Full.slept (Full.trace_of r) = 65
  /\ Full.mutations (Full.trace_of r) = [Full.Called (Full.disks_insert diskname size)].
Proof.
  intros diskname Hvm Hinsert Hstalled r. subst r.
  unfold Full.add_disk.
  cbn [Full.execute Full.bind Full.try_except Full.run]. rewrite Hvm.
  cbn [Full.bind Full.try_except Full.run]. fold diskname. rewrite Hinsert.
  cbn [Full.bind]. rewrite full_run_bind.
  destruct (disk_ready_loop_stalled diskname Full.disk_fuel Hstalled 13 w2 ltac:(lia)
              ltac:(unfold Full.disk_fuel; lia)) as (w' & tr & Hrun & Hs & Hm).
  change (65 - 5 * Z.of_nat 13) with 0 in Hrun. rewrite Hrun.
  cbn [Full.run Full.outcome_of Full.trace_of fst snd Full.slept Full.mutations filter
       Full.is_mutation Full.mutating app].
  rewrite app_nil_r. fold (Full.mutations tr). rewrite Hs, Hm.
  repeat split; reflexivity.
Qed.

End AddDisk.

Lemma add_disk_times_out_without_attaching_witness :
  let r := Full.run (Full.add_disk gcp "vm1" 20) Full.Stalled in
  Full.outcome_of r = Returned (Failure "timeout waiting for new disk to be ready")
  /\ Full.slept (Full.trace_of r) = 65
  /\ Full.mutations (Full.trace_of r) = [Full.Called (Full.disks_insert "vm1-disk2" 20)].
Proof.
  apply (add_disk_times_out_without_attaching gcp "vm1" 20 Full.Stalled Full.Stalled
           Full.Stalled (Full.mkVm None "fp" ["d0"])
           (Cloud.handle "zones/z" "update" "vm1-disk2")).
  - reflexivity.
  - reflexivity.
  - intros w'. exists (Full.mkDisk "CREATING"). split; reflexivity.
Defined.

(** ** [update_metadata] *)

Lemma dict_set_lookup_same (key v : string) (d : list (string * string)) :
  lookup key (dict_set key v d) = Some v.
Proof.
  induction d as [| [k x] d IH]; cbn [dict_set lookup].
  - rewrite String.eqb_refl. reflexivity.
  - destruct (String.eqb k key) eqn:E; cbn [lookup]; rewrite E; [reflexivity | exact IH].
Qed.

Lemma dict_set_lookup_other (key k v : string) (d : list (string * string)) :
  k <> key -> lookup k (dict_set key v d) = lookup k d.
Proof.
  intros Hk. induction d as [| [k' x] d IH]; cbn [dict_set lookup].
  - destruct (String.eqb_spec key k) as [E | _]; [congruence | reflexivity].
  - destruct (String.eqb_spec k' key) as [-> | Hk']; cbn [lookup].
    + destruct (String.eqb_spec key k) as [E | _]; [congruence | reflexivity].
    + destruct (String.eqb k' k); [reflexivity | exact IH].
Qed.

Section Metadata.

Context {W : Type} `{Full.Backend W}.

(** X22: for an instance that is found, [update_metadata] returns [0];
    it issues no call beyond the lookup when the label already has the
    value; otherwise its one change is a [setLabels] with the fingerprint
    of the instance, whose labels give the new value to the label and leave
    every other label of the instance as it was. *)
Theorem update_metadata_sets_one_label (self : Kgcp) (name metatype metavalue : string)
  (w w1 : W) (vm : Full.vm_resource) :
  Full.exec (Full.instances_lookup name) w = (Ok vm, w1) ->
  let r := Full.run (Full.update_metadata self name metatype metavalue) w in
  (Full.label metatype vm = Some metavalue ->
   r = (Returned 0, w1, [Full.Called (Full.instances_lookup name)]))
  /\ (Full.label metatype vm <> Some metavalue ->
      exists labels,
        Full.trace_of r
        = [Full.Called (Full.instances_lookup name);
           Full.Called (Full.instances_setLabels name (Full.vmr_labelFingerprint vm)
                          [labels])]
        /\ lookup metatype labels = Some metavalue
        /\ (forall key, key <> metatype -> lookup key labels = Full.label key vm)
        /\ match Full.outcome_of r with
           | Returned code => code = 0
           | Raised _ => True
           | Diverged => False
           end).
Proof.
  intros Hvm r. subst r. unfold Full.update_metadata, Full.label, Full.error.
  cbn [Full.execute Full.bind Full.try_except Full.run]. rewrite Hvm.
  cbn [Full.bind Full.try_except Full.run].
  destruct (Full.vmr_labels vm) as [labels |].
  - destruct (lookup metatype labels) as [v |] eqn:Hv.
    + destruct (String.eqb_spec v metavalue) as [-> | Hne]; cbn [negb].
      * split; [intros _; reflexivity | congruence].
      * split; [congruence |]. intros _.
        cbn [Full.execute Full.bind Full.run].
        destruct (Full.exec (Full.instances_setLabels _ _ _) w1) as [[op | e] w2];
          cbn [Full.bind Full.run Full.trace_of Full.outcome_of fst snd];
          eexists; (split; [reflexivity |]); (split; [apply dict_set_lookup_same |]);
          (split; [intros key Hkey; apply dict_set_lookup_other; exact Hkey |]);
          exact I || reflexivity.
    + split; [congruence |]. intros _.
      cbn [Full.execute Full.bind Full.run].
      destruct (Full.exec (Full.instances_setLabels _ _ _) w1) as [[op | e] w2];
        cbn [Full.bind Full.run Full.trace_of Full.outcome_of fst snd];
        eexists; (split; [reflexivity |]); (split; [apply dict_set_lookup_same |]);
        (split; [intros key Hkey; apply dict_set_lookup_other; exact Hkey |]);
        exact I || reflexivity.
  - split; [congruence |]. intros _.
    cbn [lookup Full.execute Full.bind Full.run].
    destruct (Full.exec (Full.instances_setLabels _ _ _) w1) as [[op | e] w2];
      cbn [Full.bind Full.run Full.trace_of Full.outcome_of fst snd];
      eexists; (split; [reflexivity |]); (split; [apply dict_set_lookup_same |]);
      (split; [intros key Hkey;
               exact (dict_set_lookup_other metatype key metavalue [] Hkey) |]);
      exact I || reflexivity.
Qed.

End Metadata.

Lemma update_metadata_sets_one_label_witness :
  let r := Full.run (Full.update_metadata gcp "vm1" "plan" "kvirt") tt in
  let vm := Full.mkVm (Some [("domain", "example-com"); ("plan", "kvirt")]) "fp" ["d0"] in
  (Full.label "plan" vm = Some "kvirt" ->
   r = (Returned 0, tt, [Full.Called (Full.instances_lookup "vm1")]))
  /\ (Full.label "plan" vm <> Some "kvirt" ->
      exists labels,
        Full.trace_of r
        = [Full.Called (Full.instances_lookup "vm1");
           Full.Called (Full.instances_setLabels "vm1" (Full.vmr_labelFingerprint vm)
                          [labels])]
        /\ lookup "plan" labels = Some "kvirt"
        /\ (forall key, key <> "plan" -> lookup key labels = Full.label key vm)
        /\ match Full.outcome_of r with
           | Returned code => code = 0
           | Raised _ => True
           | Diverged => False
           end).
Proof.
  exact (update_metadata_sets_one_label gcp "vm1" "plan" "kvirt" tt tt
           (Full.mkVm (Some [("domain", "example-com"); ("plan", "kvirt")]) "fp" ["d0"])
           eq_refl).
Defined.

(** A label that is new, or has another value, is written with the other
    labels kept. *)
Example update_metadata_adds_a_label :
  Full.mutations (Full.trace_of (Full.run (Full.update_metadata gcp "vm1" "loadbalancer" "lb-1")
                                          tt))
  = [Full.Called (Full.instances_setLabels "vm1" "fp"
                    [[("domain", "example-com"); ("plan", "kvirt");
                      ("loadbalancer", "lb-1")]])].
Proof. reflexivity. Qed.

(** ** [delete_image], [delete_subnet] and [create_subnet] *)

Lemma uses_list_project_networks (self : Kgcp) (project : string) :
  Full.uses Full.reading (Full.list_project_networks self project).
Proof.
  unfold Full.list_project_networks.
  apply full_uses_bind; [apply full_uses_execute; reflexivity |]. intros items.
  apply full_uses_for_fold. intros networks net. cbv zeta.
  apply full_uses_bind; [| intros; exact I].
  destruct (String.eqb _ ""); [| exact I].
  apply full_uses_try_except; [| intros; exact I].
  apply full_uses_bind; [apply full_uses_execute; reflexivity | intros; exact I].
Qed.

Lemma uses_list_networks (self : Kgcp) : Full.uses Full.reading (Full.list_networks self).
Proof.
  unfold Full.list_networks. apply full_uses_for_fold. intros networks project.
  apply full_uses_bind; [apply uses_list_project_networks | intros; exact I].
Qed.

Lemma uses_list_subnets (self : Kgcp) : Full.uses Full.reading (Full.list_subnets self).
Proof.
  unfold Full.list_subnets. apply full_uses_for_fold. intros subnets project.
  apply full_uses_bind; [apply full_uses_execute; reflexivity |]. intros subnets_data.
  cbv zeta.
  apply full_uses_bind; [apply full_uses_execute; reflexivity | intros; exact I].
Qed.

Ltac refold_mutations :=
  repeat change (filter Full.is_mutation ?x) with (Full.mutations x);
  repeat change (Full.mutations []) with (@nil Full.event).

Ltac unchanged Hm :=
  unfold Full.trace_of, Full.outcome_of; cbn [fst snd];
  rewrite ?full_mutations_app, ?Hm;
  cbn [app Full.mutations filter Full.is_mutation Full.mutating mutating];
  refold_mutations;
  try discriminate.

Ltac waited Hwait :=
  rewrite ?full_mutations_app, ?Hwait; refold_mutations; cbn [app].

Section Subnets.

Context {W : Type} `{Full.Backend W}.

(** The Waiter, lifted and run: it does not diverge and changes nothing. *)
Lemma full_run_wait (self : Kgcp) (op : operation) (w : W) :
  Full.outcome_of (Full.run (Full.lift (_wait_for_operation self op)) w) <> Diverged
  /\ Full.mutations (Full.trace_of (Full.run (Full.lift (_wait_for_operation self op)) w))
     = [].
Proof.
  split.
  - apply (full_within_run _ 61 61 (full_within_wait self op) w).
  - apply full_reading_no_mutation, full_uses_wait.
Qed.

Lemma run_wait_then {A : Type} (self : Kgcp) (op : operation) (a : A) (w w' : W)
  (o : outcome A) (tr : list Full.event) :
  Full.run (Full.bind (Full.lift (_wait_for_operation self op)) (fun _ => Full.Ret a)) w
  = (o, w', tr) ->
  Full.mutations tr = [] /\ o <> Diverged.
Proof.
  rewrite full_run_bind. destruct (full_run_wait self op w) as [Hdiv Hwait].
  destruct (Full.run (Full.lift (_wait_for_operation self op)) w) as [[[[] | e | ] w1] tr1];
    cbn [Full.run Full.outcome_of Full.trace_of fst snd] in *;
    intros E; inversion E; subst; rewrite ?app_nil_r;
    (split; [exact Hwait | congruence]).
Qed.

(** X23: [delete_image] never raises and never hangs, and its result is
    decided as follows.  When the deletion of the image raises, whatever
    the exception, it returns the failure [Image <image> not found] and
    has issued that call only.  When the deletion is accepted, it returns
    success if the wait for the operation returns, and the same failure if
    the wait raises, although the deletion was accepted.  The deletion of
    that image is the only mutating call of a run. *)
Theorem delete_image_never_raises (self : Kgcp) (image : string) (w : W) :
  let r := Full.run (Full.delete_image self image) w in
  let not_found := Failure ("Image " ++ image ++ " not found") in
  Full.mutations (Full.trace_of r) = [Full.Called (Full.images_delete image)]
  /\ match Full.exec (Full.images_delete image) w with
     | (Err _, w1) =>
         r = (Returned not_found, w1,
              [Full.Logged Info_ ("Deleting image " ++ image);
               Full.Called (Full.images_delete image)])
     | (Ok operation, w1) =>
         let waited := Full.run (Full.lift (_wait_for_operation self operation)) w1 in
         Full.world_of r = Full.world_of waited
         /\ match Full.outcome_of waited with
            | Returned _ => Full.outcome_of r = Returned Success
            | Raised _ => Full.outcome_of r = Returned not_found
            | Diverged => False
            end
     end.
Proof.
  intros r not_found. subst r not_found. unfold Full.delete_image, Full.pprint.
  cbn [Full.bind Full.run]. rewrite full_run_try_except.
  cbn [Full.execute Full.bind Full.run].
  destruct (Full.exec (Full.images_delete image) w) as [[op | e] w1]; cbn [Full.bind].
  - rewrite full_run_bind.
    destruct (full_run_wait self op w1) as [Hdiv Hwait].
    destruct (Full.run (Full.lift (_wait_for_operation self op)) w1) as [[[[] | e | ] w2] tr];
      cbn [Full.run Full.outcome_of Full.world_of Full.trace_of fst snd] in *;
      try contradiction;
      (split; [| split; reflexivity]);
      rewrite ?app_nil_r; mutations_norm;
      cbn [Full.is_mutation Full.mutating]; rewrite Hwait; reflexivity.
  - cbn [Full.run Full.outcome_of Full.trace_of fst snd]. split; reflexivity.
Qed.

(** X24: on every backend [delete_subnet] changes at most one thing, the
    subnetwork of the given name; it deletes nothing unless the name is
    among the subnetworks it listed, and a run that deletes nothing never
    returns success. *)
Theorem delete_subnet_deletes_that_subnet (self : Kgcp) (name : string) (w : W) :
  let r := Full.run (Full.delete_subnet self name) w in
  match Full.mutations (Full.trace_of r) with
  | [] => Full.outcome_of r <> Returned Success
  | [Full.Called (Full.subnetworks_delete subnetwork)] =>
      subnetwork = name
      /\ exists subnets, Full.outcome_of (Full.run (Full.list_subnets self) w) = Returned subnets
                         /\ dict_mem name subnets = true
  | _ => False
  end.
Proof.
  intros r. subst r. unfold Full.delete_subnet. rewrite full_run_bind.
  pose proof (full_reading_no_mutation (Full.list_subnets self) w (uses_list_subnets self))
    as Hm.
  destruct (Full.run (Full.list_subnets self) w) as [[[subnets | e | ] w1] tr1];
    cbn [Full.trace_of snd] in Hm; [| unchanged Hm | unchanged Hm].
  destruct (dict_mem name subnets) eqn:Hmem; cbn [negb]; [| cbn [Full.run]; unchanged Hm].
  cbn [Full.execute Full.bind Full.run].
  destruct (Full.exec (Full.subnetworks_delete name) w1) as [[op | e] w2]; cbn [Full.bind].
  - rewrite full_run_bind.
    destruct (full_run_wait self op w2) as [_ Hwait].
    destruct (Full.run (Full.lift (_wait_for_operation self op)) w2) as [[[[] | e | ] w3] tr];
      cbn [Full.trace_of snd] in Hwait; cbn [Full.run]; unchanged Hm;
      waited Hwait;
      (split; [reflexivity | exists subnets; (split; [reflexivity | exact Hmem])]).
  - cbn [Full.run]. unchanged Hm.
    split; [reflexivity |]. exists subnets. split; [reflexivity | exact Hmem].
Qed.

(** X25: [create_subnet] validates before it changes anything.  On every
    backend its only possible change is the insertion of the subnetwork of
    the given name and CIDR, and it is made only when the CIDR, and the
    second CIDR when one is given, are valid; a run that inserts nothing
    never returns success. *)
Theorem create_subnet_validates_first (ip_network : string -> bool) (self : Kgcp)
  (name cidr : string) (overrides : Full.subnet_overrides) (w : W) :
  let r := Full.run (Full.create_subnet ip_network self name cidr overrides) w in
  match Full.mutations (Full.trace_of r) with
  | [] => Full.outcome_of r <> Returned Success
  | [Full.Called (Full.base (subnetworks_insert body))] =>
      ip_network cidr = true
      /\ match Full.so_dual_cidr overrides with
         | Some dual_cidr => ip_network dual_cidr
         | None => true
         end = true
      /\ sn_name body = name
      /\ sn_ipCidrRange body = cidr
  | _ => False
  end.
Proof.
  intros r. subst r. unfold Full.create_subnet. cbv zeta. rewrite full_run_bind.
  pose proof (full_reading_no_mutation (Full.list_networks self) w (uses_list_networks self))
    as Hm.
  destruct (Full.run (Full.list_networks self) w) as [[[networks | e | ] w1] tr1];
    cbn [Full.trace_of snd] in Hm; [| unchanged Hm | unchanged Hm].
  destruct (dict_mem _ networks); cbn [negb]; [| cbn [Full.run]; unchanged Hm].
  destruct (ip_network cidr) eqn:Hcidr; cbn [negb]; [| cbn [Full.run]; unchanged Hm].
  rewrite full_run_bind, full_run_execute.
  destruct (Full.exec (Full.networks_get _) w1) as [[net | e] w2]; cbv match;
    [| unchanged Hm].
  rewrite full_run_bind.
  destruct (Full.so_dual_cidr overrides) as [dual_cidr |];
    [destruct (ip_network dual_cidr) eqn:Hdual |]; cbn [negb Full.run]; cbv match;
    try (cbn [app]; unchanged Hm);
    rewrite full_run_bind, full_run_execute;
    (destruct (Full.exec (Full.base (subnetworks_insert _)) w2) as [[op | e] w3]; cbv match;
     [| cbn [app]; unchanged Hm; repeat split; reflexivity]);
    destruct (Full.run (Full.bind (Full.lift (_wait_for_operation self op)) _) w3)
      as [[o w4] tr] eqn:Hrun;
    apply run_wait_then in Hrun; destruct Hrun as [Hwait _];
    cbn [app]; unchanged Hm; waited Hwait; repeat split; reflexivity.
Qed.

End Subnets.

(** ** [delete_network] and [delete] *)

Lemma within_delete_dns (self : Kgcp) (name domain : string) :
  within 4 0 (delete_dns self name domain).
Proof.
  unfold delete_dns. rewrite cluster_rule_ret. cbv zeta.
  destruct (if String.eqb _ _ then _ else _) as [[cluster host] dom]. cbn [bind].
  split_budget 1%nat 0 3%nat 0; [lia | | apply within_execute].
  intros zones. destruct (matching_zones dom zones) as [| dnszone others];
    [cbn [within]; lia |].
  split_budget 1%nat 0 2%nat 0; [lia | | apply within_execute].
  intros all.
  split_budget 1%nat 0 1%nat 0; [lia | |].
  2:{ destruct (flat_map _ all); [cbn [within]; lia | apply within_execute]. }
  intros _.
  cbn [execute bind try_except within].
  intros [op | e]; cbn [bind try_except within]; lia.
Qed.

Section Networks.

Context {W : Type} `{Full.Backend W}.



(** X27: the outcomes of [delete], on every backend: it returns success
    only after the call that deletes the instance; it returns a failure
    only for an instance whose lookup failed, with that lookup as its one
    call; it returns nothing else, and it never hangs.  Whatever else
    fails (the cleaning of the DNS records, the deletion of the instance)
    is raised to the caller, the deletion of the cluster's firewall rule
    excepted. *)
Theorem delete_outcomes (self : Kgcp) (name : string) (w : W) :
  let r := Full.run (Full.delete self name) w in
  match Full.outcome_of r with
  | Returned Success => In (Full.Called (Full.instances_delete name)) (Full.trace_of r)
  | Returned (Failure reason) =>
      reason = "VM " ++ name ++ " not found"
      /\ Full.trace_of r = [Full.Called (Full.instances_lookup name)]
  | Returned PyNone => False
  | Raised _ => True
  | Diverged => False
  end.
Proof.
  intros r. subst r. unfold Full.delete.
  rewrite full_run_bind, full_run_try_except, full_run_bind, full_run_execute.
  destruct (Full.exec (Full.instances_lookup name) w) as [[vm | e] w1];
    cbn [Full.run app]; cbv match.
  2:{ cbn [Full.outcome_of Full.trace_of fst snd]. split; reflexivity. }
  cbv zeta. rewrite full_run_bind.
  assert (Hdns : forall p : Full.prog unit, Full.within 4 0 p ->
            Full.outcome_of (Full.run p w1) <> Diverged).
  { intros p Hp. apply (full_within_run p 4 0 Hp w1). }
  match goal with
  | |- context [Full.run ?p w1] =>
      assert (Hp : Full.within 4 0 p);
      [| specialize (Hdns p Hp); destruct (Full.run p w1) as [[[[] | e | ] w2] tr2]]
  end.
  { destruct (option_map _ (Full.label "domain" vm)) as [domain |];
      [destruct (Full.label "dnsclient" vm) |]; try (cbn [Full.within]; lia).
    refine (full_within_weaken _ (4 + 0)%nat _ (0 + 0) _ _ _ _);
      [apply full_within_bind | lia | lia];
      [lia | intros; cbn [Full.within]; lia |].
    apply full_within_lift, within_delete_dns. }
  - rewrite full_run_bind, full_run_execute.
    destruct (Full.exec (Full.instances_delete name) w2) as [[op | e] w3]; cbv match;
      [| exact I].
    rewrite full_run_bind.
    match goal with
    | |- context [Full.run ?p w3] =>
        assert (Hkube : Full.outcome_of (Full.run p w3) <> Diverged
                        /\ forall e, Full.outcome_of (Full.run p w3) <> Raised e)
    end.
    { destruct (Full.label "kube" vm) as [kube |];
        [| cbn [Full.run Full.outcome_of fst]; split; [| intros e]; discriminate].
      rewrite full_run_try_except, full_run_bind, full_run_execute.
      destruct (Full.exec (Full.base (firewalls_delete kube)) w3) as [[fw | e] w4];
        cbv match.
      - destruct (full_run_wait self fw w4) as [Hdiv _].
        destruct (Full.run (Full.lift (_wait_for_operation self fw)) w4)
          as [[[[] | e | ] w5] tr5]; cbn [Full.run Full.outcome_of fst] in *;
          try contradiction; split; try intros ?; discriminate.
      - cbn [Full.run Full.outcome_of fst]. split; [| intros ?]; discriminate. }
    destruct Hkube as [Hdiv Hraise].
    match goal with
    | |- context [Full.run ?p w3] => destruct (Full.run p w3) as [[[[] | e | ] w4] tr4]
    end; cbn [Full.outcome_of fst] in *;
      [| exfalso; apply (Hraise e); reflexivity | contradiction].
    cbn [Full.run Full.outcome_of Full.trace_of fst snd app].
    right. apply in_or_app. right. left. reflexivity.
  - exact I.
  - cbn [Full.outcome_of fst] in Hdns. contradiction.
Qed.

End Networks.

(** ** Programs of the sections above inside the others *)

(** A lifted program runs as the program it lifts, on the backend as that
    program sees it. *)
Lemma full_run_lift {W : Type} `{Full.Backend W} {A : Type} (p : prog A) (w : W) :
  Full.run (Full.lift p) w
  = let '(o, w', tr) := @run W Full.core A p w in (o, w', map Full.lift_event tr).
Proof.
  revert w. induction p as [a | e | c k IH | ev k IH | ]; intros w;
    cbn [Full.lift Full.run run map]; try reflexivity.
  - change (@exec W Full.core c w) with (Full.exec (Full.base c) w).
    destruct (Full.exec (Full.base c) w) as [r w1]. rewrite IH.
    destruct (@run W Full.core A (k r) w1) as [[o w2] tr]. reflexivity.
  - rewrite IH. destruct (@run W Full.core A k w) as [[o w1] tr]. reflexivity.
Qed.

Section DeleteDns.

Context {W : Type} `{Full.Backend W}.

(** X28: [delete] cleans the DNS records before it deletes the instance,
    and only for an instance labelled with a domain and no [dnsclient].
    For such an instance the calls that follow the lookup are those of
    [delete_dns] for the name and the domain of the label (hyphens turned
    into dots); when [delete_dns] raises, the exception is raised to the
    caller and the instance is not deleted; otherwise the next call
    deletes the instance.  For any other instance the call that follows
    the lookup deletes the instance. *)
Theorem delete_cleans_dns_first (self : Kgcp) (name : string) (w w1 : W)
  (vm : Full.vm_resource) :
  Full.exec (Full.instances_lookup name) w = (Ok vm, w1) ->
  let r := Full.run (Full.delete self name) w in
  match teardown_domain (Full.vmr_labels vm) with
  | Some domain =>
      let dns := @run W Full.core answer (delete_dns self name domain) w1 in
      exists rest,
        Full.trace_of r
        = (Full.Called (Full.instances_lookup name)
           :: map Full.lift_event (trace_of dns) ++ rest)%list
        /\ match outcome_of dns with
           | Returned _ => exists rest', rest = Full.Called (Full.instances_delete name) :: rest'
           | Raised e => rest = [] /\ Full.outcome_of r = Raised e
           | Diverged => False
           end
  | None =>
      exists rest,
        Full.trace_of r
        = Full.Called (Full.instances_lookup name)
          :: Full.Called (Full.instances_delete name) :: rest
  end.
Proof.
  intros Hvm r. subst r. unfold Full.delete.
  rewrite full_run_bind, full_run_try_except, full_run_bind, full_run_execute, Hvm.
  cbn [Full.run app]. cbv match zeta.
  unfold teardown_domain, Full.label.
  destruct (Full.vmr_labels vm) as [labels |].
  - destruct (lookup "domain" labels) as [d |]; cbn [option_map].
    + destruct (lookup "dnsclient" labels) as [client |].
      * rewrite full_run_bind. cbn [Full.run]. cbv match beta.
        rewrite full_run_bind, full_run_execute.
        destruct (Full.exec (Full.instances_delete name) w1) as [[op | e] w2]; cbv match.
        -- destruct (Full.run _ w2) as [[o w3] tr3]. eexists. reflexivity.
        -- eexists. reflexivity.
      * rewrite !full_run_bind, full_run_lift.
        pose proof (within_run _ 4 0 (within_delete_dns self name (Py.replace "-" "." d))
                      (H := Full.core) w1) as (Hdiv & _).
        destruct (@run W Full.core answer (delete_dns self name (Py.replace "-" "." d)) w1)
          as [[[a | e | ] w2] tr2]; cbn [outcome_of trace_of fst snd Full.run] in *;
          [| | contradiction].
        -- cbv match beta. rewrite full_run_bind, full_run_execute.
           destruct (Full.exec (Full.instances_delete name) w2) as [[op | e] w3]; cbv match.
           ++ destruct (Full.run _ w3) as [[o w4] tr4].
              cbn [Full.trace_of snd app]. rewrite app_nil_r.
              eexists. split; [reflexivity |]. eexists. reflexivity.
           ++ cbn [Full.trace_of snd app]. rewrite app_nil_r.
              eexists. split; [reflexivity |]. eexists. reflexivity.
        -- cbn [Full.trace_of Full.outcome_of fst snd app].
           exists []. rewrite app_nil_r. split; [| split; reflexivity]. reflexivity.
    + rewrite full_run_bind. cbn [Full.run]. cbv match beta.
        rewrite full_run_bind, full_run_execute.
      destruct (Full.exec (Full.instances_delete name) w1) as [[op | e] w2]; cbv match.
      * destruct (Full.run _ w2) as [[o w3] tr3]. eexists. reflexivity.
      * eexists. reflexivity.
  - cbn [lookup option_map]. rewrite full_run_bind. cbn [Full.run]. cbv match beta.
        rewrite full_run_bind, full_run_execute.
    destruct (Full.exec (Full.instances_delete name) w1) as [[op | e] w2]; cbv match.
    + destruct (Full.run _ w2) as [[o w3] tr3]. eexists. reflexivity.
    + eexists. reflexivity.
Qed.

(** X29: [restart] turns every fault of the backend into the failure
    that says the instance was not found, and never raises; [start] and
    [stop] raise what the backend raises, and return that failure only
    when the backend answers with nothing. *)
Theorem restart_catches_start_and_stop_raise (self : Kgcp) (name : string) (w : W) :
  Full.outcome_of (Full.run (Full.restart self name) w)
  = match fst (Full.exec (Full.instances_reset name) w) with
    | Ok _ => Returned Success
    | Err _ => Returned (Failure ("VM " ++ name ++ " not found"))
    end
  /\ Full.outcome_of (Full.run (Full.start self name) w)
     = match fst (Full.exec (Full.instances_start name) w) with
       | Ok (Some _) => Returned Success
       | Ok None => Returned (Failure ("VM " ++ name ++ " not found"))
       | Err e => Raised e
       end
  /\ Full.outcome_of (Full.run (Full.stop self name) w)
     = match fst (Full.exec (Full.instances_stop name) w) with
       | Ok (Some _) => Returned Success
       | Ok None => Returned (Failure ("VM " ++ name ++ " not found"))
       | Err e => Raised e
       end.
Proof.
  unfold Full.restart, Full.start, Full.stop.
  cbn [Full.execute Full.bind Full.try_except Full.run].
  destruct (Full.exec (Full.instances_reset name) w) as [[op | e] w1];
    destruct (Full.exec (Full.instances_start name) w) as [[[op2 |] | e2] w2];
    destruct (Full.exec (Full.instances_stop name) w) as [[[op3 |] | e3] w3];
    repeat split; reflexivity.
Qed.

End DeleteDns.

Lemma delete_cleans_dns_first_witness :
  let r := Full.run (Full.delete gcp "vm1") tt in
  let dns := @run unit Full.core answer (delete_dns gcp "vm1" "example.com") tt in
  exists rest,
    Full.trace_of r
    = (Full.Called (Full.instances_lookup "vm1")
       :: map Full.lift_event (trace_of dns) ++ rest)%list
    /\ match outcome_of dns with
       | Returned _ => exists rest', rest = Full.Called (Full.instances_delete "vm1") :: rest'
       | Raised e => rest = [] /\ Full.outcome_of r = Raised e
       | Diverged => False
       end.
Proof.
  exact (delete_cleans_dns_first gcp "vm1" tt tt
           (Full.mkVm (Some [("domain", "example-com"); ("plan", "kvirt")]) "fp" ["d0"])
           eq_refl).
Defined.

(** On the obliging backend: the zone is listed, its records are listed,
    the address of the name is released, then the instance is deleted. *)
Example delete_labelled_instance :
  Full.trace_of (Full.run (Full.delete gcp "vm1") tt)
  = [Full.Called (Full.instances_lookup "vm1");
     Full.Called (Full.base dns_list_zones);
     Full.Called (Full.base (dns_list_resource_record_sets "example-com"));
     Full.Called (Full.base (addresses_delete "vm1"));
     Full.Called (Full.instances_delete "vm1")]
  /\ Full.outcome_of (Full.run (Full.delete gcp "vm1") tt) = Returned Success.
Proof. split; reflexivity. Qed.

(** ** [list_project_networks] *)

Lemma dict_mem_set_same {V : Type} (key : string) (v : V) (d : list (string * V)) :
  dict_mem key (dict_set key v d) = true.
Proof.
  unfold dict_mem. induction d as [| [k x] d IH]; cbn [dict_set existsb fst].
  - rewrite String.eqb_refl. reflexivity.
  - destruct (String.eqb k key) eqn:E; cbn [existsb fst]; rewrite E; [reflexivity | exact IH].
Qed.

Lemma dict_mem_set_kept {V : Type} (key k : string) (v : V) (d : list (string * V)) :
  dict_mem k d = true -> dict_mem k (dict_set key v d) = true.
Proof.
  unfold dict_mem. induction d as [| [k' x] d IH]; cbn [dict_set existsb fst];
    [discriminate |].
  intros Hk. destruct (String.eqb k' key) eqn:E; cbn [existsb fst].
  - exact Hk.
  - apply orb_prop in Hk. destruct Hk as [Hk | Hk]; [rewrite Hk; reflexivity |].
    rewrite (IH Hk). apply orb_true_r.
Qed.

Section ListNetworks.

Context {W : Type} `{Full.Backend W}.

Lemma run_collect_networks (self : Kgcp) (project : string)
  (items : list Full.network_item) :
  forall (networks : list (string * Full.network_info)) (w : W),
  exists result,
    Full.outcome_of
      (Full.run
         (Full.for_fold items networks (fun networks net =>
            Full.bind
              (if String.eqb match Full.ni_IPv4Range net with
                             | Some range => range
                             | None => ""
                             end ""
               then Full.try_except
                      (Full.bind
                         (Full.execute (Full.subnetworks_lookup project (Full.ni_name net)))
                         (fun subnet => Full.Ret (Full.si_ipCidrRange subnet)))
                      (fun _ => Full.Ret match Full.ni_IPv4Range net with
                                         | Some range => range
                                         | None => ""
                                         end)
               else Full.Ret match Full.ni_IPv4Range net with
                             | Some range => range
                             | None => ""
                             end)
              (fun cidr =>
                 Full.Ret (dict_set (Full.ni_name net)
                             (Full.mkNetworkInfo cidr true "" "routed" "") networks)))) w)
    = Returned result
    /\ (forall k, dict_mem k networks = true -> dict_mem k result = true)
    /\ forallb (fun item => dict_mem (Full.ni_name item) result) items = true.
Proof.
  induction items as [| net items IH]; intros networks w.
  - exists networks. cbn [Full.for_fold Full.run Full.outcome_of fst forallb].
    repeat split; auto.
  - cbn [Full.for_fold]. rewrite full_run_bind.
    assert (Hstep : exists cidr w1 tr1,
      Full.run
        (Full.bind
           (if String.eqb match Full.ni_IPv4Range net with
                          | Some range => range
                          | None => ""
                          end ""
            then Full.try_except
                   (Full.bind
                      (Full.execute (Full.subnetworks_lookup project (Full.ni_name net)))
                      (fun subnet => Full.Ret (Full.si_ipCidrRange subnet)))
                   (fun _ => Full.Ret match Full.ni_IPv4Range net with
                                      | Some range => range
                                      | None => ""
                                      end)
            else Full.Ret match Full.ni_IPv4Range net with
                          | Some range => range
                          | None => ""
                          end)
           (fun cidr =>
              Full.Ret (dict_set (Full.ni_name net)
                          (Full.mkNetworkInfo cidr true "" "routed" "") networks))) w
      = (Returned (dict_set (Full.ni_name net)
                     (Full.mkNetworkInfo cidr true "" "routed" "") networks), w1, tr1)).
    { rewrite full_run_bind.
      destruct (String.eqb _ "").
      - rewrite full_run_try_except, full_run_bind, full_run_execute.
        destruct (Full.exec (Full.subnetworks_lookup project (Full.ni_name net)) w)
          as [[subnet | e] w1]; cbn [Full.run app]; cbv match;
          do 3 eexists; reflexivity.
      - cbn [Full.run]. do 3 eexists. reflexivity. }
    destruct Hstep as (cidr & w1 & tr1 & Hstep). rewrite Hstep.
    destruct (IH (dict_set (Full.ni_name net)
                    (Full.mkNetworkInfo cidr true "" "routed" "") networks) w1)
      as (result & Ho & Hkept & Hall).
    destruct (Full.run (Full.for_fold items _ _) w1) as [[o w2] tr2].
    cbn [Full.outcome_of fst] in *. subst o.
    exists result. split; [reflexivity |]. split.
    + intros k Hk. apply Hkept, dict_mem_set_kept, Hk.
    + cbn [forallb]. rewrite Hall, andb_true_r. apply Hkept, dict_mem_set_same.
Qed.

(** X30: [list_project_networks] fails only when the listing of the
    networks fails.  When the listing answers, it returns a dictionary
    with an entry for every network listed, whether the lookup of the
    subnetwork of the same name answered or raised, and it has changed
    nothing. *)
Theorem list_project_networks_lists_every_network (self : Kgcp) (project : string)
  (w : W) :
  let r := Full.run (Full.list_project_networks self project) w in
  match fst (Full.exec (Full.networks_list project) w) with
  | Ok items =>
      exists networks,
        Full.outcome_of r = Returned networks
        /\ forallb (fun item => dict_mem (Full.ni_name item) networks) items = true
        /\ Full.mutations (Full.trace_of r) = []
  | Err e => Full.outcome_of r = Raised e
  end.
Proof.
  intros r.
  pose proof (full_reading_no_mutation _ w (uses_list_project_networks self project)) as Hm.
  fold r in Hm. subst r. revert Hm.
  unfold Full.list_project_networks. rewrite full_run_bind, full_run_execute.
  destruct (Full.exec (Full.networks_list project) w) as [[items | e] w1];
    cbn [fst]; cbv match; [| reflexivity].
  intros Hm.
  destruct (run_collect_networks self project items [] w1) as (result & Ho & _ & Hall).
  cbv zeta in Hm |- *.
  destruct (Full.run (Full.for_fold items [] _) w1) as [[o w2] tr2].
  cbn [Full.outcome_of Full.trace_of fst snd] in *. subst o.
  exists result. repeat split; assumption.
Qed.

End ListNetworks.
